(** * O-Terminal: the PTY lifecycle manager (src/core/pty-manager.ts)

    A shallow embedding of the [PTYManager] class and the properties of
    its specification.  The manager is stateful and talks to a host
    (the Electron bridge, node-pty handles, the file system), so the
    embedding is a state-and-exception monad over an explicit manager
    state; every call that leaves the manager is recorded in a trace. *)

From stdpp Require Import gmap strings list fin_maps pretty.
From Stdlib Require Import ZArith.

Set Warnings "-register-all".

Local Open Scope string_scope.
Local Open Scope Z_scope.
Local Open Scope list_scope.

(** ** Errors (src/types/errors.ts) *)

Inductive TerminalErrorType : Type :=
  | PTY_CREATION_FAILED
  | SHELL_NOT_FOUND
  | ELECTRON_NOT_AVAILABLE
  | NODE_PTY_NOT_AVAILABLE
  | PROCESS_TERMINATED
  | VIEW_CREATION_FAILED.

(** A reference to a [PTYOptions] object: the options record is a JS
    object that [createPTY] writes to, so it lives in a store. *)
Definition loc : Type := positive.

(** What a [throw] can carry: a [TerminalPluginError] (type, message,
    originalError, context; the only context the manager ever attaches is
    [{ options }], a reference), or a plain [Error] thrown by the host.
    Either is an [Error] object: its [message] is a string. *)
Inductive exn : Type :=
  | TerminalPluginError (type : TerminalErrorType) (message : string)
      (originalError : option exn) (context : option loc)
  | JsError (name : string) (message : string).

(** [error instanceof TerminalPluginError] *)
Definition instanceof_TerminalPluginError (e : exn) : bool :=
  match e with
  | TerminalPluginError _ _ _ _ => true
  | JsError _ _ => false
  end.

(** [(error as Error)?.message || error] inside a template literal: the
    message when it is non-empty, otherwise [String(error)]. *)
Definition message_or_error (e : exn) : string :=
  match e with
  | TerminalPluginError _ m _ _ =>
      if String.eqb m EmptyString then "TerminalPluginError" else m
  | JsError n m => if String.eqb m EmptyString then n else m
  end.

(** [error.message] *)
Definition error_message (e : exn) : string :=
  match e with
  | TerminalPluginError _ m _ _ => m
  | JsError _ m => m
  end.

(** [s.includes(sub)] on strings. *)
Fixpoint includes (s sub : string) : bool :=
  String.prefix sub s ||
  match s with
  | EmptyString => false
  | String _ rest => includes rest sub
  end.

Inductive result (A : Type) : Type :=
  | Ok (a : A)
  | Throw (e : exn).
Arguments Ok {A} a.
Arguments Throw {A} e.

(** ** Data model *)

(** A node-pty handle; a [Set<IPty>] compares handles by identity. *)
Definition IPty : Type := positive.

Record PTYSettingsProvider : Type := {
  defaultShell : string;
  shellArgs : list string;
}.

(** [args] and [env] may be absent: the source reads them as
    [options.args || []] and [options.env?.PATH]. *)
Record PTYOptions : Type := {
  shell : string;
  args : option (list string);
  cwd : string;
  env : option (gmap string string);
  cols : Z;
  rows : Z;
}.

(** The record after the assignment [options.cwd = c]. *)
Definition with_cwd (opts : PTYOptions) (c : string) : PTYOptions :=
  {| shell := shell opts; args := args opts; cwd := c;
     env := env opts; cols := cols opts; rows := rows opts |}.

(** The [spawnOptions] object literal of [createPTY]; [useConpty] is a key
    that is added on one branch only, hence an option. *)
Record SpawnOptions : Type := {
  spawn_name : string;
  spawn_cols : Z;
  spawn_rows : Z;
  spawn_cwd : string;
  spawn_env : option (gmap string string);
  spawn_encoding : string;
  useConpty : option bool;
}.

Record Dimensions : Type := {
  dim_cols : Z;
  dim_rows : Z;
}.

(** ** The host *)

(** The methods of one node-pty handle that the manager calls; each of
    them can throw.  [on] registers an observer for the named event. *)
Record PtyMethods : Type := {
  on : string → result unit;
  kill : result unit;
  resize : Z → Z → result unit;
  removeAllListeners : result unit;
}.

Record NodePty : Type := {
  spawn : string → list string → SpawnOptions → result IPty;
}.

Record Process : Type := {
  platform : string;
}.

(** The Electron bridge (./electron-bridge) is a collaborator of the
    manager and is taken as a parameter.  Getters are values; the calls
    that the manager wraps in a try/catch of their own, and [spawn], can
    throw. [validateShell] is the asynchronous check: its value is the
    outcome of the awaited promise (a rejection is a [Throw]). *)
Module ElectronBridge.
Record t : Type := {
  getNodePTY : option NodePty;
  getPtyLoadMode : string;
  getProcess : Process;
  validateShellSync : string → result bool;
  validateShell : string → result bool;
  getDefaultShell : result string;
  getEnvironmentVariables : gmap string string;
  getCurrentWorkingDirectory : string;
}.
End ElectronBridge.

(** What the manager reaches without the bridge: [fs.existsSync],
    [process.env.HOME] and the handles' own methods. *)
Record Host : Type := {
  existsSync : string → bool;
  env_HOME : option string;
  pty_object : IPty → PtyMethods;
}.

(** Calls that leave the manager and mutations of the active set, in the
    order they happen. [console.log] and [console.error] output is
    diagnostic only and not recorded; [console.warn] is, under the leading
    text of the call. *)
Inductive Event : Type :=
  | EvGetNodePTY
  | EvGetPtyLoadMode
  | EvGetProcess
  | EvValidateShellSync (shellPath : string)
  | EvValidateShell (shellPath : string)
  | EvGetDefaultShell
  | EvGetEnvironmentVariables
  | EvGetCurrentWorkingDirectory
  | EvSettingsProvider
  | EvExistsSync (path : string)
  | EvSpawn (file : string) (argv : list string) (options : SpawnOptions)
  | EvOn (pty : IPty) (event : string)
  | EvKill (pty : IPty)
  | EvResize (pty : IPty) (c r : Z)
  | EvRemoveAllListeners (pty : IPty)
  | EvWarn (text : string)
  | EvSetAdd (pty : IPty)
  | EvSetDelete (pty : IPty)
  | EvSetClear.

(** ** A JS [Set] of handles: insertion-ordered, no duplicates *)

Module JsSet.
Definition has (s : list IPty) (p : IPty) : bool := bool_decide (p ∈ s).
Definition add (s : list IPty) (p : IPty) : list IPty :=
  if has s p then s else s ++ [p].
Definition delete (s : list IPty) (p : IPty) : list IPty :=
  filter (λ q, q ≠ p) s.
Definition size (s : list IPty) : Z := Z.of_nat (length s).
End JsSet.

(** ** Manager state *)

Record State : Type := {
  activePTYs : list IPty;
  settingsProvider : option (unit → option PTYSettingsProvider);
  heap : gmap loc PTYOptions;
  trace : list Event;
}.

Definition set_activePTYs (f : list IPty → list IPty) (st : State) : State :=
  {| activePTYs := f (activePTYs st);
     settingsProvider := settingsProvider st;
     heap := heap st;
     trace := trace st |}.

Definition set_heap (f : gmap loc PTYOptions → gmap loc PTYOptions) (st : State) : State :=
  {| activePTYs := activePTYs st;
     settingsProvider := settingsProvider st;
     heap := f (heap st);
     trace := trace st |}.

Definition log_event (e : Event) (st : State) : State :=
  {| activePTYs := activePTYs st;
     settingsProvider := settingsProvider st;
     heap := heap st;
     trace := trace st ++ [e] |}.

(** ** The monad: state that survives a throw *)

Definition M (A : Type) : Type := State → result A * State.

Definition ret {A} (a : A) : M A := λ st, (Ok a, st).

Definition throw {A} (e : exn) : M A := λ st, (Throw e, st).

Definition bind {A B} (m : M A) (k : A → M B) : M B :=
  λ st, match m st with
        | (Ok a, st') => k a st'
        | (Throw e, st') => (Throw e, st')
        end.

(** [try { m } catch (error) { h error }] *)
Definition try_catch {A} (m : M A) (h : exn → M A) : M A :=
  λ st, match m st with
        | (Ok a, st') => (Ok a, st')
        | (Throw e, st') => h e st'
        end.

Definition emit (e : Event) : M unit := λ st, (Ok tt, log_event e st).

Definition modify (f : State → State) : M unit := λ st, (Ok tt, f st).

Definition gets {A} (f : State → A) : M A := λ st, (Ok (f st), st).

(** [this.activePTYs.add(pty)], [.delete(pty)] and [.clear()] *)
Definition active_add (pty : IPty) : M unit :=
  λ st, (Ok tt, log_event (EvSetAdd pty) (set_activePTYs (λ s, JsSet.add s pty) st)).

Definition active_delete (pty : IPty) : M unit :=
  λ st, (Ok tt, log_event (EvSetDelete pty) (set_activePTYs (λ s, JsSet.delete s pty) st)).

Definition active_clear : M unit :=
  λ st, (Ok tt, log_event EvSetClear (set_activePTYs (λ _, []) st)).

(** The outcome of a host call becomes the outcome of the computation. *)
Definition lift {A} (r : result A) : M A := λ st, (r, st).

Notation "x <- m ;; k" := (bind m (λ x, k))
  (at level 100, m at next level, right associativity).
Notation "m ;; k" := (bind m (λ _, k))
  (at level 100, right associativity).

(** [array.forEach(f)]: in order, a throw ends the loop. *)
Fixpoint forEach {A} (f : A → M unit) (l : list A) : M unit :=
  match l with
  | [] => ret tt
  | x :: rest => f x ;; forEach f rest
  end.

(** The one-character string holding a double quote. *)
Definition dquote : string :=
  Eval cbv in String (Ascii.ascii_of_nat 34) EmptyString.

(** [a || b] on a possibly-undefined string: the empty string is falsy. *)
Definition str_or (a : option string) (b : string) : string :=
  match a with
  | Some v => if String.eqb v EmptyString then b else v
  | None => b
  end.

(** ** The manager (class [PTYManager]) *)

Module PTYManager.
Section Manager.

Variable bridge : ElectronBridge.t.
Variable host : Host.
(** [DEFAULT_TERMINAL_DIMENSIONS] of "@/constants". *)
Variable DEFAULT_TERMINAL_DIMENSIONS : Dimensions.

(** Reading a property of the options object; a reference that holds
    no object is [undefined], and reading a property of it throws. *)
Definition read_options (o : loc) : M PTYOptions :=
  λ st, match heap st !! o with
        | Some opts => (Ok opts, st)
        | None => (Throw (JsError "TypeError"
                    "Cannot read properties of undefined (reading 'shell')"), st)
        end.

(** [options.cwd = v] *)
Definition write_cwd (o : loc) (v : string) : M unit :=
  modify (set_heap (alter (λ opts, with_cwd opts v) o)).

(** A fresh object literal. *)
Definition alloc_options (opts : PTYOptions) : M loc :=
  λ st, let o := fresh (dom (heap st)) in
        (Ok o, set_heap (insert o opts) st).

Definition setSettingsProvider (provider : unit → option PTYSettingsProvider) : M unit :=
  modify (λ st,
    {| activePTYs := activePTYs st;
       settingsProvider := Some provider;
       heap := heap st;
       trace := trace st |}).

(** [validateShellPath]: the bridge's synchronous check; a throw of the
    check is caught, warned about, and answered [false]. *)
Definition validateShellPath (shellPath : string) : M bool :=
  try_catch
    (emit (EvValidateShellSync shellPath) ;;
     lift (ElectronBridge.validateShellSync bridge shellPath))
    (λ error,
      emit (EvWarn "Shell validation check failed:") ;;
      ret false).

(** [options.args || []] *)
Definition args_or_empty (a : option (list string)) : list string :=
  match a with
  | Some l => l
  | None => []
  end.

(** The body of the [try] block of [createPTY]. *)
Definition createPTY_try (o : loc) : M IPty :=
  _ <- read_options o ;;
  emit EvGetNodePTY ;;
  emit EvGetPtyLoadMode ;;
  match ElectronBridge.getNodePTY bridge with
  | None =>
      throw (TerminalPluginError NODE_PTY_NOT_AVAILABLE
               "node-pty module is not available" None None)
  | Some nodePty =>
      options <- read_options o ;;
      shellExists <- validateShellPath (shell options) ;;
      if negb shellExists then
        throw (TerminalPluginError SHELL_NOT_FOUND
                 ("Shell not found: " +:+ shell options) None None)
      else
        options <- read_options o ;;
        emit (EvExistsSync (cwd options)) ;;
        (if negb (existsSync host (cwd options)) then
           emit (EvWarn "⚠️ CWD does not exist, falling back to HOME") ;;
           write_cwd o (str_or (env_HOME host) "/")
         else ret tt) ;;
        emit EvGetProcess ;;
        let isWindows :=
          String.eqb (platform (ElectronBridge.getProcess bridge)) "win32" in
        options <- read_options o ;;
        let spawnOptions :=
          {| spawn_name := "xterm-256color";
             spawn_cols := cols options;
             spawn_rows := rows options;
             spawn_cwd := cwd options;
             spawn_env := env options;
             spawn_encoding := "utf8";
             useConpty := if isWindows then Some true else None |} in
        emit (EvSpawn (shell options) (args_or_empty (args options)) spawnOptions) ;;
        pty <- lift (spawn nodePty (shell options)
                       (args_or_empty (args options)) spawnOptions) ;;
        active_add pty ;;
        emit (EvOn pty "error") ;;
        lift (on (pty_object host pty) "error") ;;
        emit (EvOn pty "exit") ;;
        lift (on (pty_object host pty) "exit") ;;
        ret pty
  end.

(** The [console.error] hints of the [catch] block of [createPTY]: one
    of them prints [options.shell], a read of the options object; their
    output is not recorded. *)
Definition console_error_hints (o : loc) : M unit :=
  _ <- read_options o ;;
  ret tt.

(** The [catch] block of [createPTY].  What was thrown is an [Error], as
    the source's cast [(error as Error)] has it: its message is a string,
    on which [includes] is defined.  The hints are printed when the
    message names posix_spawnp; then a typed error is rethrown as it is,
    and anything else is wrapped with the options object as context. *)
Definition createPTY_catch (o : loc) (error : exn) : M IPty :=
  let errorMsg := str_or (Some (error_message error)) EmptyString in
  (if includes errorMsg "posix_spawnp" then console_error_hints o else ret tt) ;;
  if instanceof_TerminalPluginError error then throw error
  else
    throw (TerminalPluginError PTY_CREATION_FAILED
             ("Failed to create PTY process: " +:+ message_or_error error)
             (Some error) (Some o)).

Definition createPTY (o : loc) : M IPty :=
  try_catch (createPTY_try o) (createPTY_catch o).

(** The two observers that [createPTY] registers on a handle. *)
Definition on_error (pty : IPty) : M unit := active_delete pty.

Definition on_exit (pty : IPty) : M unit := active_delete pty.

Definition destroyPTY (pty : IPty) : M unit :=
  try_catch
    (tracked <- gets (λ st, JsSet.has (activePTYs st) pty) ;;
     if tracked then
       active_delete pty ;;
       try_catch
         (emit (EvKill pty) ;; lift (kill (pty_object host pty)))
         (λ error, emit (EvWarn "Failed to kill PTY process:")) ;;
       emit (EvRemoveAllListeners pty) ;;
       lift (removeAllListeners (pty_object host pty))
     else ret tt)
    (λ error,
      throw (TerminalPluginError PTY_CREATION_FAILED
               "Failed to destroy PTY process" (Some error) None)).

(** The [switch (proc.platform)] in the [catch] block of
    [getSystemDefaultShell]. *)
Definition getSystemDefaultShell_switch (p : string) : string :=
  if String.eqb p "win32" then "cmd.exe"
  else if String.eqb p "darwin" then "/bin/zsh"
  else if String.eqb p "linux" then "/bin/bash"
  else "/bin/sh".

Definition getSystemDefaultShell : M string :=
  try_catch
    (emit EvGetDefaultShell ;;
     lift (ElectronBridge.getDefaultShell bridge))
    (λ error,
      emit EvGetProcess ;;
      ret (getSystemDefaultShell_switch
             (platform (ElectronBridge.getProcess bridge)))).

(** [this.settingsProvider?.()] with the call recorded. *)
Definition call_settingsProvider : M (option PTYSettingsProvider) :=
  provider <- gets settingsProvider ;;
  match provider with
  | Some f => emit EvSettingsProvider ;; ret (f tt)
  | None => ret None
  end.

Definition getDefaultShell : M string :=
  settings <- call_settingsProvider ;;
  configured <-
    match settings with
    | Some s =>
        if negb (String.eqb (defaultShell s) EmptyString) then
          emit (EvValidateShellSync (defaultShell s)) ;;
          valid <- lift (ElectronBridge.validateShellSync bridge (defaultShell s)) ;;
          if (valid : bool) then ret (Some (defaultShell s))
          else
            emit (EvWarn ("Configured shell " +:+ dquote +:+ defaultShell s +:+
                          dquote +:+ " is invalid, falling back to system default")) ;;
            ret None
        else ret None
    | None => ret None
    end ;;
  match configured with
  | Some sh => ret sh
  | None => getSystemDefaultShell
  end.

(** The environment object literal [utf8Env] of [getDefaultOptions],
    with the win32 assignments that follow it. *)
Definition utf8Env (baseEnv : gmap string string) (platform : string)
    : gmap string string :=
  let e :=
    <["LC_CTYPE" := str_or (baseEnv !! "LC_CTYPE") "zh_CN.UTF-8"]>
      (<["LC_ALL" := str_or (baseEnv !! "LC_ALL") "zh_CN.UTF-8"]>
         (<["LANG" := str_or (baseEnv !! "LANG") "zh_CN.UTF-8"]> baseEnv)) in
  if String.eqb platform "win32" then
    <["PYTHONIOENCODING" := "utf-8"]> (<["CHCP" := "65001"]> e)
  else e.

(** [settings?.shellArgs ?? []] *)
Definition shellArgs_or_empty (settings : option PTYSettingsProvider) : list string :=
  match settings with
  | Some s => shellArgs s
  | None => []
  end.

Definition getDefaultOptions : M loc :=
  emit EvGetEnvironmentVariables ;;
  let baseEnv := ElectronBridge.getEnvironmentVariables bridge in
  emit EvGetProcess ;;
  let proc := ElectronBridge.getProcess bridge in
  let env := utf8Env baseEnv (platform proc) in
  settings <- call_settingsProvider ;;
  let shellArgs := shellArgs_or_empty settings in
  sh <- getDefaultShell ;;
  emit EvGetCurrentWorkingDirectory ;;
  alloc_options
    {| shell := sh;
       args := Some shellArgs;
       cwd := ElectronBridge.getCurrentWorkingDirectory bridge;
       env := Some env;
       cols := dim_cols DEFAULT_TERMINAL_DIMENSIONS;
       rows := dim_rows DEFAULT_TERMINAL_DIMENSIONS |}.

Definition resizeAllPTYs (c r : Z) : M unit :=
  ptys <- gets activePTYs ;;
  forEach (λ pty,
    try_catch
      (emit (EvResize pty c r) ;; lift (resize (pty_object host pty) c r))
      (λ error, emit (EvWarn "Failed to resize PTY:"))) ptys.

Definition getActivePTYCount : M Z :=
  gets (λ st, JsSet.size (activePTYs st)).

Definition cleanup : M unit :=
  ptysToDestroy <- gets activePTYs ;;
  forEach destroyPTY ptysToDestroy ;;
  active_clear.

(** The [switch (proc.platform)] of [getAlternativeShells]. *)
Definition PlatformShellTable (p : string) : list string :=
  if String.eqb p "win32" then
    [ "powershell.exe";
      "cmd.exe";
      "C:\Windows\System32\WindowsPowerShell\v1.0\powershell.exe";
      "C:\Windows\System32\cmd.exe" ]
  else if String.eqb p "darwin" then
    [ "/bin/zsh"; "/bin/bash"; "/bin/sh";
      "/usr/local/bin/zsh"; "/usr/local/bin/bash" ]
  else if String.eqb p "linux" then
    [ "/bin/bash"; "/bin/sh"; "/bin/zsh";
      "/usr/bin/bash"; "/usr/bin/sh"; "/usr/bin/zsh" ]
  else [ "/bin/sh" ].

Definition getAlternativeShells : M (list string) :=
  emit EvGetProcess ;;
  ret (PlatformShellTable (platform (ElectronBridge.getProcess bridge))).

(** The [for (const shell of alternatives)] loop of
    [findAvailableShell]: [Some shell] is the [return shell] inside the
    loop, [None] is falling out of it.  Each [await] is sequential. *)
Fixpoint findAvailableShell_loop (alternatives : list string) : M (option string) :=
  match alternatives with
  | [] => ret None
  | sh :: rest =>
      isValid <-
        try_catch
          (emit (EvValidateShell sh) ;;
           lift (ElectronBridge.validateShell bridge sh))
          (λ error, ret false) ;;
      if (isValid : bool) then ret (Some sh)
      else findAvailableShell_loop rest
  end.

Definition findAvailableShell : M string :=
  alternatives <- getAlternativeShells ;;
  found <- findAvailableShell_loop alternatives ;;
  match found with
  | Some sh => ret sh
  | None => getDefaultShell
  end.
End Manager.
End PTYManager.

(** ** Vocabulary of the statements *)

(** The state after a run of events has been appended to the trace. *)
Definition log_events (evs : list Event) (st : State) : State :=
  {| activePTYs := activePTYs st;
     settingsProvider := settingsProvider st;
     heap := heap st;
     trace := trace st ++ evs |}.

Section Observations.

Variable bridge : ElectronBridge.t.
Variable host : Host.

(** A shell passes the synchronous validity check when the bridge
    answers [true]; [false] and a throw both fail it. *)
Definition shell_passes (sh : string) : bool :=
  match ElectronBridge.validateShellSync bridge sh with
  | Ok b => b
  | Throw _ => false
  end.

(** What [validateShellPath] leaves in the trace. *)
Definition shell_check_events (sh : string) : list Event :=
  EvValidateShellSync sh ::
  match ElectronBridge.validateShellSync bridge sh with
  | Ok _ => []
  | Throw _ => [EvWarn "Shell validation check failed:"]
  end.

(** A candidate validates in the asynchronous check. *)
Definition validates (sh : string) : bool :=
  match ElectronBridge.validateShell bridge sh with
  | Ok b => b
  | Throw _ => false
  end.

(** What [getSystemDefaultShell] leaves in the trace. *)
Definition system_default_events : list Event :=
  EvGetDefaultShell ::
  match ElectronBridge.getDefaultShell bridge with
  | Ok _ => []
  | Throw _ => [EvGetProcess]
  end.

(** The text of the warning about an invalid configured shell. *)
Definition invalid_shell_warning (sh : string) : Event :=
  EvWarn ("Configured shell " +:+ dquote +:+ sh +:+
          dquote +:+ " is invalid, falling back to system default").

Definition isWindows : bool :=
  String.eqb (platform (ElectronBridge.getProcess bridge)) "win32".

(** The working directory handed to spawn for a request [cwd]. *)
Definition effective_cwd (c : string) : string :=
  if existsSync host c then c else str_or (env_HOME host) "/".

(** The store after the working-directory step of [createPTY] on the
    object [o] holding [opts]. *)
Definition rewrite_cwd (o : loc) (opts : PTYOptions) (st : State) : State :=
  if existsSync host (cwd opts) then st
  else set_heap (alter (λ op, with_cwd op (str_or (env_HOME host) "/")) o) st.

(** What the [catch] block of [createPTY] throws for [error]. *)
Definition rethrown (o : loc) (error : exn) : exn :=
  if instanceof_TerminalPluginError error then error
  else TerminalPluginError PTY_CREATION_FAILED
         ("Failed to create PTY process: " +:+ message_or_error error)
         (Some error) (Some o).

(** What [createPTY] answers once the handle [pty] is tracked: the
    handle when both observers are registered, and otherwise what the
    [catch] block makes of the throw of the registration. *)
Definition registration_result (o : loc) (pty : IPty) : result IPty :=
  match on (pty_object host pty) "error" with
  | Throw e => Throw (rethrown o e)
  | Ok _ =>
      match on (pty_object host pty) "exit" with
      | Throw e => Throw (rethrown o e)
      | Ok _ => Ok pty
      end
  end.

(** The events from tracking the handle on: the exit observer is
    reached only when the error observer is registered. *)
Definition registration_events (pty : IPty) : list Event :=
  [EvSetAdd pty; EvOn pty "error"] ++
  match on (pty_object host pty) "error" with
  | Throw _ => []
  | Ok _ => [EvOn pty "exit"]
  end.

(** The spawn configuration [createPTY] builds for [opts]. *)
Definition spawn_config (opts : PTYOptions) : SpawnOptions :=
  {| spawn_name := "xterm-256color";
     spawn_cols := cols opts;
     spawn_rows := rows opts;
     spawn_cwd := effective_cwd (cwd opts);
     spawn_env := env opts;
     spawn_encoding := "utf8";
     useConpty := if isWindows then Some true else None |}.

(** The events of [createPTY] up to and including the spawn request,
    when the bridge is available and the shell passes. *)
Definition events_until_spawn (opts : PTYOptions) : list Event :=
  [EvGetNodePTY; EvGetPtyLoadMode] ++ shell_check_events (shell opts) ++
  [EvExistsSync (cwd opts)] ++
  (if existsSync host (cwd opts) then []
   else [EvWarn "⚠️ CWD does not exist, falling back to HOME"]) ++
  [EvGetProcess;
   EvSpawn (shell opts) (PTYManager.args_or_empty (args opts)) (spawn_config opts)].

(** What one [destroyPTY] of a tracked handle leaves in the trace. *)
Definition destroy_events (pty : IPty) : list Event :=
  [EvSetDelete pty; EvKill pty] ++
  match kill (pty_object host pty) with
  | Ok _ => []
  | Throw _ => [EvWarn "Failed to kill PTY process:"]
  end ++
  [EvRemoveAllListeners pty].

(** What [destroyPTY] answers for a tracked handle: it depends on the
    release of the observers alone. *)
Definition destroy_outcome (pty : IPty) : result unit :=
  match removeAllListeners (pty_object host pty) with
  | Ok _ => Ok tt
  | Throw e =>
      Throw (TerminalPluginError PTY_CREATION_FAILED
               "Failed to destroy PTY process" (Some e) None)
  end.

Definition releases (pty : IPty) : bool :=
  match removeAllListeners (pty_object host pty) with
  | Ok _ => true
  | Throw _ => false
  end.

End Observations.

Arguments events_until_spawn : simpl never.
Arguments registration_events : simpl never.
Arguments shell_check_events : simpl never.
Arguments destroy_events : simpl never.

(** The spawn configurations requested in a run of events. *)
Fixpoint spawn_configs (evs : list Event) : list SpawnOptions :=
  match evs with
  | [] => []
  | EvSpawn _ _ so :: rest => so :: spawn_configs rest
  | _ :: rest => spawn_configs rest
  end.

(** The handles whose termination was requested, in order. *)
Fixpoint killed (evs : list Event) : list IPty :=
  match evs with
  | [] => []
  | EvKill p :: rest => p :: killed rest
  | _ :: rest => killed rest
  end.

(** The paths whose existence was looked up, in order. *)
Fixpoint existence_checks (evs : list Event) : list string :=
  match evs with
  | [] => []
  | EvExistsSync path :: rest => path :: existence_checks rest
  | _ :: rest => existence_checks rest
  end.

(** The shells probed by the asynchronous check, in order. *)
Fixpoint probed (evs : list Event) : list string :=
  match evs with
  | [] => []
  | EvValidateShell sh :: rest => sh :: probed rest
  | _ :: rest => probed rest
  end.

(** ** Further vocabulary: resizing, shell resolution, spawn requests *)

Section MoreObservations.

Variable bridge : ElectronBridge.t.
Variable host : Host.

(** What one round of the loop of [resizeAllPTYs] leaves in the trace. *)
Definition resize_events (c r : Z) (pty : IPty) : list Event :=
  EvResize pty c r ::
  match resize (pty_object host pty) c r with
  | Ok _ => []
  | Throw _ => [EvWarn "Failed to resize PTY:"]
  end.

(** The answer of [getSystemDefaultShell]. *)
Definition system_default_shell : string :=
  match ElectronBridge.getDefaultShell bridge with
  | Ok sh => sh
  | Throw _ =>
      PTYManager.getSystemDefaultShell_switch
        (platform (ElectronBridge.getProcess bridge))
  end.

(** The non-empty shell the settings provider of a state yields, if any. *)
Definition configured_shell (st : State) : option string :=
  match settingsProvider st with
  | Some f =>
      match f tt with
      | Some s =>
          if String.eqb (defaultShell s) EmptyString then None
          else Some (defaultShell s)
      | None => None
      end
  | None => None
  end.


(** The bridge with [np] as what [getNodePTY] answers. *)
Definition with_nodePty (np : NodePty) : ElectronBridge.t :=
  {| ElectronBridge.getNodePTY := Some np;
     ElectronBridge.getPtyLoadMode := ElectronBridge.getPtyLoadMode bridge;
     ElectronBridge.getProcess := ElectronBridge.getProcess bridge;
     ElectronBridge.validateShellSync := ElectronBridge.validateShellSync bridge;
     ElectronBridge.validateShell := ElectronBridge.validateShell bridge;
     ElectronBridge.getDefaultShell := ElectronBridge.getDefaultShell bridge;
     ElectronBridge.getEnvironmentVariables :=
       ElectronBridge.getEnvironmentVariables bridge;
     ElectronBridge.getCurrentWorkingDirectory :=
       ElectronBridge.getCurrentWorkingDirectory bridge |}.

(** Both validations of [createPTY] pass for the object behind [o]. *)
Definition reaches_spawn (o : loc) (st : State) : bool :=
  match heap st !! o with
  | Some opts =>
      match ElectronBridge.getNodePTY bridge with
      | Some _ => shell_passes bridge (shell opts)
      | None => false
      end
  | None => false
  end.

End MoreObservations.

Arguments resize_events : simpl never.

(** The handles whose resize was requested, in order. *)
Fixpoint resized (evs : list Event) : list IPty :=
  match evs with
  | [] => []
  | EvResize p _ _ :: rest => p :: resized rest
  | _ :: rest => resized rest
  end.

(** ** User-facing messages (src/types/errors.ts) *)

(** [TerminalPluginError.getUserMessage]: a switch on [this.type].  Its
    [default] branch returns [this.message]; every member of the enum has
    a case of its own, so a typed error never reaches it. *)
Definition getUserMessage (type : TerminalErrorType) (message : string) : string :=
  match type with
  | PTY_CREATION_FAILED =>
      "Failed to create terminal process. Please check system permissions and dependencies."
  | SHELL_NOT_FOUND =>
      "Shell program not found. Please check your system configuration."
  | ELECTRON_NOT_AVAILABLE =>
      "Electron environment not available. This plugin requires Obsidian desktop."
  | NODE_PTY_NOT_AVAILABLE =>
      "node-pty module not available. Please reinstall the plugin or contact the developer."
  | PROCESS_TERMINATED =>
      "Terminal process terminated unexpectedly. You can try restarting the terminal."
  | VIEW_CREATION_FAILED =>
      "Failed to create terminal view. Please try again or restart Obsidian."
  end.

(** ** Property access on an object literal *)

(** The property names every plain object inherits from
    [Object.prototype]. *)
Definition Object_prototype_names : list string :=
  [ "constructor"; "__defineGetter__"; "__defineSetter__"; "hasOwnProperty";
    "__lookupGetter__"; "__lookupSetter__"; "isPrototypeOf";
    "propertyIsEnumerable"; "toString"; "valueOf"; "__proto__";
    "toLocaleString" ].

(** What [obj[key]] evaluates to: an own property, a member inherited
    from [Object.prototype] (a function or, for [__proto__], the
    prototype itself; all truthy), or [undefined]. *)
Inductive Lookup (A : Type) : Type :=
  | Own (a : A)
  | Inherited (name : string)
  | Undefined.
Arguments Own {A} a.
Arguments Inherited {A} name.
Arguments Undefined {A}.

(** The own properties of an object literal, in the order they are
    written. *)
Fixpoint own_property {A} (obj : list (string * A)) (key : string) : option A :=
  match obj with
  | [] => None
  | (k, v) :: rest => if String.eqb k key then Some v else own_property rest key
  end.

Definition js_get {A} (obj : list (string * A)) (key : string) : Lookup A :=
  match own_property obj key with
  | Some v => Own v
  | None =>
      if bool_decide (key ∈ Object_prototype_names) then Inherited key
      else Undefined
  end.

(** ** Native module configuration (src/core/embedded-modules.ts) *)

Module EmbeddedModules.

(** An ABI number: an integer, or the [NaN] that [parseInt] answers on a
    string without digits. *)
Inductive number : Type :=
  | Int (n : Z)
  | NaN.

Record ABIInfo : Type := {
  electronVersion : string;
  obsidianVersion : string;
}.

Definition SUPPORTED_ABIS : list (Z * ABIInfo) :=
  [ (140, {| electronVersion := "39.2.6"; obsidianVersion := "1.11.x" |});
    (136, {| electronVersion := "37.10.2"; obsidianVersion := "1.10.x" |}) ].

(** [MODULE_INFO.supportedPlatforms] and [MODULE_INFO.supportedABIs]. *)
Definition supportedPlatforms : list string :=
  [ "win32_x64"; "darwin_x64"; "darwin_arm64"; "linux_x64" ].

Definition supportedABIs : list Z := [ 140; 136 ].

(** [abi in SUPPORTED_ABIS]: the number is turned into a property name;
    no name inherited from [Object.prototype] is the name of a number. *)
Definition isABISupported (abi : number) : bool :=
  match abi with
  | Int n => bool_decide (n ∈ SUPPORTED_ABIS.*1)
  | NaN => false
  end.

Definition getSupportedABI (abi : number) : option Z :=
  match abi with
  | Int n => if bool_decide (n ∈ SUPPORTED_ABIS.*1) then Some n else None
  | NaN => None
  end.

(** [Number.MAX_SAFE_INTEGER]: up to it in magnitude every integer is a
    JS number of its own and is printed with all its decimal digits. *)
Definition MAX_SAFE_INTEGER : Z := 2 ^ 53 - 1.

(** [`${abi}`]: the decimal digits of a safe integer and "NaN" for
    [NaN].  Beyond the safe integers a JS number is a rounded double,
    whose text is not that of an exact integer (and is exponential from
    10^21 on): no text is given there. *)
Definition number_to_string (abi : number) : option string :=
  match abi with
  | Int n =>
      if bool_decide (- MAX_SAFE_INTEGER ≤ n ≤ MAX_SAFE_INTEGER)%Z
      then Some (pretty n) else None
  | NaN => Some "NaN"
  end.

Definition getNativeModulesSuffix (platform arch : string) (abi : number)
    : option string :=
  (λ digits, platform +:+ "_" +:+ arch +:+ "-abi" +:+ digits)
    <$> number_to_string abi.

Definition PLATFORM_BINARIES : list (string * list string) :=
  [ ("win32_x64", ["pty.node"; "conpty.node"]);
    ("darwin_x64", ["pty.node"; "spawn-helper"]);
    ("darwin_arm64", ["pty.node"; "spawn-helper"]);
    ("linux_x64", ["pty.node"]) ].

(** What [PLATFORM_BINARIES[key] || []] evaluates to: an array of file
    names, or, for a key that names a member of [Object.prototype], that
    member. *)
Inductive RequiredFiles : Type :=
  | Files (files : list string)
  | PrototypeMember (name : string).

Definition getRequiredFilesForPlatform (platform arch : string) : RequiredFiles :=
  let key := platform +:+ "_" +:+ arch in
  match js_get PLATFORM_BINARIES key with
  | Own files => Files files
  | Inherited name => PrototypeMember name
  | Undefined => Files []
  end.

Definition isPlatformSupported (platform arch : string) : bool :=
  let key := platform +:+ "_" +:+ arch in
  bool_decide (key ∈ supportedPlatforms).

End EmbeddedModules.

(** ** Theme catalogue (src/core/themes.ts) *)

Module Themes.

Inductive ThemeType : Type := dark | light.

Record TerminalTheme : Type := {
  name : string;
  type : ThemeType;
  background : string;
  foreground : string;
  cursor : string;
  cursorAccent : option string;
  selectionBackground : string;
  black : string;
  red : string;
  green : string;
  yellow : string;
  blue : string;
  magenta : string;
  cyan : string;
  white : string;
  brightBlack : string;
  brightRed : string;
  brightGreen : string;
  brightYellow : string;
  brightBlue : string;
  brightMagenta : string;
  brightCyan : string;
  brightWhite : string;
}.

(** The object literal [PRESET_THEMES], in the order it is written
    (which is the order of [Object.entries]). *)
Definition PRESET_THEMES : list (string * TerminalTheme) :=
  [
    ("dracula",
     {| name := "Dracula";
        type := dark;
        background := "#282a36";
        foreground := "#f8f8f2";
        cursor := "#f8f8f2";
        cursorAccent := Some "#282a36";
        selectionBackground := "rgba(68, 71, 90, 0.5)";
        black := "#21222c";
        red := "#ff5555";
        green := "#50fa7b";
        yellow := "#f1fa8c";
        blue := "#bd93f9";
        magenta := "#ff79c6";
        cyan := "#8be9fd";
        white := "#f8f8f2";
        brightBlack := "#6272a4";
        brightRed := "#ff6e6e";
        brightGreen := "#69ff94";
        brightYellow := "#ffffa5";
        brightBlue := "#d6acff";
        brightMagenta := "#ff92df";
        brightCyan := "#a4ffff";
        brightWhite := "#ffffff" |});
    ("one-dark",
     {| name := "One Dark";
        type := dark;
        background := "#282c34";
        foreground := "#abb2bf";
        cursor := "#528bff";
        cursorAccent := Some "#282c34";
        selectionBackground := "rgba(62, 68, 81, 0.5)";
        black := "#282c34";
        red := "#e06c75";
        green := "#98c379";
        yellow := "#e5c07b";
        blue := "#61afef";
        magenta := "#c678dd";
        cyan := "#56b6c2";
        white := "#dcdfe4";
        brightBlack := "#5c6370";
        brightRed := "#e06c75";
        brightGreen := "#98c379";
        brightYellow := "#e5c07b";
        brightBlue := "#61afef";
        brightMagenta := "#c678dd";
        brightCyan := "#56b6c2";
        brightWhite := "#ffffff" |});
    ("solarized-dark",
     {| name := "Solarized Dark";
        type := dark;
        background := "#002b36";
        foreground := "#839496";
        cursor := "#93a1a1";
        cursorAccent := Some "#002b36";
        selectionBackground := "rgba(7, 54, 66, 0.5)";
        black := "#073642";
        red := "#dc322f";
        green := "#859900";
        yellow := "#b58900";
        blue := "#268bd2";
        magenta := "#d33682";
        cyan := "#2aa198";
        white := "#eee8d5";
        brightBlack := "#002b36";
        brightRed := "#cb4b16";
        brightGreen := "#586e75";
        brightYellow := "#657b83";
        brightBlue := "#839496";
        brightMagenta := "#6c71c4";
        brightCyan := "#93a1a1";
        brightWhite := "#fdf6e3" |});
    ("github-dark",
     {| name := "GitHub Dark";
        type := dark;
        background := "#0d1117";
        foreground := "#c9d1d9";
        cursor := "#58a6ff";
        cursorAccent := Some "#0d1117";
        selectionBackground := "rgba(63, 185, 80, 0.2)";
        black := "#484f58";
        red := "#ff7b72";
        green := "#3fb950";
        yellow := "#d29922";
        blue := "#58a6ff";
        magenta := "#bc8cff";
        cyan := "#39c5cf";
        white := "#b1bac4";
        brightBlack := "#6e7681";
        brightRed := "#ffa198";
        brightGreen := "#56d364";
        brightYellow := "#e3b341";
        brightBlue := "#79c0ff";
        brightMagenta := "#d2a8ff";
        brightCyan := "#56d4dd";
        brightWhite := "#f0f6fc" |});
    ("nord",
     {| name := "Nord";
        type := dark;
        background := "#2e3440";
        foreground := "#d8dee9";
        cursor := "#d8dee9";
        cursorAccent := Some "#2e3440";
        selectionBackground := "rgba(67, 76, 94, 0.5)";
        black := "#3b4252";
        red := "#bf616a";
        green := "#a3be8c";
        yellow := "#ebcb8b";
        blue := "#81a1c1";
        magenta := "#b48ead";
        cyan := "#88c0d0";
        white := "#e5e9f0";
        brightBlack := "#4c566a";
        brightRed := "#bf616a";
        brightGreen := "#a3be8c";
        brightYellow := "#ebcb8b";
        brightBlue := "#81a1c1";
        brightMagenta := "#b48ead";
        brightCyan := "#8fbcbb";
        brightWhite := "#eceff4" |});
    ("monokai",
     {| name := "Monokai";
        type := dark;
        background := "#272822";
        foreground := "#f8f8f2";
        cursor := "#f8f8f2";
        cursorAccent := Some "#272822";
        selectionBackground := "rgba(73, 72, 62, 0.5)";
        black := "#272822";
        red := "#f92672";
        green := "#a6e22e";
        yellow := "#f4bf75";
        blue := "#66d9ef";
        magenta := "#ae81ff";
        cyan := "#a1efe4";
        white := "#f8f8f2";
        brightBlack := "#75715e";
        brightRed := "#f92672";
        brightGreen := "#a6e22e";
        brightYellow := "#f4bf75";
        brightBlue := "#66d9ef";
        brightMagenta := "#ae81ff";
        brightCyan := "#a1efe4";
        brightWhite := "#f9f8f5" |});
    ("tokyo-night",
     {| name := "Tokyo Night";
        type := dark;
        background := "#1a1b26";
        foreground := "#a9b1d6";
        cursor := "#c0caf5";
        cursorAccent := Some "#1a1b26";
        selectionBackground := "rgba(40, 52, 100, 0.5)";
        black := "#15161e";
        red := "#f7768e";
        green := "#9ece6a";
        yellow := "#e0af68";
        blue := "#7aa2f7";
        magenta := "#bb9af7";
        cyan := "#7dcfff";
        white := "#a9b1d6";
        brightBlack := "#414868";
        brightRed := "#f7768e";
        brightGreen := "#9ece6a";
        brightYellow := "#e0af68";
        brightBlue := "#7aa2f7";
        brightMagenta := "#bb9af7";
        brightCyan := "#7dcfff";
        brightWhite := "#c0caf5" |});
    ("catppuccin-mocha",
     {| name := "Catppuccin Mocha";
        type := dark;
        background := "#1e1e2e";
        foreground := "#cdd6f4";
        cursor := "#f5e0dc";
        cursorAccent := Some "#1e1e2e";
        selectionBackground := "rgba(88, 91, 112, 0.5)";
        black := "#45475a";
        red := "#f38ba8";
        green := "#a6e3a1";
        yellow := "#f9e2af";
        blue := "#89b4fa";
        magenta := "#f5c2e7";
        cyan := "#94e2d5";
        white := "#bac2de";
        brightBlack := "#585b70";
        brightRed := "#f38ba8";
        brightGreen := "#a6e3a1";
        brightYellow := "#f9e2af";
        brightBlue := "#89b4fa";
        brightMagenta := "#f5c2e7";
        brightCyan := "#94e2d5";
        brightWhite := "#a6adc8" |});
    ("solarized-light",
     {| name := "Solarized Light";
        type := light;
        background := "#fdf6e3";
        foreground := "#657b83";
        cursor := "#586e75";
        cursorAccent := Some "#fdf6e3";
        selectionBackground := "rgba(238, 232, 213, 0.5)";
        black := "#073642";
        red := "#dc322f";
        green := "#859900";
        yellow := "#b58900";
        blue := "#268bd2";
        magenta := "#d33682";
        cyan := "#2aa198";
        white := "#eee8d5";
        brightBlack := "#002b36";
        brightRed := "#cb4b16";
        brightGreen := "#586e75";
        brightYellow := "#657b83";
        brightBlue := "#839496";
        brightMagenta := "#6c71c4";
        brightCyan := "#93a1a1";
        brightWhite := "#fdf6e3" |});
    ("github-light",
     {| name := "GitHub Light";
        type := light;
        background := "#ffffff";
        foreground := "#24292f";
        cursor := "#0969da";
        cursorAccent := Some "#ffffff";
        selectionBackground := "rgba(173, 214, 255, 0.4)";
        black := "#24292f";
        red := "#cf222e";
        green := "#1a7f37";
        yellow := "#9a6700";
        blue := "#0969da";
        magenta := "#8250df";
        cyan := "#1b7c83";
        white := "#6e7781";
        brightBlack := "#57606a";
        brightRed := "#a40e26";
        brightGreen := "#116329";
        brightYellow := "#825301";
        brightBlue := "#218bff";
        brightMagenta := "#a475f9";
        brightCyan := "#3192aa";
        brightWhite := "#8c959f" |});
    ("one-light",
     {| name := "One Light";
        type := light;
        background := "#fafafa";
        foreground := "#383a42";
        cursor := "#526eff";
        cursorAccent := Some "#fafafa";
        selectionBackground := "rgba(56, 58, 66, 0.15)";
        black := "#383a42";
        red := "#e45649";
        green := "#50a14f";
        yellow := "#c18401";
        blue := "#4078f2";
        magenta := "#a626a4";
        cyan := "#0184bc";
        white := "#a0a1a7";
        brightBlack := "#4f525e";
        brightRed := "#e45649";
        brightGreen := "#50a14f";
        brightYellow := "#c18401";
        brightBlue := "#4078f2";
        brightMagenta := "#a626a4";
        brightCyan := "#0184bc";
        brightWhite := "#fafafa" |});
    ("catppuccin-latte",
     {| name := "Catppuccin Latte";
        type := light;
        background := "#eff1f5";
        foreground := "#4c4f69";
        cursor := "#dc8a78";
        cursorAccent := Some "#eff1f5";
        selectionBackground := "rgba(172, 176, 190, 0.4)";
        black := "#5c5f77";
        red := "#d20f39";
        green := "#40a02b";
        yellow := "#df8e1d";
        blue := "#1e66f5";
        magenta := "#ea76cb";
        cyan := "#179299";
        white := "#acb0be";
        brightBlack := "#6c6f85";
        brightRed := "#d20f39";
        brightGreen := "#40a02b";
        brightYellow := "#df8e1d";
        brightBlue := "#1e66f5";
        brightMagenta := "#ea76cb";
        brightCyan := "#179299";
        brightWhite := "#bcc0cc" |}) ].

Definition theme_type_eqb (a b : ThemeType) : bool :=
  match a, b with
  | dark, dark | light, light => true
  | _, _ => false
  end.

(** [Object.entries(PRESET_THEMES).filter(...).map(...)]: the entries of
    one type, as [{ id, theme }] pairs. *)
Definition getDarkThemes : list (string * TerminalTheme) :=
  List.filter (λ entry, theme_type_eqb (type entry.2) dark) PRESET_THEMES.

Definition getLightThemes : list (string * TerminalTheme) :=
  List.filter (λ entry, theme_type_eqb (type entry.2) light) PRESET_THEMES.

(** [PRESET_THEMES[id]] *)
Definition getThemeById (id : string) : Lookup TerminalTheme :=
  js_get PRESET_THEMES id.

End Themes.

(** ** Shell arguments in the settings tab *)

(** The text field of "Shell arguments" shows [shellArgs.join(", ")] and
    stores [value.split(",").map((s) => s.trim()).filter((s) => s.length > 0)].
    A JS string is a sequence of UTF-16 code units. *)
Module ShellArgs.

Definition jsstring : Type := list N.

(** WhiteSpace and LineTerminator of ECMAScript, the code units that
    [String.prototype.trim] strips. *)
Definition is_whitespace (c : N) : bool :=
  (N.eqb c 9 || N.eqb c 10 || N.eqb c 11 || N.eqb c 12 || N.eqb c 13
   || N.eqb c 32 || N.eqb c 160 || N.eqb c 5760
   || (N.leb 8192 c && N.leb c 8202)
   || N.eqb c 8232 || N.eqb c 8233 || N.eqb c 8239 || N.eqb c 8287
   || N.eqb c 12288 || N.eqb c 65279)%bool.

Fixpoint trimStart (s : jsstring) : jsstring :=
  match s with
  | [] => []
  | c :: rest => if is_whitespace c then trimStart rest else s
  end.

Definition trimEnd (s : jsstring) : jsstring := rev (trimStart (rev s)).

Definition trim (s : jsstring) : jsstring := trimEnd (trimStart s).

(** [s.split(sep)] for a separator of one code unit. *)
Fixpoint split (sep : N) (s : jsstring) : list jsstring :=
  match s with
  | [] => [[]]
  | c :: rest =>
      if N.eqb c sep then [] :: split sep rest
      else
        match split sep rest with
        | piece :: pieces => (c :: piece) :: pieces
        | [] => [[c]]
        end
  end.

(** [pieces.join(sep)] *)
Fixpoint join (sep : jsstring) (pieces : list jsstring) : jsstring :=
  match pieces with
  | [] => []
  | [piece] => piece
  | piece :: rest => piece ++ sep ++ join sep rest
  end.

Definition comma : N := 44.
Definition space : N := 32.

(** What the text field shows for the stored arguments. *)
Definition display (shellArgs : list jsstring) : jsstring :=
  join [comma; space] shellArgs.

(** What [onChange] stores for the text of the field. *)
Definition onChange (value : jsstring) : list jsstring :=
  List.filter (λ s, negb (Nat.eqb (length s) 0)) (map trim (split comma value)).

(** An argument in the form [onChange] stores: not empty, without a
    comma, and with nothing for [trim] to strip. *)
Definition stored (s : jsstring) : Prop :=
  s ≠ [] ∧ (comma ∉ s) ∧ trim s = s.

End ShellArgs.

(** ** Concrete hosts, bridges and states *)

(** Modelled from the spec: the substitute working directory in the
    words of the specification, the user's home directory, or "/" when
    the home directory is unknown. *)
Definition home_directory_or_root (home_directory : option string) : string :=
  default "/" home_directory.

Module Examples.

Definition dims : Dimensions := {| dim_cols := 80; dim_rows := 24 |}.

(** A node-pty whose spawn hands out handle 7, and one whose spawn
    throws. *)
Definition nodePty_spawns : NodePty :=
  {| spawn := λ _ _ _, Ok 7%positive |}.

Definition nodePty_fails : NodePty :=
  {| spawn := λ _ _ _, Throw (JsError "Error" "posix_spawnp failed.") |}.

(** The synchronous check accepts /bin/bash, throws on /opt/fish and
    rejects the rest; the asynchronous check rejects by throwing on
    /bin/bash, accepts /bin/sh and rejects the rest. *)
Definition bridge (np : option NodePty) (p : string)
    (baseEnv : gmap string string) : ElectronBridge.t :=
  {| ElectronBridge.getNodePTY := np;
     ElectronBridge.getPtyLoadMode := "embedded";
     ElectronBridge.getProcess := {| platform := p |};
     ElectronBridge.validateShellSync := λ sh,
       if String.eqb sh "/bin/bash" then Ok true
       else if String.eqb sh "/opt/fish" then Throw (JsError "Error" "EACCES")
       else Ok false;
     ElectronBridge.validateShell := λ sh,
       if String.eqb sh "/bin/sh" then Ok true
       else if String.eqb sh "/bin/bash" then Throw (JsError "Error" "EACCES")
       else Ok false;
     ElectronBridge.getDefaultShell := Ok "/bin/bash";
     ElectronBridge.getEnvironmentVariables := baseEnv;
     ElectronBridge.getCurrentWorkingDirectory := "/vault" |}.

Definition env_plain : gmap string string :=
  {[ "PATH" := "/usr/bin"; "LANG" := "en_US.UTF-8" ]}.

(** LANG is defined, as the empty string. *)
Definition env_empty_lang : gmap string string :=
  {[ "LANG" := EmptyString ]}.

Definition linux_bridge : ElectronBridge.t :=
  bridge (Some nodePty_spawns) "linux" env_plain.

(** Only /vault exists; every handle terminates and releases its
    observers, except that [kill] throws on handle 2. *)
Definition host : Host :=
  {| existsSync := λ path, String.eqb path "/vault";
     env_HOME := Some "/home/u";
     pty_object := λ pty,
       {| on := λ _, Ok tt;
          kill := if Pos.eqb pty 2 then Throw (JsError "Error" "ESRCH") else Ok tt;
          resize := λ _ _, Ok tt;
          removeAllListeners := Ok tt |} |}.

(** As [host], but handle 1 throws when its observers are released. *)
Definition host_release_fails : Host :=
  {| existsSync := existsSync host;
     env_HOME := env_HOME host;
     pty_object := λ pty,
       {| on := λ _, Ok tt;
          kill := Ok tt;
          resize := λ _ _, Ok tt;
          removeAllListeners :=
            if Pos.eqb pty 1 then Throw (JsError "Error" "socket closed")
            else Ok tt |} |}.

Definition options_missing_cwd : PTYOptions :=
  {| shell := "/bin/bash"; args := None; cwd := "/gone";
     env := Some env_plain; cols := 80; rows := 24 |}.

Definition options_bad_shell : PTYOptions :=
  {| shell := "/bin/nosuch"; args := Some ["-l"]; cwd := "/vault";
     env := Some env_plain; cols := 80; rows := 24 |}.

(** Nothing tracked, no settings, one options object at reference 1. *)
Definition state_with (opts : PTYOptions) : State :=
  {| activePTYs := [];
     settingsProvider := None;
     heap := {[ 1%positive := opts ]};
     trace := [] |}.

Definition state_two_handles : State :=
  {| activePTYs := [1%positive; 2%positive];
     settingsProvider := None;
     heap := ∅;
     trace := [] |}.

(** The user configured /opt/fish, on which the synchronous check
    throws. *)
Definition state_configured : State :=
  {| activePTYs := [];
     settingsProvider :=
       Some (λ _, Some {| defaultShell := "/opt/fish"; shellArgs := ["-l"] |});
     heap := ∅;
     trace := [] |}.

End Examples.

Module MoreExamples.

(** A request that passes both validations and whose [cwd] exists. *)
Definition options_ok : PTYOptions :=
  {| shell := "/bin/bash"; args := Some ["-l"]; cwd := "/vault";
     env := Some Examples.env_plain; cols := 120; rows := 40 |}.

(** A node-pty that cannot start a process in a directory missing on
    [Examples.host], and hands out handle 7 otherwise. *)
Definition nodePty_checks_cwd : NodePty :=
  {| spawn := λ _ _ so,
       if existsSync Examples.host (spawn_cwd so) then Ok 7%positive
       else Throw (JsError "Error" "chdir() failed: No such file or directory") |}.

(** A win32 host: the vault and the user's home directory exist, and the
    environment has no HOME (the home directory is in USERPROFILE). *)
Definition home_directory_win32 : string := "C:\Users\u".

Definition host_win32 : Host :=
  {| existsSync := λ path,
       String.eqb path "C:\vault" || String.eqb path home_directory_win32;
     env_HOME := None;
     pty_object := pty_object Examples.host |}.

(** A win32 bridge whose checks accept cmd.exe alone. *)
Definition win32_bridge (np : NodePty) : ElectronBridge.t :=
  {| ElectronBridge.getNodePTY := Some np;
     ElectronBridge.getPtyLoadMode := "embedded";
     ElectronBridge.getProcess := {| platform := "win32" |};
     ElectronBridge.validateShellSync := λ sh, Ok (String.eqb sh "cmd.exe");
     ElectronBridge.validateShell := λ sh, Ok (String.eqb sh "cmd.exe");
     ElectronBridge.getDefaultShell := Ok "cmd.exe";
     ElectronBridge.getEnvironmentVariables := ∅;
     ElectronBridge.getCurrentWorkingDirectory := "C:\vault" |}.

Definition options_win32_missing_cwd : PTYOptions :=
  {| shell := "cmd.exe"; args := None; cwd := "C:\gone";
     env := None; cols := 80; rows := 24 |}.

(** A node-pty that tells the spawn configurations apart: handle 9 with
    [useConpty: true], handle 7 without the key, a throw with
    [useConpty: false]. *)
Definition nodePty_tells_conpty : NodePty :=
  {| spawn := λ _ _ so,
       match useConpty so with
       | Some true => Ok 9%positive
       | None => Ok 7%positive
       | Some false => Throw (JsError "Error" "winpty is not available")
       end |}.

(** As [Examples.host], but handle 7 throws when the exit observer is
    registered. *)
Definition host_exit_registration_fails : Host :=
  {| existsSync := existsSync Examples.host;
     env_HOME := env_HOME Examples.host;
     pty_object := λ pty,
       {| on := λ event,
            if Pos.eqb pty 7 && String.eqb event "exit"
            then Throw (JsError "Error" "handle closed") else Ok tt;
          kill := Ok tt;
          resize := λ _ _, Ok tt;
          removeAllListeners := Ok tt |} |}.

(** "-l" and "--login" as UTF-16 code units. *)
Definition arg_l : ShellArgs.jsstring := [45; 108]%N.
Definition arg_login : ShellArgs.jsstring := [45; 45; 108; 111; 103; 105; 110]%N.

End MoreExamples.

(** ** State bookkeeping *)

Import PTYManager.

Lemma log_events_nil st : log_events [] st = st.
Proof. destruct st; unfold log_events; simpl. by rewrite app_nil_r. Qed.

Lemma log_event_events e st : log_event e st = log_events [e] st.
Proof. reflexivity. Qed.

Lemma log_events_app evs1 evs2 st :
  log_events evs2 (log_events evs1 st) = log_events (evs1 ++ evs2) st.
Proof. unfold log_events; simpl. by rewrite app_assoc. Qed.

Lemma log_events_active f evs st :
  set_activePTYs f (log_events evs st) = log_events evs (set_activePTYs f st).
Proof. reflexivity. Qed.

Lemma log_events_heap f evs st :
  set_heap f (log_events evs st) = log_events evs (set_heap f st).
Proof. reflexivity. Qed.

(** Unfolding the monad down to state functions. *)
Ltac unfold_monad :=
  unfold bind, ret, throw, try_catch, emit, modify, gets, lift,
    active_add, active_delete, active_clear in *.

(** The options object is still behind its reference after the steps of
    [createPTY]. *)
Ltac options_there :=
  left; simpl; rewrite ?lookup_alter_eq;
  match goal with H : heap _ !! _ = Some _ |- _ => rewrite H end;
  simpl; eauto.

Ltac norm_state :=
  repeat first
    [ rewrite log_event_events
    | rewrite log_events_active
    | rewrite log_events_heap
    | rewrite log_events_app ];
  simpl app.

Section Properties.

Variable bridge : ElectronBridge.t.
Variable host : Host.
Variable DEFAULT_TERMINAL_DIMENSIONS : Dimensions.

Lemma validateShellPath_run sh st :
  validateShellPath bridge sh st =
    (Ok (shell_passes bridge sh), log_events (shell_check_events bridge sh) st).
Proof.
  unfold validateShellPath, shell_passes, shell_check_events. unfold_monad.
  destruct (ElectronBridge.validateShellSync bridge sh); by norm_state.
Qed.

Lemma read_options_run o opts st :
  heap st !! o = Some opts → read_options o st = (Ok opts, st).
Proof. intros H. unfold read_options. by rewrite H. Qed.

(** The [catch] block throws what [rethrown] says: the hints read the
    options object, which is there whenever they are printed. *)
Lemma createPTY_catch_run o e st :
  is_Some (heap st !! o) ∨ includes (error_message e) "posix_spawnp" = false →
  createPTY_catch o e st = (Throw (rethrown o e), st).
Proof.
  intros Hhints.
  assert (Hmsg : str_or (Some (error_message e)) EmptyString = error_message e).
  { unfold str_or. by destruct (String.eqb_spec (error_message e) EmptyString). }
  unfold createPTY_catch, rethrown, console_error_hints, bind, ret, throw.
  cbv zeta. rewrite Hmsg.
  destruct (includes (error_message e) "posix_spawnp").
  - destruct Hhints as [[opts Ho]|?]; [|done].
    rewrite (read_options_run _ _ _ Ho).
    by destruct (instanceof_TerminalPluginError e).
  - by destruct (instanceof_TerminalPluginError e).
Qed.

(** Bridge unavailable: the first check throws. *)
Lemma createPTY_no_bridge o opts st :
  heap st !! o = Some opts →
  ElectronBridge.getNodePTY bridge = None →
  createPTY bridge host o st =
    (Throw (TerminalPluginError NODE_PTY_NOT_AVAILABLE
              "node-pty module is not available" None None),
     log_events [EvGetNodePTY; EvGetPtyLoadMode] st).
Proof.
  intros Ho Hnp.
  unfold createPTY, createPTY_try, bind at 1, try_catch.
  rewrite (read_options_run _ _ _ Ho), Hnp. unfold_monad.
  rewrite createPTY_catch_run by (by right). by norm_state.
Qed.

(** Bridge available, shell rejected: the second check throws. *)
Lemma createPTY_shell_fails o opts st :
  heap st !! o = Some opts →
  is_Some (ElectronBridge.getNodePTY bridge) →
  shell_passes bridge (shell opts) = false →
  createPTY bridge host o st =
    (Throw (TerminalPluginError SHELL_NOT_FOUND
              ("Shell not found: " +:+ shell opts) None None),
     log_events ([EvGetNodePTY; EvGetPtyLoadMode] ++
                 shell_check_events bridge (shell opts)) st).
Proof.
  intros Ho [np Hnp] Hsh.
  unfold createPTY, createPTY_try, try_catch, bind.
  rewrite (read_options_run _ _ _ Ho), Hnp. unfold emit at 1 2. simpl.
  unfold read_options at 1. simpl. rewrite Ho.
  rewrite validateShellPath_run, Hsh. simpl. unfold throw.
  rewrite createPTY_catch_run by (left; simpl; by rewrite Ho). by norm_state.
Qed.

(** Bridge available, shell accepted: the request reaches spawn.  When
    the spawn throws, so does [createPTY]; when it returns a handle, the
    handle is tracked and the observers are registered. *)
Lemma createPTY_spawn_run o opts np st :
  heap st !! o = Some opts →
  ElectronBridge.getNodePTY bridge = Some np →
  shell_passes bridge (shell opts) = true →
  createPTY bridge host o st =
    match spawn np (shell opts) (args_or_empty (args opts))
            (spawn_config bridge host opts) with
    | Ok pty =>
        (registration_result host o pty,
         log_events (events_until_spawn bridge host opts ++
                     registration_events host pty)
           (set_activePTYs (λ s, JsSet.add s pty) (rewrite_cwd host o opts st)))
    | Throw e =>
        (Throw (rethrown o e),
         log_events (events_until_spawn bridge host opts)
           (rewrite_cwd host o opts st))
    end.
Proof.
  intros Ho Hnp Hsh.
  unfold createPTY, createPTY_try, try_catch, bind.
  rewrite (read_options_run _ _ _ Ho), Hnp. unfold emit at 1 2. simpl.
  unfold read_options at 1. simpl. rewrite Ho.
  rewrite validateShellPath_run, Hsh. simpl.
  unfold read_options at 1. simpl. rewrite Ho.
  unfold events_until_spawn, spawn_config, effective_cwd, rewrite_cwd,
    registration_result, isWindows, write_cwd.
  destruct (existsSync host (cwd opts)) eqn:Hcwd; simpl.
  - unfold read_options. simpl. rewrite Ho. unfold_monad. simpl.
    destruct (spawn np _ _ _) as [pty|e]; simpl.
    + unfold registration_events.
      destruct (on (pty_object host pty) "error") as [[]|e1]; simpl;
        [destruct (on (pty_object host pty) "exit") as [[]|e2]; simpl|];
        rewrite ?createPTY_catch_run by options_there;
        norm_state; rewrite <- ?app_assoc; reflexivity.
    + rewrite createPTY_catch_run by options_there.
      norm_state; rewrite <- ?app_assoc; reflexivity.
  - unfold read_options. simpl. rewrite lookup_alter_eq, Ho. unfold_monad. simpl.
    destruct (spawn np _ _ _) as [pty|e]; simpl.
    + unfold registration_events.
      destruct (on (pty_object host pty) "error") as [[]|e1]; simpl;
        [destruct (on (pty_object host pty) "exit") as [[]|e2]; simpl|];
        rewrite ?createPTY_catch_run by options_there;
        norm_state; rewrite <- ?app_assoc; reflexivity.
    + rewrite createPTY_catch_run by options_there.
      norm_state; rewrite <- ?app_assoc; reflexivity.
Qed.

(** No options object behind the reference: the first property read
    throws and the [catch] block wraps it. *)
Lemma createPTY_no_options o st :
  heap st !! o = None →
  ∃ e, createPTY bridge host o st = (Throw e, st).
Proof.
  intros Ho. unfold createPTY, createPTY_try, try_catch, bind, read_options.
  rewrite Ho. rewrite createPTY_catch_run by (by right). eauto.
Qed.

Lemma registration_result_cases o pty :
  (registration_result host o pty = Ok pty
   ∧ on (pty_object host pty) "error" = Ok tt
   ∧ on (pty_object host pty) "exit" = Ok tt)
  ∨ ∃ e, registration_result host o pty = Throw (rethrown o e).
Proof.
  unfold registration_result.
  destruct (on (pty_object host pty) "error") as [[]|e1]; [|by right; eexists].
  destruct (on (pty_object host pty) "exit") as [[]|e2]; [by left|by right; eexists].
Qed.

Lemma rewrite_cwd_trace o opts st :
  trace (rewrite_cwd host o opts st) = trace st.
Proof. unfold rewrite_cwd. by destruct (existsSync host (cwd opts)). Qed.

Lemma rewrite_cwd_active o opts st :
  activePTYs (rewrite_cwd host o opts st) = activePTYs st.
Proof. unfold rewrite_cwd. by destruct (existsSync host (cwd opts)). Qed.

Lemma spawn_configs_app evs1 evs2 :
  spawn_configs (evs1 ++ evs2) = spawn_configs evs1 ++ spawn_configs evs2.
Proof.
  induction evs1 as [|e evs1 IH]; [done|].
  destruct e; simpl; by rewrite ?IH.
Qed.

Lemma spawn_configs_until_spawn opts :
  spawn_configs (events_until_spawn bridge host opts) =
    [spawn_config bridge host opts].
Proof.
  unfold events_until_spawn, shell_check_events.
  destruct (ElectronBridge.validateShellSync bridge (shell opts));
    destruct (existsSync host (cwd opts)); reflexivity.
Qed.

Lemma spawn_configs_shell_check sh :
  spawn_configs (shell_check_events bridge sh) = [].
Proof.
  unfold shell_check_events.
  by destruct (ElectronBridge.validateShellSync bridge sh).
Qed.

Lemma spawn_configs_registration pty :
  spawn_configs (registration_events host pty) = [].
Proof.
  unfold registration_events.
  by destruct (on (pty_object host pty) "error").
Qed.

Lemma existence_checks_app evs1 evs2 :
  existence_checks (evs1 ++ evs2) =
    existence_checks evs1 ++ existence_checks evs2.
Proof.
  induction evs1 as [|e evs1 IH]; [done|].
  destruct e; simpl; by rewrite ?IH.
Qed.

Lemma existence_checks_until_spawn opts :
  existence_checks (events_until_spawn bridge host opts) = [cwd opts].
Proof.
  unfold events_until_spawn, shell_check_events.
  destruct (ElectronBridge.validateShellSync bridge (shell opts));
    destruct (existsSync host (cwd opts)); reflexivity.
Qed.

Lemma existence_checks_registration pty :
  existence_checks (registration_events host pty) = [].
Proof.
  unfold registration_events.
  by destruct (on (pty_object host pty) "error").
Qed.

Lemma registration_result_Ok o pty p :
  registration_result host o pty = Ok p ↔
    p = pty ∧ on (pty_object host pty) "error" = Ok tt
            ∧ on (pty_object host pty) "exit" = Ok tt.
Proof.
  unfold registration_result.
  destruct (on (pty_object host pty) "error") as [[]|e1].
  - destruct (on (pty_object host pty) "exit") as [[]|e2].
    + split; [by intros [= <-]|by intros [-> _]].
    + split; [done|]. by intros (_ & _ & ?).
  - split; [done|]. by intros (_ & ? & _).
Qed.

Lemma registration_result_Throw o pty :
  registration_result host o pty ≠ Ok pty →
  ∃ e, registration_result host o pty = Throw e.
Proof.
  destruct (registration_result_cases o pty) as [(-> & _)|[e ->]]; [done|eauto].
Qed.

Lemma add_elem_of_self (s : list IPty) p : p ∈ JsSet.add s p.
Proof.
  unfold JsSet.add, JsSet.has. case_bool_decide; [done|].
  apply elem_of_app. right. by apply list_elem_of_singleton.
Qed.

(** Once both validations pass, the outcome of [createPTY] is decided by
    what spawn answers on the configuration built for the request. *)
Lemma createPTY_after_validation o opts np st :
  heap st !! o = Some opts →
  ElectronBridge.getNodePTY bridge = Some np →
  shell_passes bridge (shell opts) = true →
  match spawn np (shell opts) (args_or_empty (args opts))
          (spawn_config bridge host opts) with
  | Ok pty =>
      fst (createPTY bridge host o st) = registration_result host o pty
      ∧ activePTYs (snd (createPTY bridge host o st)) =
          JsSet.add (activePTYs st) pty
      ∧ trace (snd (createPTY bridge host o st)) =
          trace st ++ events_until_spawn bridge host opts ++
          registration_events host pty
  | Throw e =>
      fst (createPTY bridge host o st) = Throw (rethrown o e)
      ∧ activePTYs (snd (createPTY bridge host o st)) = activePTYs st
      ∧ trace (snd (createPTY bridge host o st)) =
          trace st ++ events_until_spawn bridge host opts
  end.
Proof.
  intros Ho Hnp Hsh.
  rewrite (createPTY_spawn_run _ _ _ _ Ho Hnp Hsh).
  destruct (spawn np _ _ _) as [pty|e]; simpl;
    by rewrite rewrite_cwd_active, rewrite_cwd_trace.
Qed.

(** C1.  [createPTY] validates fail-fast in a fixed order.  When the
    bridge has no node-pty, it throws NODE_PTY_NOT_AVAILABLE after
    asking the bridge only for node-pty and the load mode: the shell is
    never checked.  When node-pty is there and the shell fails the
    validity check, it throws SHELL_NOT_FOUND right after the shell
    check: neither the working directory is looked at nor spawn called. *)
Theorem createPTY_validation_order (o : loc) (opts : PTYOptions) (st : State) :
  heap st !! o = Some opts →
  (ElectronBridge.getNodePTY bridge = None →
     createPTY bridge host o st =
       (Throw (TerminalPluginError NODE_PTY_NOT_AVAILABLE
                 "node-pty module is not available" None None),
        log_events [EvGetNodePTY; EvGetPtyLoadMode] st))
  ∧ (is_Some (ElectronBridge.getNodePTY bridge) →
     shell_passes bridge (shell opts) = false →
     createPTY bridge host o st =
       (Throw (TerminalPluginError SHELL_NOT_FOUND
                 ("Shell not found: " +:+ shell opts) None None),
        log_events ([EvGetNodePTY; EvGetPtyLoadMode] ++
                    shell_check_events bridge (shell opts)) st)).
Proof.
  intros Ho. split.
  - intros Hnp. by apply (createPTY_no_bridge o opts).
  - intros Hnp Hsh. by apply createPTY_shell_fails.
Qed.

Lemma shell_check_no_add sh p : EvSetAdd p ∉ shell_check_events bridge sh.
Proof.
  unfold shell_check_events.
  destruct (ElectronBridge.validateShellSync bridge sh);
    intros H; repeat (apply elem_of_cons in H as [H|H]; [discriminate|]);
    by apply elem_of_nil in H.
Qed.

(** C2.  With node-pty available, a shell that fails the validity check
    makes [createPTY] throw SHELL_NOT_FOUND; the active set is the same
    list afterwards, no handle was added on the way, and
    [getActivePTYCount] answers the same before and after. *)
Theorem createPTY_shell_not_found_keeps_active_set
    (o : loc) (opts : PTYOptions) (st : State) :
  heap st !! o = Some opts →
  is_Some (ElectronBridge.getNodePTY bridge) →
  shell_passes bridge (shell opts) = false →
  ∃ st' evs,
    createPTY bridge host o st =
      (Throw (TerminalPluginError SHELL_NOT_FOUND
                ("Shell not found: " +:+ shell opts) None None), st')
    ∧ activePTYs st' = activePTYs st
    ∧ trace st' = trace st ++ evs
    ∧ (∀ p, EvSetAdd p ∉ evs)
    ∧ fst (getActivePTYCount st') = fst (getActivePTYCount st).
Proof.
  intros Ho Hnp Hsh.
  eexists _, _. split; [by apply createPTY_shell_fails|].
  repeat split; simpl.
  intros p. rewrite !elem_of_cons. intros [H|[H|H]]; try discriminate.
  by apply shell_check_no_add in H.
Qed.

(** C4 (amended).  With node-pty available and a valid shell, a [cwd]
    that does not exist raises nothing before the spawn.  The working
    directory of the spawn configuration is the value of the HOME
    environment variable when that is set and non-empty and "/"
    otherwise, whatever the user's home directory is; the only path
    whose existence is looked up is the requested [cwd], never the
    substitute.  Spawn is requested once, with that configuration.  When
    it returns a handle, the handle is tracked, and [createPTY] returns
    it exactly when both observer registrations return; when the spawn
    throws, [createPTY] throws and the active set is as before. *)
Theorem createPTY_missing_cwd_substitutes_home
    (o : loc) (opts : PTYOptions) (np : NodePty) (st : State) :
  heap st !! o = Some opts →
  ElectronBridge.getNodePTY bridge = Some np →
  shell_passes bridge (shell opts) = true →
  existsSync host (cwd opts) = false →
  let so := spawn_config bridge host opts in
  let r := createPTY bridge host o st in
  spawn_cwd so = match env_HOME host with
                 | Some h => if decide (h = EmptyString) then "/" else h
                 | None => "/"
                 end
  ∧ (∃ evs,
      trace (snd r) = trace st ++ evs
      ∧ spawn_configs evs = [so]
      ∧ existence_checks evs = [cwd opts])
  ∧ match spawn np (shell opts) (args_or_empty (args opts)) so with
    | Ok pty =>
        pty ∈ activePTYs (snd r)
        ∧ (∀ p, fst r = Ok p ↔
             p = pty ∧ on (pty_object host pty) "error" = Ok tt
                     ∧ on (pty_object host pty) "exit" = Ok tt)
    | Throw e =>
        (∃ e', fst r = Throw e') ∧ activePTYs (snd r) = activePTYs st
    end.
Proof.
  intros Ho Hnp Hsh Hcwd so r. split; [|split].
  - subst so. unfold spawn_config, effective_cwd, str_or. simpl. rewrite Hcwd.
    destruct (env_HOME host) as [h|]; [|done].
    case_decide as Hh; [by subst|].
    destruct (String.eqb_spec h EmptyString); [done|done].
  - pose proof (createPTY_after_validation _ _ _ st Ho Hnp Hsh) as Hrun.
    fold so r in Hrun.
    destruct (spawn np _ _ _) as [pty|e]; destruct Hrun as (_ & _ & Htr).
    + exists (events_until_spawn bridge host opts ++ registration_events host pty).
      split; [done|].
      rewrite spawn_configs_app, spawn_configs_until_spawn,
        spawn_configs_registration.
      rewrite existence_checks_app, existence_checks_until_spawn,
        existence_checks_registration.
      done.
    + exists (events_until_spawn bridge host opts).
      split; [done|].
      by rewrite spawn_configs_until_spawn, existence_checks_until_spawn.
  - pose proof (createPTY_after_validation _ _ _ st Ho Hnp Hsh) as Hrun.
    fold so r in Hrun.
    destruct (spawn np _ _ _) as [pty|e]; destruct Hrun as (Hres & Hact & _).
    + split.
      * rewrite Hact. apply add_elem_of_self.
      * intros p. rewrite Hres. apply registration_result_Ok.
    + split; [by eexists|done].
Qed.

(** C5.  Whatever the options and the platform, the spawn configuration
    that [createPTY] hands to node-pty carries [useConpty] (set to
    [true]) exactly when the platform is "win32"; on any other platform
    the key is absent.  This is so of every spawn request the call
    records, and it is the configuration node-pty is called with: for
    whatever node-pty the bridge provides, once both validations pass the
    outcome of [createPTY] is the answer of that node-pty's spawn on the
    shell, the arguments and the configuration with the key set by the
    platform alone.  A handle it returns is tracked, and returned once
    both observers are registered; a throw of it makes [createPTY] throw
    with the active set as before. *)
Theorem createPTY_useConpty_only_on_win32 (o : loc) (st : State) :
  (∃ evs,
    trace (snd (createPTY bridge host o st)) = trace st ++ evs
    ∧ Forall (λ so,
        (useConpty so = Some true ↔
           platform (ElectronBridge.getProcess bridge) = "win32")
        ∧ (useConpty so = None ↔
           platform (ElectronBridge.getProcess bridge) ≠ "win32"))
        (spawn_configs evs))
  ∧ ∀ (opts : PTYOptions) (np : NodePty),
      heap st !! o = Some opts →
      ElectronBridge.getNodePTY bridge = Some np →
      shell_passes bridge (shell opts) = true →
      let so :=
        {| spawn_name := "xterm-256color";
           spawn_cols := cols opts;
           spawn_rows := rows opts;
           spawn_cwd := if existsSync host (cwd opts) then cwd opts
                        else str_or (env_HOME host) "/";
           spawn_env := env opts;
           spawn_encoding := "utf8";
           useConpty :=
             if String.eqb (platform (ElectronBridge.getProcess bridge)) "win32"
             then Some true else None |} in
      let r := createPTY bridge host o st in
      (useConpty so = Some true ↔
         platform (ElectronBridge.getProcess bridge) = "win32")
      ∧ (useConpty so = None ↔
         platform (ElectronBridge.getProcess bridge) ≠ "win32")
      ∧ (∃ evs, trace (snd r) = trace st ++ evs ∧ spawn_configs evs = [so])
      ∧ match spawn np (shell opts) (args_or_empty (args opts)) so with
        | Ok pty =>
            pty ∈ activePTYs (snd r)
            ∧ (∀ p, fst r = Ok p ↔
                 p = pty ∧ on (pty_object host pty) "error" = Ok tt
                         ∧ on (pty_object host pty) "exit" = Ok tt)
        | Throw e =>
            (∃ e', fst r = Throw e') ∧ activePTYs (snd r) = activePTYs st
        end.
Proof.
  assert (Hflag : ∀ opts,
    (useConpty (spawn_config bridge host opts) = Some true ↔
       platform (ElectronBridge.getProcess bridge) = "win32")
    ∧ (useConpty (spawn_config bridge host opts) = None ↔
       platform (ElectronBridge.getProcess bridge) ≠ "win32")).
  { intros opts. unfold spawn_config, isWindows. simpl.
    destruct (String.eqb_spec (platform (ElectronBridge.getProcess bridge)) "win32");
      naive_solver. }
  split.
  - destruct (heap st !! o) as [opts|] eqn:Ho.
    + destruct (ElectronBridge.getNodePTY bridge) as [np|] eqn:Hnp.
      * destruct (shell_passes bridge (shell opts)) eqn:Hsh.
        -- pose proof (createPTY_after_validation _ _ _ st Ho Hnp Hsh) as Hrun.
           destruct (spawn np _ _ _) as [pty|e]; destruct Hrun as (_ & _ & Htr);
             [ exists (events_until_spawn bridge host opts ++
                         registration_events host pty)
             | exists (events_until_spawn bridge host opts) ];
             (split; [done|]);
             rewrite ?spawn_configs_app, spawn_configs_until_spawn,
               ?spawn_configs_registration; simpl;
             (constructor; [apply Hflag | constructor]).
        -- rewrite (createPTY_shell_fails _ _ _ Ho (mk_is_Some _ _ Hnp) Hsh). simpl.
           exists ([EvGetNodePTY; EvGetPtyLoadMode] ++
                   shell_check_events bridge (shell opts)).
           split; [reflexivity|].
           rewrite spawn_configs_app, spawn_configs_shell_check. constructor.
      * rewrite (createPTY_no_bridge _ _ _ Ho Hnp). simpl.
        eexists. split; [done|]. constructor.
    + destruct (createPTY_no_options _ _ Ho) as [e ->]. simpl.
      exists []. split; [by rewrite app_nil_r|]. constructor.
  - intros opts np Ho Hnp Hsh so r.
    assert (Hso : so = spawn_config bridge host opts) by reflexivity.
    clearbody so. subst so.
    split; [apply Hflag|]. split; [apply Hflag|].
    pose proof (createPTY_after_validation _ _ _ st Ho Hnp Hsh) as Hrun.
    fold r in Hrun.
    destruct (spawn np _ _ _) as [pty|e]; destruct Hrun as (Hres & Hact & Htr).
    + split.
      * exists (events_until_spawn bridge host opts ++
                registration_events host pty).
        split; [done|].
        by rewrite spawn_configs_app, spawn_configs_until_spawn,
          spawn_configs_registration.
      * split; [rewrite Hact; apply add_elem_of_self|].
        intros p. rewrite Hres. apply registration_result_Ok.
    + split.
      * exists (events_until_spawn bridge host opts).
        split; [done|]. by rewrite spawn_configs_until_spawn.
      * split; [by eexists|done].
Qed.

(** C10.  [createPTY] writes to the caller's options object.  When
    [options.cwd] does not exist, the object behind the caller's
    reference holds the substituted path after the call, whether the
    spawn succeeded or threw, and nothing else in the store changed;
    when the spawn throws an untyped error, the PTY_CREATION_FAILED
    error that comes out carries that same reference as its context,
    so its options are the rewritten ones. *)
Theorem createPTY_rewrites_callers_options
    (o : loc) (opts : PTYOptions) (np : NodePty) (st : State) :
  heap st !! o = Some opts →
  ElectronBridge.getNodePTY bridge = Some np →
  shell_passes bridge (shell opts) = true →
  existsSync host (cwd opts) = false →
  let st' := snd (createPTY bridge host o st) in
  let rewritten := with_cwd opts (str_or (env_HOME host) "/") in
  heap st' !! o = Some rewritten
  ∧ (∀ o', o' ≠ o → heap st' !! o' = heap st !! o')
  ∧ (∀ e, spawn np (shell opts) (args_or_empty (args opts))
            (spawn_config bridge host opts) = Throw e →
          instanceof_TerminalPluginError e = false →
          fst (createPTY bridge host o st) =
            Throw (TerminalPluginError PTY_CREATION_FAILED
                     ("Failed to create PTY process: " +:+ message_or_error e)
                     (Some e) (Some o))
          ∧ heap st' !! o = Some rewritten).
Proof.
  intros Ho Hnp Hsh Hcwd st' rewritten.
  assert (Hheap : heap st' =
            alter (λ op, with_cwd op (str_or (env_HOME host) "/")) o (heap st)).
  { subst st'. rewrite (createPTY_spawn_run _ _ _ _ Ho Hnp Hsh).
    unfold rewrite_cwd. rewrite Hcwd.
    by destruct (spawn np _ _ _). }
  assert (Hat : heap st' !! o = Some rewritten).
  { rewrite Hheap, lookup_alter_eq, Ho. done. }
  split; [done|]. split.
  - intros o' Hne. rewrite Hheap. by apply lookup_alter_ne.
  - intros e He Hty. split; [|done].
    rewrite (createPTY_spawn_run _ _ _ _ Ho Hnp Hsh), He. simpl.
    unfold rethrown. by rewrite Hty.
Qed.


(** *** [destroyPTY] and [cleanup] *)

Lemma JsSet_has_true s p : JsSet.has s p = true ↔ p ∈ s.
Proof. unfold JsSet.has. apply bool_decide_eq_true. Qed.

Lemma JsSet_has_false s p : JsSet.has s p = false ↔ p ∉ s.
Proof. unfold JsSet.has. apply bool_decide_eq_false. Qed.

Lemma JsSet_elem_of_delete s p q : q ∈ JsSet.delete s p ↔ q ≠ p ∧ q ∈ s.
Proof. unfold JsSet.delete. by rewrite list_elem_of_filter. Qed.

Lemma JsSet_delete_gone s p : p ∉ JsSet.delete s p.
Proof. by intros [Hne _]%JsSet_elem_of_delete. Qed.

(** The list stays duplicate-free under the operations of a [Set]. *)
Lemma JsSet_add_NoDup s p : NoDup s → NoDup (JsSet.add s p).
Proof.
  intros Hs. unfold JsSet.add. destruct (JsSet.has s p) eqn:Hp; [done|].
  apply JsSet_has_false in Hp. apply NoDup_app. split; [done|].
  split; [|apply NoDup_singleton].
  intros x Hx Hx'. apply list_elem_of_singleton in Hx'. by subst.
Qed.

Lemma JsSet_delete_NoDup s p : NoDup s → NoDup (JsSet.delete s p).
Proof. intros Hs. unfold JsSet.delete. by apply NoDup_filter. Qed.

Lemma destroyPTY_untracked pty st :
  pty ∉ activePTYs st → destroyPTY host pty st = (Ok tt, st).
Proof.
  intros Hp. apply JsSet_has_false in Hp.
  unfold destroyPTY. unfold_monad. by rewrite Hp.
Qed.

Lemma destroyPTY_tracked pty st :
  pty ∈ activePTYs st →
  destroyPTY host pty st =
    (destroy_outcome host pty,
     log_events (destroy_events host pty)
       (set_activePTYs (λ s, JsSet.delete s pty) st)).
Proof.
  intros Hp. apply JsSet_has_true in Hp.
  unfold destroyPTY, destroy_outcome, destroy_events. unfold_monad. rewrite Hp.
  destruct (kill (pty_object host pty)) as [[]|ek];
    destruct (removeAllListeners (pty_object host pty)) as [[]|er];
    simpl; by norm_state.
Qed.

(** C6.  [destroyPTY] is idempotent.  On a handle that is not in the
    active set it returns normally and leaves the whole state as it was.
    On a tracked handle it removes the handle from the active set first
    and only then requests termination and releases the observers; a
    throw of [kill] is answered with a warning and does not reach the
    caller, whose outcome depends on the release of the observers alone.
    Either way the handle is not tracked afterwards, so a second call
    is a no-op. *)
Theorem destroyPTY_idempotent (pty : IPty) (st : State) :
  (pty ∉ activePTYs st → destroyPTY host pty st = (Ok tt, st))
  ∧ (pty ∈ activePTYs st →
     ∃ warned,
       destroyPTY host pty st =
         (destroy_outcome host pty,
          log_events ([EvSetDelete pty; EvKill pty] ++ warned ++
                      [EvRemoveAllListeners pty])
            (set_activePTYs (λ s, JsSet.delete s pty) st))
       ∧ (warned = match kill (pty_object host pty) with
                   | Ok _ => []
                   | Throw _ => [EvWarn "Failed to kill PTY process:"]
                   end)
       ∧ pty ∉ activePTYs (snd (destroyPTY host pty st)))
  ∧ destroyPTY host pty (snd (destroyPTY host pty st)) =
      (Ok tt, snd (destroyPTY host pty st)).
Proof.
  split; [apply destroyPTY_untracked|]. split.
  - intros Hp. eexists. split; [by apply destroyPTY_tracked|].
    split; [done|]. rewrite destroyPTY_tracked by done. simpl.
    apply JsSet_delete_gone.
  - apply destroyPTY_untracked.
    destruct (decide (pty ∈ activePTYs st)) as [Hp|Hp].
    + rewrite destroyPTY_tracked by done. simpl. apply JsSet_delete_gone.
    + by rewrite destroyPTY_untracked.
Qed.

Lemma killed_app evs1 evs2 : killed (evs1 ++ evs2) = killed evs1 ++ killed evs2.
Proof.
  induction evs1 as [|e evs1 IH]; [done|].
  destruct e; simpl; by rewrite ?IH.
Qed.

Lemma killed_destroy_events p : killed (destroy_events host p) = [p].
Proof.
  unfold destroy_events. by destruct (kill (pty_object host p)).
Qed.

Lemma killed_flat_map l : killed (flat_map (destroy_events host) l) = l.
Proof.
  induction l as [|p l IH]; [done|].
  cbn [flat_map]. by rewrite killed_app, killed_destroy_events, IH.
Qed.

(** The loop of [cleanup] over a snapshot whose entries are all tracked
    and all release their observers: every entry is destroyed, in
    order, and the loop runs to its end. *)
Lemma forEach_destroyPTY_run l : ∀ st,
  NoDup l →
  (∀ p, p ∈ l → p ∈ activePTYs st) →
  (∀ p, p ∈ l → releases host p = true) →
  ∃ s', forEach (destroyPTY host) l st =
          (Ok tt, log_events (flat_map (destroy_events host) l)
                    (set_activePTYs (λ _, s') st)).
Proof.
  induction l as [|p l IH]; intros st Hnd Hin Hrel.
  - exists (activePTYs st). simpl. unfold ret. f_equal.
    rewrite log_events_nil. by destruct st.
  - apply NoDup_cons in Hnd as [Hp Hnd].
    simpl. unfold bind. rewrite destroyPTY_tracked by (apply Hin; left).
    assert (Hout : destroy_outcome host p = Ok tt).
    { unfold destroy_outcome. specialize (Hrel p ltac:(left)).
      unfold releases in Hrel.
      by destruct (removeAllListeners (pty_object host p)). }
    rewrite Hout.
    destruct (IH (log_events (destroy_events host p)
                    (set_activePTYs (λ s, JsSet.delete s p) st)))
      as [s' Hs']; [done| | |].
    + intros q Hq. simpl. apply JsSet_elem_of_delete. split.
      * intros ->. done.
      * apply Hin. by right.
    + intros q Hq. apply Hrel. by right.
    + exists s'. rewrite Hs'. f_equal. unfold log_events, set_activePTYs.
      cbn [trace activePTYs settingsProvider heap flat_map].
      by rewrite <- app_assoc.
Qed.

(** When every tracked entry releases its observers, [cleanup] destroys
    the entries of its snapshot in insertion order, a throw of [kill] on
    an entry being tolerated: each entry has been asked to terminate
    exactly once, in order, the set is cleared and [getActivePTYCount]
    is 0. *)
Theorem cleanup_empties_active_set (st : State) :
  NoDup (activePTYs st) →
  (∀ p, p ∈ activePTYs st → releases host p = true) →
  cleanup host st =
    (Ok tt,
     log_events (flat_map (destroy_events host) (activePTYs st) ++ [EvSetClear])
       (set_activePTYs (λ _, []) st))
  ∧ killed (flat_map (destroy_events host) (activePTYs st) ++ [EvSetClear])
      = activePTYs st
  ∧ fst (getActivePTYCount (snd (cleanup host st))) = Ok 0.
Proof.
  intros Hnd Hrel.
  assert (Hrun : cleanup host st =
    (Ok tt,
     log_events (flat_map (destroy_events host) (activePTYs st) ++ [EvSetClear])
       (set_activePTYs (λ _, []) st))).
  { unfold cleanup, bind at 1, gets. unfold bind.
    destruct (forEach_destroyPTY_run (activePTYs st) st Hnd) as [s' Hs'];
      [done|done|].
    rewrite Hs'. unfold active_clear. f_equal.
    unfold log_event, log_events, set_activePTYs. simpl. by rewrite app_assoc. }
  split; [done|]. split.
  - by rewrite killed_app, killed_flat_map, app_nil_r.
  - by rewrite Hrun.
Qed.


(** A handle that terminated on its own is no longer tracked, so a
    later [destroyPTY] on it does nothing. *)
Lemma destroyPTY_after_exit pty st :
  destroyPTY host pty (snd (on_exit pty st)) = (Ok tt, snd (on_exit pty st))
  ∧ destroyPTY host pty (snd (on_error pty st)) = (Ok tt, snd (on_error pty st)).
Proof.
  split; apply destroyPTY_untracked; simpl; apply JsSet_delete_gone.
Qed.

(** The operations keep the active set free of duplicates. *)
Lemma destroyPTY_NoDup pty st :
  NoDup (activePTYs st) → NoDup (activePTYs (snd (destroyPTY host pty st))).
Proof.
  intros Hnd. destruct (decide (pty ∈ activePTYs st)) as [Hp|Hp].
  - rewrite destroyPTY_tracked by done. simpl. by apply JsSet_delete_NoDup.
  - by rewrite destroyPTY_untracked.
Qed.

Lemma createPTY_NoDup o st :
  NoDup (activePTYs st) →
  NoDup (activePTYs (snd (createPTY bridge host o st))).
Proof.
  intros Hnd. destruct (heap st !! o) as [opts|] eqn:Ho.
  - destruct (ElectronBridge.getNodePTY bridge) as [np|] eqn:Hnp.
    + destruct (shell_passes bridge (shell opts)) eqn:Hsh.
      * rewrite (createPTY_spawn_run _ _ _ _ Ho Hnp Hsh).
        destruct (spawn np _ _ _) as [pty|e]; simpl; rewrite rewrite_cwd_active;
          [by apply JsSet_add_NoDup | done].
      * by rewrite (createPTY_shell_fails _ _ _ Ho (mk_is_Some _ _ Hnp) Hsh).
    + by rewrite (createPTY_no_bridge _ _ _ Ho Hnp).
  - by destruct (createPTY_no_options _ _ Ho) as [e ->].
Qed.

(** *** Shell resolution *)

Lemma getSystemDefaultShell_run st :
  getSystemDefaultShell bridge st =
    (Ok match ElectronBridge.getDefaultShell bridge with
        | Ok sh => sh
        | Throw _ => getSystemDefaultShell_switch
                       (platform (ElectronBridge.getProcess bridge))
        end,
     log_events (system_default_events bridge) st).
Proof.
  unfold getSystemDefaultShell, system_default_events. unfold_monad.
  destruct (ElectronBridge.getDefaultShell bridge); by norm_state.
Qed.

Lemma getSystemDefaultShell_switch_table :
  getSystemDefaultShell_switch "win32" = "cmd.exe"
  ∧ getSystemDefaultShell_switch "darwin" = "/bin/zsh"
  ∧ getSystemDefaultShell_switch "linux" = "/bin/bash"
  ∧ ∀ p, p ≠ "win32" → p ≠ "darwin" → p ≠ "linux" →
         getSystemDefaultShell_switch p = "/bin/sh".
Proof.
  repeat split; try reflexivity.
  intros p Hw Hd Hl. unfold getSystemDefaultShell_switch.
  destruct (String.eqb_spec p "win32"); [done|].
  destruct (String.eqb_spec p "darwin"); [done|].
  by destruct (String.eqb_spec p "linux").
Qed.

(** No provider, a provider that yields nothing, or an empty configured
    shell: the system default. *)
Lemma getDefaultShell_unconfigured st :
  match settingsProvider st with
  | Some f => match f tt with
              | Some s => defaultShell s = EmptyString
              | None => True
              end
  | None => True
  end →
  getDefaultShell bridge st =
    getSystemDefaultShell bridge
      (log_events (match settingsProvider st with
                   | Some _ => [EvSettingsProvider]
                   | None => []
                   end) st).
Proof.
  intros H. unfold getDefaultShell, call_settingsProvider. unfold_monad.
  destruct (settingsProvider st) as [f|]; simpl.
  - destruct (f tt) as [s|]; [rewrite H|]; by norm_state.
  - by rewrite log_events_nil.
Qed.

(** A configured shell: the outcome follows the synchronous check. *)
Lemma getDefaultShell_configured st f s :
  settingsProvider st = Some f →
  f tt = Some s →
  defaultShell s ≠ EmptyString →
  getDefaultShell bridge st =
    match ElectronBridge.validateShellSync bridge (defaultShell s) with
    | Ok true =>
        (Ok (defaultShell s),
         log_events [EvSettingsProvider; EvValidateShellSync (defaultShell s)] st)
    | Ok false =>
        getSystemDefaultShell bridge
          (log_events [EvSettingsProvider; EvValidateShellSync (defaultShell s);
                       invalid_shell_warning (defaultShell s)] st)
    | Throw e =>
        (Throw e,
         log_events [EvSettingsProvider; EvValidateShellSync (defaultShell s)] st)
    end.
Proof.
  intros Hf Hs Hne. unfold getDefaultShell, call_settingsProvider. unfold_monad.
  rewrite Hf. simpl. rewrite Hs.
  destruct (String.eqb_spec (defaultShell s) EmptyString); [done|]. simpl.
  destruct (ElectronBridge.validateShellSync bridge (defaultShell s)) as [[]|e];
    by norm_state.
Qed.

(** [getDefaultShell] touches nothing but the trace. *)
Lemma getDefaultShell_frame st :
  ∃ evs, snd (getDefaultShell bridge st) = log_events evs st.
Proof.
  destruct (settingsProvider st) as [f|] eqn:Hf.
  - destruct (f tt) as [s|] eqn:Hs.
    + destruct (decide (defaultShell s = EmptyString)) as [He|He].
      * rewrite getDefaultShell_unconfigured by (by rewrite Hf, Hs).
        rewrite getSystemDefaultShell_run. simpl. norm_state. eauto.
      * rewrite (getDefaultShell_configured _ _ _ Hf Hs He).
        destruct (ElectronBridge.validateShellSync bridge (defaultShell s))
          as [[]|e]; rewrite ?getSystemDefaultShell_run; simpl; norm_state; eauto.
    + rewrite getDefaultShell_unconfigured by (by rewrite Hf, Hs).
      rewrite getSystemDefaultShell_run. simpl. norm_state. eauto.
  - rewrite getDefaultShell_unconfigured by (by rewrite Hf).
    rewrite getSystemDefaultShell_run. simpl. norm_state. eauto.
Qed.

(** The part of the resolution order that holds: whenever the
    synchronous check of the configured shell returns, [getDefaultShell]
    returns normally. *)
Lemma getDefaultShell_returns_when_check_returns st :
  (∀ f s, settingsProvider st = Some f → f tt = Some s →
          defaultShell s ≠ EmptyString →
          ∃ b, ElectronBridge.validateShellSync bridge (defaultShell s) = Ok b) →
  ∃ sh, fst (getDefaultShell bridge st) = Ok sh.
Proof.
  intros Hret.
  destruct (settingsProvider st) as [f|] eqn:Hf.
  - destruct (f tt) as [s|] eqn:Hs.
    + destruct (decide (defaultShell s = EmptyString)) as [He|He].
      * rewrite getDefaultShell_unconfigured by (by rewrite Hf, Hs).
        rewrite getSystemDefaultShell_run. simpl. eauto.
      * rewrite (getDefaultShell_configured _ _ _ Hf Hs He).
        destruct (Hret f s eq_refl Hs He) as [b ->].
        destruct b; rewrite ?getSystemDefaultShell_run; simpl; eauto.
    + rewrite getDefaultShell_unconfigured by (by rewrite Hf, Hs).
      rewrite getSystemDefaultShell_run. simpl. eauto.
  - rewrite getDefaultShell_unconfigured by (by rewrite Hf).
    rewrite getSystemDefaultShell_run. simpl. eauto.
Qed.

Lemma findAvailableShell_loop_none l : ∀ st,
  Forall (λ c, validates bridge c = false) l →
  findAvailableShell_loop bridge l st =
    (Ok None, log_events (EvValidateShell <$> l) st).
Proof.
  induction l as [|c l IH]; intros st Hl.
  - simpl. unfold ret. by rewrite log_events_nil.
  - apply Forall_cons in Hl as [Hc Hl]. unfold validates in Hc.
    cbn [findAvailableShell_loop]. unfold_monad.
    destruct (ElectronBridge.validateShell bridge c) as [b|e]; simpl;
      [subst b|]; rewrite (IH _ Hl); by norm_state.
Qed.

Lemma findAvailableShell_loop_found pre : ∀ sh post st,
  Forall (λ c, validates bridge c = false) pre →
  validates bridge sh = true →
  findAvailableShell_loop bridge (pre ++ sh :: post) st =
    (Ok (Some sh), log_events (EvValidateShell <$> (pre ++ [sh])) st).
Proof.
  induction pre as [|c pre IH]; intros sh post st Hpre Hsh.
  - unfold validates in Hsh. cbn [findAvailableShell_loop app]. unfold_monad.
    destruct (ElectronBridge.validateShell bridge sh) as [b|e]; [subst b|done].
    by norm_state.
  - apply Forall_cons in Hpre as [Hc Hpre]. unfold validates in Hc.
    cbn [findAvailableShell_loop app]. unfold_monad.
    destruct (ElectronBridge.validateShell bridge c) as [b|e]; simpl;
      [subst b|]; rewrite (IH _ _ _ Hpre Hsh); by norm_state.
Qed.

(** C8.  [findAvailableShell] probes the candidates of
    [getAlternativeShells] one after the other in list order.  It returns
    the first candidate whose asynchronous check answers [true], having
    probed exactly the candidates up to and including it; a candidate
    whose check answers [false] or throws is skipped, and no throw of a
    check reaches the caller.  When no candidate validates, every
    candidate has been probed once and the answer is that of
    [getDefaultShell]. *)
Theorem findAvailableShell_first_valid (st : State) :
  let alternatives :=
    PlatformShellTable (platform (ElectronBridge.getProcess bridge)) in
  getAlternativeShells bridge st = (Ok alternatives, log_events [EvGetProcess] st)
  ∧ (∀ pre sh post,
       alternatives = pre ++ sh :: post →
       Forall (λ c, validates bridge c = false) pre →
       validates bridge sh = true →
       findAvailableShell bridge st =
         (Ok sh, log_events (EvGetProcess :: (EvValidateShell <$> (pre ++ [sh]))) st)
       ∧ probed (EvGetProcess :: (EvValidateShell <$> (pre ++ [sh]))) = pre ++ [sh])
  ∧ (Forall (λ c, validates bridge c = false) alternatives →
       findAvailableShell bridge st =
         getDefaultShell bridge
           (log_events (EvGetProcess :: (EvValidateShell <$> alternatives)) st)
       ∧ probed (EvGetProcess :: (EvValidateShell <$> alternatives)) = alternatives).
Proof.
  intros alternatives.
  assert (Hprobed : ∀ l, probed (EvValidateShell <$> l) = l).
  { induction l as [|c l IH]; [done|]. simpl. f_equal. exact IH. }
  assert (Halt : getAlternativeShells bridge st =
                   (Ok alternatives, log_events [EvGetProcess] st)).
  { unfold getAlternativeShells. unfold_monad. by norm_state. }
  split; [done|]. split.
  - intros pre sh post Heq Hpre Hsh. split; [|apply Hprobed].
    unfold findAvailableShell, bind. rewrite Halt. fold alternatives.
    rewrite Heq, (findAvailableShell_loop_found _ _ _ _ Hpre Hsh).
    unfold ret. by norm_state.
  - intros Hall. split; [|apply Hprobed].
    unfold findAvailableShell, bind. rewrite Halt.
    rewrite (findAvailableShell_loop_none _ _ Hall). by norm_state.
Qed.


(** *** The environment of [getDefaultOptions] *)

Lemma str_or_cases (a : option string) (d : string) :
  (∀ v, a = Some v → v ≠ EmptyString → str_or a d = v)
  ∧ (a = None ∨ a = Some EmptyString → str_or a d = d).
Proof.
  split.
  - intros v -> Hv. unfold str_or. by destruct (String.eqb_spec v EmptyString).
  - by intros [-> | ->].
Qed.

Lemma utf8Env_locale (baseEnv : gmap string string) (p k : string) :
  k ∈ ["LANG"; "LC_ALL"; "LC_CTYPE"] →
  utf8Env baseEnv p !! k = Some (str_or (baseEnv !! k) "zh_CN.UTF-8").
Proof.
  intros Hk. unfold utf8Env.
  repeat (apply elem_of_cons in Hk as [->|Hk]);
    [ | | | by apply elem_of_nil in Hk ];
    destruct (String.eqb p "win32");
    by repeat first [ rewrite lookup_insert_ne by done | rewrite lookup_insert_eq ].
Qed.

Lemma utf8Env_win32 (baseEnv : gmap string string) :
  utf8Env baseEnv "win32" !! "CHCP" = Some "65001"
  ∧ utf8Env baseEnv "win32" !! "PYTHONIOENCODING" = Some "utf-8".
Proof.
  unfold utf8Env. simpl. split.
  - rewrite lookup_insert_ne by done. by rewrite lookup_insert_eq.
  - by rewrite lookup_insert_eq.
Qed.

Lemma utf8Env_not_win32 (baseEnv : gmap string string) (p k : string) :
  p ≠ "win32" →
  k ∉ ["LANG"; "LC_ALL"; "LC_CTYPE"] →
  utf8Env baseEnv p !! k = baseEnv !! k.
Proof.
  intros Hp Hk. unfold utf8Env.
  destruct (String.eqb_spec p "win32"); [done|].
  rewrite !lookup_insert_ne; [done|..];
    intros <-; apply Hk; rewrite !elem_of_cons; auto.
Qed.

Lemma utf8Env_other (baseEnv : gmap string string) (p k : string) :
  k ∉ ["LANG"; "LC_ALL"; "LC_CTYPE"; "CHCP"; "PYTHONIOENCODING"] →
  utf8Env baseEnv p !! k = baseEnv !! k.
Proof.
  intros Hk. unfold utf8Env.
  destruct (String.eqb p "win32");
    (rewrite !lookup_insert_ne; [done|..]);
    intros <-; apply Hk; rewrite !elem_of_cons; auto 10.
Qed.

Lemma call_settingsProvider_frame st :
  ∃ r evs, call_settingsProvider st = (Ok r, log_events evs st).
Proof.
  unfold call_settingsProvider. unfold_monad.
  destruct (settingsProvider st) as [f|]; simpl.
  - eexists _, _. by norm_state.
  - exists None, []. by rewrite log_events_nil.
Qed.

(** A normal return of [getDefaultOptions] hands out a new object whose
    [env] is [utf8Env] of the bridge's environment and platform. *)
Lemma getDefaultOptions_alloc st o st' :
  getDefaultOptions bridge DEFAULT_TERMINAL_DIMENSIONS st = (Ok o, st') →
  heap st !! o = None
  ∧ ∃ opts,
      heap st' = <[o := opts]> (heap st)
      ∧ env opts = Some (utf8Env (ElectronBridge.getEnvironmentVariables bridge)
                           (platform (ElectronBridge.getProcess bridge)))
      ∧ cwd opts = ElectronBridge.getCurrentWorkingDirectory bridge
      ∧ cols opts = dim_cols DEFAULT_TERMINAL_DIMENSIONS
      ∧ rows opts = dim_rows DEFAULT_TERMINAL_DIMENSIONS.
Proof.
  unfold getDefaultOptions, bind. unfold emit at 1 2.
  destruct (call_settingsProvider_frame
              (log_event EvGetProcess (log_event EvGetEnvironmentVariables st)))
    as (r & evs & ->).
  destruct (getDefaultShell_frame
              (log_events evs
                 (log_event EvGetProcess (log_event EvGetEnvironmentVariables st))))
    as [evs' Hfr].
  destruct (getDefaultShell bridge _) as [[sh|e] st2]; [|discriminate].
  simpl in Hfr. subst st2. unfold emit, alloc_options. simpl.
  intros [= <- <-]. split.
  - apply not_elem_of_dom. apply is_fresh.
  - eexists. split; [reflexivity|]. by simpl.
Qed.

(** C9 (amended).  In the options object that [getDefaultOptions]
    returns, each of LANG, LC_ALL and LC_CTYPE keeps the value of the
    base environment when that value is a non-empty string, and is
    "zh_CN.UTF-8" when the base environment has no value for it or an
    empty one.  On "win32" CHCP is "65001" and PYTHONIOENCODING is
    "utf-8"; on any other platform these two, like every other
    variable, are as in the base environment. *)
Theorem getDefaultOptions_env (st : State) (o : loc) (st' : State) :
  getDefaultOptions bridge DEFAULT_TERMINAL_DIMENSIONS st = (Ok o, st') →
  let baseEnv := ElectronBridge.getEnvironmentVariables bridge in
  let p := platform (ElectronBridge.getProcess bridge) in
  ∃ opts e,
    heap st' !! o = Some opts
    ∧ env opts = Some e
    ∧ (∀ k, k ∈ ["LANG"; "LC_ALL"; "LC_CTYPE"] →
         (∀ v, baseEnv !! k = Some v → v ≠ EmptyString → e !! k = Some v)
         ∧ (baseEnv !! k = None ∨ baseEnv !! k = Some EmptyString →
            e !! k = Some "zh_CN.UTF-8"))
    ∧ (p = "win32" →
         e !! "CHCP" = Some "65001" ∧ e !! "PYTHONIOENCODING" = Some "utf-8")
    ∧ (p ≠ "win32" →
         e !! "CHCP" = baseEnv !! "CHCP"
         ∧ e !! "PYTHONIOENCODING" = baseEnv !! "PYTHONIOENCODING")
    ∧ (∀ k, k ∉ ["LANG"; "LC_ALL"; "LC_CTYPE"; "CHCP"; "PYTHONIOENCODING"] →
         e !! k = baseEnv !! k).
Proof.
  intros Hrun baseEnv p.
  destruct (getDefaultOptions_alloc _ _ _ Hrun) as (_ & opts & Hheap & Henv & _).
  exists opts, (utf8Env baseEnv p).
  split; [by rewrite Hheap, lookup_insert_eq|]. split; [done|]. split.
  - intros k Hk. rewrite (utf8Env_locale _ _ _ Hk).
    destruct (str_or_cases (baseEnv !! k) "zh_CN.UTF-8") as [Hsome Hnone].
    split.
    + intros v Hv Hne. f_equal. by apply Hsome.
    + intros Hno. f_equal. by apply Hnone.
  - split; [|split].
    + intros ->. apply utf8Env_win32.
    + intros Hp. split; apply utf8Env_not_win32; try done;
        rewrite !elem_of_cons, elem_of_nil; intros [?|[?|[?|[]]]]; discriminate.
    + intros k Hk. by apply utf8Env_other.
Qed.

(** *** More on [createPTY] *)

Lemma createPTY_undefined_options o st :
  heap st !! o = None →
  createPTY bridge host o st =
    (Throw (TerminalPluginError PTY_CREATION_FAILED
              ("Failed to create PTY process: " +:+
               "Cannot read properties of undefined (reading 'shell')")
              (Some (JsError "TypeError"
                       "Cannot read properties of undefined (reading 'shell')"))
              (Some o)),
     st).
Proof.
  intros Ho. unfold createPTY, createPTY_try, try_catch, bind, read_options.
  by rewrite Ho.
Qed.

Lemma rethrown_typed o e : instanceof_TerminalPluginError (rethrown o e) = true.
Proof. unfold rethrown. by destruct e. Qed.

Lemma rewrite_cwd_exists o opts st :
  existsSync host (cwd opts) = true → rewrite_cwd host o opts st = st.
Proof. intros H. unfold rewrite_cwd. by rewrite H. Qed.

Lemma JsSet_add_fresh s p : p ∉ s → JsSet.add s p = s ++ [p].
Proof. intros Hp. unfold JsSet.add. by apply JsSet_has_false in Hp as ->. Qed.

Lemma JsSet_elem_of_add s p q : q ∈ JsSet.add s p ↔ q ∈ s ∨ q = p.
Proof.
  unfold JsSet.add. destruct (JsSet.has s p) eqn:Hp.
  - apply JsSet_has_true in Hp. split; [by left|]. by intros [?| ->].
  - by rewrite elem_of_app, list_elem_of_singleton.
Qed.

Lemma JsSet_size_snoc s p : JsSet.size (s ++ [p]) = JsSet.size s + 1.
Proof. unfold JsSet.size. rewrite length_app. simpl. lia. Qed.

(** X1.  A request whose shell passes the check and whose [cwd] exists,
    on a bridge whose spawn hands out a handle that is not tracked yet
    and on which both observers can be registered: [createPTY] returns
    that handle, the handle is appended to the active set, the count
    grows by one, the working directory handed to spawn is the requested
    one, the options objects are untouched, and the two observers are
    registered after the handle is tracked. *)
Theorem createPTY_success_tracks_handle
    (o : loc) (opts : PTYOptions) (np : NodePty) (pty : IPty) (st : State) :
  heap st !! o = Some opts →
  ElectronBridge.getNodePTY bridge = Some np →
  shell_passes bridge (shell opts) = true →
  existsSync host (cwd opts) = true →
  spawn np (shell opts) (args_or_empty (args opts))
    (spawn_config bridge host opts) = Ok pty →
  pty ∉ activePTYs st →
  on (pty_object host pty) "error" = Ok tt →
  on (pty_object host pty) "exit" = Ok tt →
  let st' := snd (createPTY bridge host o st) in
  fst (createPTY bridge host o st) = Ok pty
  ∧ activePTYs st' = activePTYs st ++ [pty]
  ∧ fst (getActivePTYCount st') = Ok (JsSet.size (activePTYs st) + 1)
  ∧ spawn_cwd (spawn_config bridge host opts) = cwd opts
  ∧ heap st' = heap st
  ∧ trace st' = trace st ++ events_until_spawn bridge host opts ++
                [EvSetAdd pty; EvOn pty "error"; EvOn pty "exit"].
Proof.
  intros Ho Hnp Hsh Hcwd Hspawn Hfresh Herr Hexit st'. subst st'.
  rewrite (createPTY_spawn_run _ _ _ _ Ho Hnp Hsh), Hspawn.
  rewrite (rewrite_cwd_exists _ _ _ Hcwd).
  unfold registration_result, registration_events. rewrite Herr, Hexit. simpl.
  rewrite (JsSet_add_fresh _ _ Hfresh), JsSet_size_snoc.
  repeat split; try done.
  unfold effective_cwd. by rewrite Hcwd.
Qed.

(** X3.  [createPTY] changes the active set only by tracking the handle
    that spawn returned.  When a validation fails it throws and the set
    is as before.  When both pass, the set afterwards is the old one
    with the spawned handle added exactly when spawn returned a handle,
    every handle tracked before still being tracked, and is as before
    when spawn threw.  The handle is tracked before the observers are
    registered: [createPTY] returns it exactly when both registrations
    return, and a registration that throws makes [createPTY] throw with
    the handle left in the set.  So a returned handle is tracked, and a
    throw leaves the set either as it was or with the spawned handle
    added. *)
Theorem createPTY_tracks_what_spawn_returns (o : loc) (st : State) :
  let r := createPTY bridge host o st in
  (reaches_spawn bridge o st = false →
     (∃ e, fst r = Throw e) ∧ activePTYs (snd r) = activePTYs st)
  ∧ (∀ opts np,
       heap st !! o = Some opts →
       ElectronBridge.getNodePTY bridge = Some np →
       shell_passes bridge (shell opts) = true →
       match spawn np (shell opts) (args_or_empty (args opts))
               (spawn_config bridge host opts) with
       | Ok pty =>
           activePTYs (snd r) = JsSet.add (activePTYs st) pty
           ∧ pty ∈ activePTYs (snd r)
           ∧ Forall (λ q, q ∈ activePTYs (snd r)) (activePTYs st)
           ∧ (∀ p, fst r = Ok p ↔
                p = pty ∧ on (pty_object host pty) "error" = Ok tt
                        ∧ on (pty_object host pty) "exit" = Ok tt)
           ∧ (fst r ≠ Ok pty → ∃ e, fst r = Throw e)
       | Throw _ =>
           (∃ e, fst r = Throw e) ∧ activePTYs (snd r) = activePTYs st
       end)
  ∧ (∀ pty, fst r = Ok pty →
       activePTYs (snd r) = JsSet.add (activePTYs st) pty)
  ∧ (∀ e, fst r = Throw e →
       activePTYs (snd r) = activePTYs st
       ∨ ∃ pty, activePTYs (snd r) = JsSet.add (activePTYs st) pty).
Proof.
  intros r.
  assert (Hpass : ∀ opts np,
       heap st !! o = Some opts →
       ElectronBridge.getNodePTY bridge = Some np →
       shell_passes bridge (shell opts) = true →
       match spawn np (shell opts) (args_or_empty (args opts))
               (spawn_config bridge host opts) with
       | Ok pty =>
           activePTYs (snd r) = JsSet.add (activePTYs st) pty
           ∧ pty ∈ activePTYs (snd r)
           ∧ Forall (λ q, q ∈ activePTYs (snd r)) (activePTYs st)
           ∧ (∀ p, fst r = Ok p ↔
                p = pty ∧ on (pty_object host pty) "error" = Ok tt
                        ∧ on (pty_object host pty) "exit" = Ok tt)
           ∧ (fst r ≠ Ok pty → ∃ e, fst r = Throw e)
       | Throw _ =>
           (∃ e, fst r = Throw e) ∧ activePTYs (snd r) = activePTYs st
       end).
  { intros opts np Ho Hnp Hsh.
    pose proof (createPTY_after_validation _ _ _ st Ho Hnp Hsh) as Hrun.
    fold r in Hrun.
    destruct (spawn np _ _ _) as [pty|e]; destruct Hrun as (Hres & Hact & _).
    - split; [done|]. rewrite Hact. split; [apply add_elem_of_self|].
      split.
      + apply Forall_forall. intros q Hq. apply JsSet_elem_of_add. by left.
      + split.
        * intros p. rewrite Hres. apply registration_result_Ok.
        * rewrite Hres. apply registration_result_Throw.
    - split; [by eexists|done]. }
  assert (Hfail : reaches_spawn bridge o st = false →
     (∃ e, fst r = Throw e) ∧ activePTYs (snd r) = activePTYs st).
  { unfold reaches_spawn. subst r.
    destruct (heap st !! o) as [opts|] eqn:Ho.
    - destruct (ElectronBridge.getNodePTY bridge) as [np|] eqn:Hnp.
      + intros Hsh.
        rewrite (createPTY_shell_fails _ _ _ Ho (mk_is_Some _ _ Hnp) Hsh).
        split; [by eexists|done].
      + intros _. rewrite (createPTY_no_bridge _ _ _ Ho Hnp).
        split; [by eexists|done].
    - intros _. destruct (createPTY_no_options _ _ Ho) as [e ->].
      split; [by eexists|done]. }
  split; [done|]. split; [done|].
  destruct (reaches_spawn bridge o st) eqn:Hreach.
  - unfold reaches_spawn in Hreach.
    destruct (heap st !! o) as [opts|] eqn:Ho; [|done].
    destruct (ElectronBridge.getNodePTY bridge) as [np|] eqn:Hnp; [|done].
    specialize (Hpass opts np eq_refl eq_refl Hreach).
    destruct (spawn np _ _ _) as [pty|e0].
    + destruct Hpass as (Hact & _ & _ & Hiff & _). split.
      * intros p Hp. apply Hiff in Hp as (-> & _). done.
      * intros e _. right. eauto.
    + destruct Hpass as ([e1 He1] & Hact). split.
      * intros p Hp. congruence.
      * intros e _. by left.
  - destruct (Hfail eq_refl) as ([e1 He1] & Hact). split.
    + intros p Hp. congruence.
    + intros e _. by left.
Qed.

(** X5.  The only thing [createPTY] ever writes in the store of options
    objects is the [cwd] of the object it was given, and only after both
    validations passed on a [cwd] that does not exist: every other object
    is untouched, no object appears or disappears, and the object itself
    is either as it was or as it was with [cwd] replaced by
    [process.env.HOME || "/"]. *)
Theorem createPTY_options_frame (o : loc) (st : State) :
  let st' := snd (createPTY bridge host o st) in
  (∀ o', o' ≠ o → heap st' !! o' = heap st !! o')
  ∧ match heap st !! o with
    | None => heap st' !! o = None
    | Some opts =>
        if reaches_spawn bridge o st && negb (existsSync host (cwd opts)) then
          heap st' !! o = Some (with_cwd opts (str_or (env_HOME host) "/"))
        else heap st' = heap st
    end.
Proof.
  intros st'. subst st'. unfold reaches_spawn.
  destruct (heap st !! o) as [opts|] eqn:Ho.
  - destruct (ElectronBridge.getNodePTY bridge) as [np|] eqn:Hnp.
    + destruct (shell_passes bridge (shell opts)) eqn:Hsh.
      * assert (Hheap : heap (snd (createPTY bridge host o st)) =
                  heap (rewrite_cwd host o opts st)).
        { rewrite (createPTY_spawn_run _ _ _ _ Ho Hnp Hsh).
          by destruct (spawn np _ _ _). }
        rewrite Hheap. unfold rewrite_cwd.
        destruct (existsSync host (cwd opts)); simpl; [done|].
        split.
        -- intros o' Hne. by apply lookup_alter_ne.
        -- by rewrite lookup_alter_eq, Ho.
      * by rewrite (createPTY_shell_fails _ _ _ Ho (mk_is_Some _ _ Hnp) Hsh).
    + by rewrite (createPTY_no_bridge _ _ _ Ho Hnp).
  - by rewrite (createPTY_undefined_options _ _ Ho).
Qed.

(** *** More on the active set: resize, destroy, observers, cleanup *)

(** X6.  [validateShellPath] never throws: it answers [true] exactly when
    the bridge's synchronous check returns [true], answers [false] when
    the check returns [false] or throws (with a warning in that case),
    asks the bridge once, and changes nothing but the trace. *)
Theorem validateShellPath_never_throws (shellPath : string) (st : State) :
  ∃ b warned,
    validateShellPath bridge shellPath st =
      (Ok b, log_events (EvValidateShellSync shellPath :: warned) st)
    ∧ (b = true ↔ ElectronBridge.validateShellSync bridge shellPath = Ok true)
    ∧ (warned = [] ↔
       ∃ b', ElectronBridge.validateShellSync bridge shellPath = Ok b')
    ∧ (warned = [] ∨ warned = [EvWarn "Shell validation check failed:"]).
Proof.
  rewrite validateShellPath_run. unfold shell_passes, shell_check_events.
  destruct (ElectronBridge.validateShellSync bridge shellPath) as [b|e].
  - exists b, []. split; [done|]. split; [|split; [|by left]].
    + split; [by intros ->|by intros [= ->]].
    + split; [eauto|done].
  - exists false, [EvWarn "Shell validation check failed:"].
    split; [done|]. split; [done|]. split; [|by right].
    split; [done|]. by intros [b' ?].
Qed.

Lemma resized_app evs1 evs2 :
  resized (evs1 ++ evs2) = resized evs1 ++ resized evs2.
Proof.
  induction evs1 as [|e evs1 IH]; [done|].
  destruct e; simpl; by rewrite ?IH.
Qed.

Lemma resized_resize_events c r p : resized (resize_events host c r p) = [p].
Proof.
  unfold resize_events. by destruct (resize (pty_object host p) c r).
Qed.

Lemma forEach_resize_run c r l : ∀ st,
  forEach (λ pty,
    try_catch
      (emit (EvResize pty c r) ;; lift (resize (pty_object host pty) c r))
      (λ error, emit (EvWarn "Failed to resize PTY:"))) l st =
    (Ok tt, log_events (flat_map (resize_events host c r) l) st).
Proof.
  induction l as [|p l IH]; intros st.
  - simpl. unfold ret. by rewrite log_events_nil.
  - cbn [forEach flat_map]. unfold bind at 1.
    assert (Hstep :
      try_catch
        (emit (EvResize p c r) ;; lift (resize (pty_object host p) c r))
        (λ error, emit (EvWarn "Failed to resize PTY:")) st =
      (Ok tt, log_events (resize_events host c r p) st)).
    { unfold resize_events. unfold_monad.
      destruct (resize (pty_object host p) c r) as [[]|e]; by norm_state. }
    rewrite Hstep, IH. by norm_state.
Qed.

(** X7.  [resizeAllPTYs] isolates failures: it never throws, it requests
    the resize on every tracked handle, once each and in insertion order,
    including the handles that come after one whose resize threw, every
    throw is answered by a warning, and the active set and the options
    are left as they were. *)
Theorem resizeAllPTYs_isolates_failures (c r : Z) (st : State) :
  resizeAllPTYs host c r st =
    (Ok tt, log_events (flat_map (resize_events host c r) (activePTYs st)) st)
  ∧ resized (flat_map (resize_events host c r) (activePTYs st)) = activePTYs st
  ∧ Forall (λ p,
      EvResize p c r ∈ flat_map (resize_events host c r) (activePTYs st))
      (activePTYs st).
Proof.
  split; [|split].
  - unfold resizeAllPTYs. unfold bind at 1. unfold gets.
    by rewrite forEach_resize_run.
  - induction (activePTYs st) as [|p l IH]; [done|].
    cbn [flat_map]. by rewrite resized_app, resized_resize_events, IH.
  - apply Forall_forall. intros p Hp. apply list_elem_of_In, in_flat_map.
    exists p. split; [by apply list_elem_of_In|].
    apply list_elem_of_In. unfold resize_events. by left.
Qed.

Lemma delete_untracked s p : p ∉ s → JsSet.delete s p = s.
Proof.
  unfold JsSet.delete. induction s as [|q s IH]; intros Hp; [done|].
  apply not_elem_of_cons in Hp as [Hne Hp]. rewrite filter_cons.
  case_decide as Hq; [|destruct Hq; simpl; congruence].
  f_equal. by apply IH.
Qed.

Lemma length_delete_NoDup s p :
  NoDup s → p ∈ s → S (length (JsSet.delete s p)) = length s.
Proof.
  induction s as [|q s IH]; intros Hnd Hp.
  - by apply elem_of_nil in Hp.
  - apply NoDup_cons in Hnd as [Hq Hnd]. unfold JsSet.delete.
    rewrite filter_cons. fold (JsSet.delete s p).
    destruct (decide (q = p)) as [->|Hne].
    + case_decide; [done|]. by rewrite delete_untracked.
    + case_decide; [|done]. simpl. f_equal. apply IH; [done|].
      apply elem_of_cons in Hp as [->|Hp]; done.
Qed.

Lemma delete_snoc_fresh s p : p ∉ s → JsSet.delete (s ++ [p]) p = s.
Proof.
  intros Hp. unfold JsSet.delete. rewrite filter_app.
  fold (JsSet.delete s p). rewrite (delete_untracked _ _ Hp).
  rewrite filter_cons. case_decide; [done|].
  by rewrite filter_nil, app_nil_r.
Qed.

(** X8.  On a tracked handle [destroyPTY] takes exactly that handle out:
    the count drops by one, every other handle stays tracked, in the
    order it had, and this is so whether [kill] and the release of the
    observers returned or threw. *)
Theorem destroyPTY_removes_exactly_one (pty : IPty) (st : State) :
  NoDup (activePTYs st) →
  pty ∈ activePTYs st →
  let st' := snd (destroyPTY host pty st) in
  fst (getActivePTYCount st') = Ok (JsSet.size (activePTYs st) - 1)
  ∧ (∀ q, q ∈ activePTYs st' ↔ q ≠ pty ∧ q ∈ activePTYs st)
  ∧ activePTYs st' `sublist_of` activePTYs st
  ∧ heap st' = heap st.
Proof.
  intros Hnd Hp st'. subst st'. rewrite destroyPTY_tracked by done. simpl.
  split; [|split; [|split]].
  - f_equal. unfold JsSet.size. rewrite <- (length_delete_NoDup _ _ Hnd Hp). lia.
  - intros q. apply JsSet_elem_of_delete.
  - unfold JsSet.delete. apply sublist_filter.
  - done.
Qed.

Lemma createPTY_Ok_inv o st pty st1 :
  createPTY bridge host o st = (Ok pty, st1) →
  activePTYs st1 = JsSet.add (activePTYs st) pty ∧ settingsProvider st1 = settingsProvider st.
Proof.
  destruct (heap st !! o) as [opts|] eqn:Ho.
  - destruct (ElectronBridge.getNodePTY bridge) as [np|] eqn:Hnp.
    + destruct (shell_passes bridge (shell opts)) eqn:Hsh.
      * rewrite (createPTY_spawn_run _ _ _ _ Ho Hnp Hsh).
        destruct (spawn np _ _ _) as [p|e']; [|discriminate].
        intros [= Hres <-]. apply registration_result_Ok in Hres as (-> & _).
        simpl. rewrite rewrite_cwd_active. split; [done|].
        unfold rewrite_cwd. by destruct (existsSync host (cwd opts)).
      * by rewrite (createPTY_shell_fails _ _ _ Ho (mk_is_Some _ _ Hnp) Hsh).
    + by rewrite (createPTY_no_bridge _ _ _ Ho Hnp).
  - by rewrite (createPTY_undefined_options _ _ Ho).
Qed.

(** X9.  Creating and then giving up a handle is a round trip on the
    active set: after a [createPTY] that returned a handle not tracked
    before, a [destroyPTY] of that handle, its exit observer or its error
    observer each bring the active set back to exactly what it was
    before the [createPTY]. *)
Theorem createPTY_then_destroyPTY_restores_active_set
    (o : loc) (pty : IPty) (st st1 : State) :
  createPTY bridge host o st = (Ok pty, st1) →
  pty ∉ activePTYs st →
  activePTYs (snd (destroyPTY host pty st1)) = activePTYs st
  ∧ activePTYs (snd (on_exit pty st1)) = activePTYs st
  ∧ activePTYs (snd (on_error pty st1)) = activePTYs st
  ∧ fst (getActivePTYCount (snd (destroyPTY host pty st1))) =
      fst (getActivePTYCount st).
Proof.
  intros Hrun Hfresh.
  apply createPTY_Ok_inv in Hrun as [Hact _].
  rewrite (JsSet_add_fresh _ _ Hfresh) in Hact.
  assert (Hin : pty ∈ activePTYs st1).
  { rewrite Hact, elem_of_app, list_elem_of_singleton. by right. }
  assert (Hdel : activePTYs (snd (destroyPTY host pty st1)) = activePTYs st).
  { rewrite destroyPTY_tracked by done. simpl. rewrite Hact.
    by apply delete_snoc_fresh. }
  split; [done|]. split; [|split].
  - simpl. rewrite Hact. by apply delete_snoc_fresh.
  - simpl. rewrite Hact. by apply delete_snoc_fresh.
  - simpl. by rewrite Hdel.
Qed.

Lemma delete_delete s p : JsSet.delete (JsSet.delete s p) p = JsSet.delete s p.
Proof. apply delete_untracked, JsSet_delete_gone. Qed.

(** X10.  The exit and error observers registered by [createPTY] only
    untrack their handle: the handle is gone from the active set
    afterwards, every other handle stays, nothing is asked of the host,
    running an observer again (or after a [destroyPTY] of the handle)
    changes nothing in the active set, and a [destroyPTY] that comes
    after the observer requests no termination at all. *)
Theorem observers_only_untrack (pty : IPty) (st : State) :
  on_exit pty st = on_error pty st
  ∧ on_exit pty st =
      (Ok tt, log_events [EvSetDelete pty]
                (set_activePTYs (λ s, JsSet.delete s pty) st))
  ∧ (pty ∉ activePTYs (snd (on_exit pty st)))
  ∧ Forall (λ q, q = pty ∨ q ∈ activePTYs (snd (on_exit pty st))) (activePTYs st)
  ∧ activePTYs (snd (on_exit pty (snd (on_exit pty st)))) =
      activePTYs (snd (on_exit pty st))
  ∧ activePTYs (snd (on_exit pty (snd (destroyPTY host pty st)))) =
      activePTYs (snd (destroyPTY host pty st))
  ∧ destroyPTY host pty (snd (on_exit pty st)) = (Ok tt, snd (on_exit pty st)).
Proof.
  split; [done|]. split; [done|]. split; [apply JsSet_delete_gone|].
  split; [|split; [|split]].
  - apply Forall_forall. intros q Hq. simpl.
    destruct (decide (q = pty)) as [->|Hne]; [by left|right].
    by apply JsSet_elem_of_delete.
  - simpl. apply delete_delete.
  - simpl. apply delete_untracked.
    destruct (decide (pty ∈ activePTYs st)) as [Hp|Hp].
    + rewrite destroyPTY_tracked by done. apply JsSet_delete_gone.
    + by rewrite destroyPTY_untracked.
  - apply destroyPTY_untracked. apply JsSet_delete_gone.
Qed.

Lemma forEach_app {A} (f : A → M unit) l1 l2 st :
  forEach f (l1 ++ l2) st =
    match forEach f l1 st with
    | (Ok _, st1) => forEach f l2 st1
    | (Throw e, st1) => (Throw e, st1)
    end.
Proof.
  revert st. induction l1 as [|x l1 IH]; intros st; [done|].
  cbn [forEach app]. unfold bind.
  destruct (f x st) as [[[]|e] st1]; [apply IH|done].
Qed.

(** The loop of [cleanup] over a prefix of the active set whose entries
    all release their observers leaves exactly the rest tracked. *)
Lemma forEach_destroyPTY_prefix l : ∀ rest st,
  activePTYs st = l ++ rest →
  NoDup (l ++ rest) →
  (∀ p, p ∈ l → releases host p = true) →
  forEach (destroyPTY host) l st =
    (Ok tt, log_events (flat_map (destroy_events host) l)
              (set_activePTYs (λ _, rest) st)).
Proof.
  induction l as [|p l IH]; intros rest st Hact Hnd Hrel.
  - simpl in *. unfold ret. rewrite log_events_nil. f_equal.
    destruct st; simpl in *. by subst.
  - simpl in Hact, Hnd. apply NoDup_cons in Hnd as [Hp Hnd].
    cbn [forEach flat_map]. unfold bind.
    rewrite destroyPTY_tracked by (rewrite Hact; left).
    assert (Hout : destroy_outcome host p = Ok tt).
    { unfold destroy_outcome. specialize (Hrel p ltac:(left)).
      unfold releases in Hrel.
      by destruct (removeAllListeners (pty_object host p)). }
    rewrite Hout.
    rewrite (IH rest); [|simpl|done|].
    + f_equal. unfold log_events, set_activePTYs.
      cbn [trace activePTYs settingsProvider heap]. by rewrite <- app_assoc.
    + rewrite Hact. unfold JsSet.delete. rewrite filter_cons.
      case_decide; [done|]. by apply delete_untracked.
    + intros q Hq. apply Hrel. by right.
Qed.

(** X11.  [cleanup] stops at the first entry whose observers cannot be
    released: the entries before it have been destroyed in order, that
    entry has been untracked and asked to terminate, the error of its
    [destroyPTY] (PTY_CREATION_FAILED, carrying the cause) is what
    [cleanup] throws, the set is not cleared, and the entries after it
    are still tracked and were never asked to terminate. *)
Theorem cleanup_stops_at_first_release_failure
    (st : State) (before : list IPty) (p : IPty) (after : list IPty) (e : exn) :
  NoDup (activePTYs st) →
  activePTYs st = before ++ p :: after →
  (∀ q, q ∈ before → releases host q = true) →
  removeAllListeners (pty_object host p) = Throw e →
  cleanup host st =
    (Throw (TerminalPluginError PTY_CREATION_FAILED
              "Failed to destroy PTY process" (Some e) None),
     log_events (flat_map (destroy_events host) (before ++ [p]))
       (set_activePTYs (λ _, after) st))
  ∧ killed (flat_map (destroy_events host) (before ++ [p])) = before ++ [p]
  ∧ EvSetClear ∉ flat_map (destroy_events host) (before ++ [p]).
Proof.
  intros Hnd Hact Hrel Hp. split; [|split].
  - unfold cleanup. unfold bind at 1. unfold gets. unfold bind.
    rewrite Hact at 1. rewrite forEach_app.
    rewrite (forEach_destroyPTY_prefix before (p :: after) st Hact);
      [|by rewrite <- Hact|done].
    cbn [forEach]. unfold bind.
    rewrite destroyPTY_tracked by (simpl; left).
    unfold destroy_outcome. rewrite Hp. f_equal.
    rewrite flat_map_app. cbn [flat_map]. rewrite app_nil_r.
    unfold log_events, set_activePTYs.
    cbn [trace activePTYs settingsProvider heap]. rewrite <- app_assoc.
    f_equal. unfold JsSet.delete. rewrite filter_cons.
    case_decide; [done|]. apply delete_untracked.
    rewrite Hact in Hnd. apply NoDup_app in Hnd as (_ & _ & Hnd).
    by apply NoDup_cons in Hnd as [? _].
  - apply killed_flat_map.
  - intros Hin. apply list_elem_of_In, in_flat_map in Hin as (q & _ & Hq).
    apply list_elem_of_In in Hq. unfold destroy_events in Hq.
    destruct (kill (pty_object host q));
      repeat (apply elem_of_cons in Hq as [Hq|Hq]; [discriminate|]);
      by apply elem_of_nil in Hq.
Qed.

(** X12.  When [cleanup] returns normally the active set is empty and
    the count is 0, and a second [cleanup] asks nothing of the host: it
    clears the empty set again and returns. *)
Theorem cleanup_twice (st st' : State) :
  cleanup host st = (Ok tt, st') →
  activePTYs st' = []
  ∧ fst (getActivePTYCount st') = Ok 0
  ∧ cleanup host st' = (Ok tt, log_events [EvSetClear] st').
Proof.
  unfold cleanup. unfold bind at 1. unfold gets. unfold bind at 1.
  destruct (forEach (destroyPTY host) (activePTYs st) st) as [[[]|e] st1];
    [|discriminate].
  unfold active_clear. intros [= <-]. split; [done|]. split; [done|].
  unfold bind. simpl. unfold ret. by norm_state.
Qed.

Lemma forEach_destroyPTY_NoDup l : ∀ st,
  NoDup (activePTYs st) →
  NoDup (activePTYs (snd (forEach (destroyPTY host) l st))).
Proof.
  induction l as [|p l IH]; intros st Hnd; [done|].
  cbn [forEach]. unfold bind.
  pose proof (destroyPTY_NoDup p st Hnd) as Hnd1.
  destruct (destroyPTY host p st) as [[[]|e] st1]; simpl in *; [by apply IH|done].
Qed.

(** X13.  The active set stays a set: when it holds no handle twice,
    it holds none twice after [createPTY], [destroyPTY], the observers,
    [resizeAllPTYs] and [cleanup], whatever their outcome. *)
Theorem active_set_stays_duplicate_free (st : State) :
  NoDup (activePTYs st) →
  (∀ o, NoDup (activePTYs (snd (createPTY bridge host o st))))
  ∧ (∀ pty, NoDup (activePTYs (snd (destroyPTY host pty st))))
  ∧ (∀ pty, NoDup (activePTYs (snd (on_exit pty st))))
  ∧ (∀ pty, NoDup (activePTYs (snd (on_error pty st))))
  ∧ (∀ c r, NoDup (activePTYs (snd (resizeAllPTYs host c r st))))
  ∧ NoDup (activePTYs (snd (cleanup host st))).
Proof.
  intros Hnd. repeat split.
  - intros o. by apply createPTY_NoDup.
  - intros pty. by apply destroyPTY_NoDup.
  - intros pty. simpl. by apply JsSet_delete_NoDup.
  - intros pty. simpl. by apply JsSet_delete_NoDup.
  - intros c r. unfold resizeAllPTYs. unfold bind at 1. unfold gets.
    by rewrite forEach_resize_run.
  - unfold cleanup. unfold bind at 1. unfold gets. unfold bind at 1.
    pose proof (forEach_destroyPTY_NoDup (activePTYs st) st Hnd) as Hnd1.
    destruct (forEach (destroyPTY host) (activePTYs st) st) as [[[]|e] st1];
      simpl in *; [apply NoDup_nil_2|done].
Qed.

(** *** More on shell resolution *)

(** X14.  [getSystemDefaultShell] never throws.  It asks the bridge
    once; when the bridge answers, that answer is the result; when the
    bridge throws, the result is the static fallback for the platform,
    which is one of [cmd.exe], [/bin/zsh], [/bin/bash], [/bin/sh], and is
    [/bin/sh] on every platform other than win32, darwin and linux.
    Nothing but the trace changes. *)
Theorem getSystemDefaultShell_never_throws (st : State) :
  let p := platform (ElectronBridge.getProcess bridge) in
  ∃ sh evs,
    getSystemDefaultShell bridge st = (Ok sh, log_events (EvGetDefaultShell :: evs) st)
    ∧ match ElectronBridge.getDefaultShell bridge with
      | Ok answer => sh = answer ∧ evs = []
      | Throw _ =>
          evs = [EvGetProcess]
          ∧ sh = getSystemDefaultShell_switch p
          ∧ sh ∈ ["cmd.exe"; "/bin/zsh"; "/bin/bash"; "/bin/sh"]
          ∧ (sh = "cmd.exe" ↔ p = "win32")
          ∧ (sh = "/bin/zsh" ↔ p = "darwin")
          ∧ (sh = "/bin/bash" ↔ p = "linux")
          ∧ (sh = "/bin/sh" ↔ p ≠ "win32" ∧ p ≠ "darwin" ∧ p ≠ "linux")
      end.
Proof.
  intros p. rewrite getSystemDefaultShell_run. unfold system_default_events.
  destruct (ElectronBridge.getDefaultShell bridge) as [answer|e].
  - by exists answer, [].
  - exists (getSystemDefaultShell_switch p), [EvGetProcess].
    split; [done|]. split; [done|]. split; [done|].
    unfold getSystemDefaultShell_switch.
    destruct (String.eqb_spec p "win32") as [->|Hw].
    { rewrite !elem_of_cons. repeat split; try done; auto; try by intros [? _]. }
    destruct (String.eqb_spec p "darwin") as [->|Hd].
    { rewrite !elem_of_cons. repeat split; try done; auto; try by intros (_ & ? & _). }
    destruct (String.eqb_spec p "linux") as [->|Hl].
    { rewrite !elem_of_cons. repeat split; try done; auto; try by intros (_ & _ & ?). }
    rewrite !elem_of_cons. repeat split; try done; auto 10.
Qed.

Lemma configured_shell_Some st sh :
  configured_shell st = Some sh →
  ∃ f s, settingsProvider st = Some f ∧ f tt = Some s
         ∧ defaultShell s = sh ∧ sh ≠ EmptyString.
Proof.
  unfold configured_shell. destruct (settingsProvider st) as [f|]; [|done].
  destruct (f tt) as [s|] eqn:Hs; [|done].
  destruct (String.eqb_spec (defaultShell s) EmptyString) as [|Hne]; [done|].
  intros [= <-]. by exists f, s.
Qed.

Lemma configured_shell_None st :
  configured_shell st = None →
  match settingsProvider st with
  | Some f => match f tt with
              | Some s => defaultShell s = EmptyString
              | None => True
              end
  | None => True
  end.
Proof.
  unfold configured_shell. destruct (settingsProvider st) as [f|]; [|done].
  destruct (f tt) as [s|]; [|done].
  by destruct (String.eqb_spec (defaultShell s) EmptyString).
Qed.

(** X15.  The resolution order of [getDefaultShell], for every outcome
    of the synchronous check that is a return.  With no provider, a
    provider that yields nothing, or an empty configured shell, the
    result is the system default and the validity check is never called.
    With a configured shell on which the check returns [true], the
    result is the configured shell and the bridge is not asked for its
    default.  With a configured shell on which the check returns
    [false], a warning naming the shell is emitted and the result is the
    system default. *)
Theorem getDefaultShell_resolution_order (st : State) :
  match configured_shell st with
  | None =>
      ∃ evs, getDefaultShell bridge st =
               (Ok (system_default_shell bridge), log_events evs st)
             ∧ ∀ sh, EvValidateShellSync sh ∉ evs
  | Some sh =>
      match ElectronBridge.validateShellSync bridge sh with
      | Ok true =>
          getDefaultShell bridge st =
            (Ok sh, log_events [EvSettingsProvider; EvValidateShellSync sh] st)
      | Ok false =>
          getDefaultShell bridge st =
            (Ok (system_default_shell bridge),
             log_events ([EvSettingsProvider; EvValidateShellSync sh;
                          invalid_shell_warning sh] ++
                         system_default_events bridge) st)
      | Throw e =>
          getDefaultShell bridge st =
            (Throw e, log_events [EvSettingsProvider; EvValidateShellSync sh] st)
      end
  end.
Proof.
  destruct (configured_shell st) as [sh|] eqn:Hc.
  - apply configured_shell_Some in Hc as (f & s & Hf & Hs & <- & Hne).
    rewrite (getDefaultShell_configured _ _ _ Hf Hs Hne).
    destruct (ElectronBridge.validateShellSync bridge (defaultShell s)) as [[]|e];
      try done.
    rewrite getSystemDefaultShell_run. by norm_state.
  - apply configured_shell_None in Hc.
    rewrite (getDefaultShell_unconfigured _ Hc), getSystemDefaultShell_run.
    norm_state. eexists. split; [reflexivity|].
    intros sh Hin. unfold system_default_events in Hin.
    destruct (settingsProvider st); destruct (ElectronBridge.getDefaultShell bridge);
      simpl in Hin;
      repeat (apply elem_of_cons in Hin as [Hin|Hin]; [discriminate|]);
      by apply elem_of_nil in Hin.
Qed.

Lemma getDefaultShell_log_events evs st :
  fst (getDefaultShell bridge (log_events evs st)) = fst (getDefaultShell bridge st).
Proof.
  unfold getDefaultShell, call_settingsProvider, getSystemDefaultShell. unfold_monad.
  simpl. destruct (settingsProvider st) as [f|]; simpl.
  - destruct (f tt) as [s|]; simpl.
    + destruct (String.eqb (defaultShell s) EmptyString); simpl.
      * by destruct (ElectronBridge.getDefaultShell bridge).
      * destruct (ElectronBridge.validateShellSync bridge (defaultShell s))
          as [[]|e]; simpl; try done.
        by destruct (ElectronBridge.getDefaultShell bridge).
    + by destruct (ElectronBridge.getDefaultShell bridge).
  - by destruct (ElectronBridge.getDefaultShell bridge).
Qed.


Lemma PlatformShellTable_cases p :
  (p = "win32" ∧ PlatformShellTable p = PlatformShellTable "win32")
  ∨ (p = "darwin" ∧ PlatformShellTable p = PlatformShellTable "darwin")
  ∨ (p = "linux" ∧ PlatformShellTable p = PlatformShellTable "linux")
  ∨ (p ≠ "win32" ∧ p ≠ "darwin" ∧ p ≠ "linux" ∧ PlatformShellTable p = ["/bin/sh"]).
Proof.
  unfold PlatformShellTable at 1 3 5 7.
  destruct (String.eqb_spec p "win32") as [->|Hw]; [by left|].
  destruct (String.eqb_spec p "darwin") as [->|Hd]; [by right; left|].
  destruct (String.eqb_spec p "linux") as [->|Hl]; [by right; right; left|].
  by right; right; right.
Qed.

(** X17.  On every platform [getAlternativeShells] returns, without
    throwing, a list that is not empty, names no shell twice and holds no
    empty path; and the static fallback that [getSystemDefaultShell]
    uses for that platform is always one of the alternatives. *)
Theorem getAlternativeShells_table (st : State) :
  let p := platform (ElectronBridge.getProcess bridge) in
  ∃ alternatives,
    getAlternativeShells bridge st = (Ok alternatives, log_events [EvGetProcess] st)
    ∧ alternatives ≠ []
    ∧ NoDup alternatives
    ∧ (EmptyString ∉ alternatives)
    ∧ (getSystemDefaultShell_switch p ∈ alternatives).
Proof.
  intros p. exists (PlatformShellTable p). split.
  { unfold getAlternativeShells. unfold_monad. by norm_state. }
  assert (Hcheck : ∀ q,
    bool_decide (PlatformShellTable q ≠ []
                 ∧ NoDup (PlatformShellTable q)
                 ∧ (EmptyString ∉ PlatformShellTable q)
                 ∧ (getSystemDefaultShell_switch q ∈ PlatformShellTable q)) = true →
    PlatformShellTable q ≠ []
    ∧ NoDup (PlatformShellTable q)
    ∧ (EmptyString ∉ PlatformShellTable q)
    ∧ (getSystemDefaultShell_switch q ∈ PlatformShellTable q)).
  { intros q. apply bool_decide_eq_true_1. }
  destruct (PlatformShellTable_cases p)
    as [[-> _]|[[-> _]|[[-> _]|(Hw & Hd & Hl & Htab)]]].
  - apply Hcheck. by vm_compute.
  - apply Hcheck. by vm_compute.
  - apply Hcheck. by vm_compute.
  - rewrite Htab.
    assert (Hsw : getSystemDefaultShell_switch p = "/bin/sh").
    { by apply getSystemDefaultShell_switch_table. }
    rewrite Hsw. apply (Hcheck "other"). by vm_compute.
Qed.

Lemma first_valid_or_none (l : list string) :
  Forall (λ c, validates bridge c = false) l
  ∨ ∃ pre sh post,
      l = pre ++ sh :: post
      ∧ Forall (λ c, validates bridge c = false) pre
      ∧ validates bridge sh = true.
Proof.
  induction l as [|c l IH]; [by left|].
  destruct (validates bridge c) eqn:Hc.
  - right. exists [], c, l. by repeat split.
  - destruct IH as [Hall|(pre & sh & post & -> & Hpre & Hsh)].
    + left. by constructor.
    + right. exists (c :: pre), sh, post. split; [done|]. split; [|done].
      by constructor.
Qed.

(** X18.  [findAvailableShell] touches neither the active set nor the
    options, and its answer is sound: either it returns a candidate of
    the platform's list on which the asynchronous check answered [true],
    or every candidate was rejected and its outcome, result or throw, is
    the outcome of [getDefaultShell]. *)
Theorem findAvailableShell_sound (st : State) :
  let r := findAvailableShell bridge st in
  let alternatives :=
    PlatformShellTable (platform (ElectronBridge.getProcess bridge)) in
  activePTYs (snd r) = activePTYs st
  ∧ heap (snd r) = heap st
  ∧ ((∃ sh, fst r = Ok sh ∧ validates bridge sh = true ∧ sh ∈ alternatives)
     ∨ (Forall (λ c, validates bridge c = false) alternatives
        ∧ fst r = fst (getDefaultShell bridge st))).
Proof.
  intros r alternatives. subst r.
  assert (Hrun : findAvailableShell bridge st =
    match findAvailableShell_loop bridge alternatives (log_events [EvGetProcess] st) with
    | (Ok (Some sh), st1) => (Ok sh, st1)
    | (Ok None, st1) => getDefaultShell bridge st1
    | (Throw e, st1) => (Throw e, st1)
    end).
  { unfold findAvailableShell, getAlternativeShells. unfold bind, emit, ret.
    rewrite log_event_events. fold alternatives.
    by destruct (findAvailableShell_loop bridge alternatives _) as [[[sh|]|e] st1]. }
  rewrite Hrun.
  destruct (first_valid_or_none alternatives)
    as [Hall|(pre & sh & post & Heq & Hpre & Hsh)].
  - rewrite (findAvailableShell_loop_none _ _ Hall). norm_state.
    destruct (getDefaultShell_frame
                (log_events (EvGetProcess :: (EvValidateShell <$> alternatives)) st))
      as [evs Hfr].
    rewrite Hfr. split; [done|]. split; [done|]. right. split; [done|].
    apply getDefaultShell_log_events.
  - rewrite Heq, (findAvailableShell_loop_found _ _ _ _ Hpre Hsh). simpl.
    split; [done|]. split; [done|]. left. exists sh. split; [done|].
    split; [done|]. rewrite elem_of_app, elem_of_cons. auto.
Qed.

End Properties.

(** ** The statements at concrete inputs *)

Lemma createPTY_validation_order_witness :
  createPTY (Examples.bridge None "linux" Examples.env_plain) Examples.host 1%positive
      (Examples.state_with Examples.options_bad_shell) =
    (Throw (TerminalPluginError NODE_PTY_NOT_AVAILABLE
              "node-pty module is not available" None None),
     log_events [EvGetNodePTY; EvGetPtyLoadMode]
       (Examples.state_with Examples.options_bad_shell))
  ∧ createPTY Examples.linux_bridge Examples.host 1%positive
      (Examples.state_with Examples.options_bad_shell) =
    (Throw (TerminalPluginError SHELL_NOT_FOUND
              "Shell not found: /bin/nosuch" None None),
     log_events [EvGetNodePTY; EvGetPtyLoadMode; EvValidateShellSync "/bin/nosuch"]
       (Examples.state_with Examples.options_bad_shell)).
Proof.
  split.
  - exact (proj1 (createPTY_validation_order
                    (Examples.bridge None "linux" Examples.env_plain) Examples.host
                    1%positive Examples.options_bad_shell
                    (Examples.state_with Examples.options_bad_shell) eq_refl)
             eq_refl).
  - exact (proj2 (createPTY_validation_order
                    Examples.linux_bridge Examples.host
                    1%positive Examples.options_bad_shell
                    (Examples.state_with Examples.options_bad_shell) eq_refl)
             (ex_intro _ Examples.nodePty_spawns eq_refl) eq_refl).
Defined.

Lemma createPTY_shell_not_found_keeps_active_set_witness :
  ∃ st' evs,
    createPTY Examples.linux_bridge Examples.host 1%positive
        (Examples.state_with Examples.options_bad_shell) =
      (Throw (TerminalPluginError SHELL_NOT_FOUND
                "Shell not found: /bin/nosuch" None None), st')
    ∧ activePTYs st' = []
    ∧ trace st' = [] ++ evs
    ∧ (∀ p, EvSetAdd p ∉ evs)
    ∧ fst (getActivePTYCount st') =
        fst (getActivePTYCount (Examples.state_with Examples.options_bad_shell)).
Proof.
  exact (createPTY_shell_not_found_keeps_active_set
           Examples.linux_bridge Examples.host
           1%positive Examples.options_bad_shell
           (Examples.state_with Examples.options_bad_shell)
           eq_refl (ex_intro _ Examples.nodePty_spawns eq_refl) eq_refl).
Defined.

(** C4, as stated, fails, in both of its parts.  On [Examples.host] only
    /vault exists: /gone is missing, and so is /home/u, the directory
    that HOME names.  The request for /gone is spawned in /home/u, which
    nothing checks, and with a node-pty that cannot start a process in a
    missing directory [createPTY] throws: the failure is about the
    working directory, since the same request for /vault returns handle
    7.  On the win32 host HOME is not set: the spawn is asked for "/",
    although the user's home directory is known and exists. *)
Lemma createPTY_missing_cwd_substitute_unchecked :
  let b := Examples.bridge (Some MoreExamples.nodePty_checks_cwd) "linux"
             Examples.env_plain in
  let st := Examples.state_with Examples.options_missing_cwd in
  let r := createPTY b Examples.host 1%positive st in
  let win := MoreExamples.win32_bridge Examples.nodePty_spawns in
  let st_win := Examples.state_with MoreExamples.options_win32_missing_cwd in
  let r_win := createPTY win MoreExamples.host_win32 1%positive st_win in
  (heap st !! 1%positive = Some Examples.options_missing_cwd
   ∧ ElectronBridge.getNodePTY b = Some MoreExamples.nodePty_checks_cwd
   ∧ shell_passes b (shell Examples.options_missing_cwd) = true
   ∧ existsSync Examples.host (cwd Examples.options_missing_cwd) = false
   ∧ existence_checks (trace (snd r)) = ["/gone"]
   ∧ spawn_cwd <$> spawn_configs (trace (snd r)) = ["/home/u"]
   ∧ existsSync Examples.host "/home/u" = false
   ∧ fst r =
       Throw (TerminalPluginError PTY_CREATION_FAILED
                ("Failed to create PTY process: " +:+
                 "chdir() failed: No such file or directory")
                (Some (JsError "Error" "chdir() failed: No such file or directory"))
                (Some 1%positive))
   ∧ (¬ ∃ pty, fst r = Ok pty)
   ∧ fst (createPTY b Examples.host 1%positive
            (Examples.state_with MoreExamples.options_ok)) = Ok 7%positive)
  ∧ (heap st_win !! 1%positive = Some MoreExamples.options_win32_missing_cwd
     ∧ shell_passes win (shell MoreExamples.options_win32_missing_cwd) = true
     ∧ existsSync MoreExamples.host_win32
         (cwd MoreExamples.options_win32_missing_cwd) = false
     ∧ env_HOME MoreExamples.host_win32 = None
     ∧ existsSync MoreExamples.host_win32 MoreExamples.home_directory_win32 = true
     ∧ fst r_win = Ok 7%positive
     ∧ spawn_cwd <$> spawn_configs (trace (snd r_win)) = ["/"]
     ∧ home_directory_or_root (Some MoreExamples.home_directory_win32) =
         MoreExamples.home_directory_win32
     ∧ "/" ≠ home_directory_or_root (Some MoreExamples.home_directory_win32)).
Proof.
  split.
  - repeat split; try reflexivity.
    intros [pty H]. vm_compute in H. discriminate.
  - repeat split; try reflexivity.
    vm_compute. discriminate.
Qed.

Lemma createPTY_missing_cwd_substitutes_home_witness :
  let st := Examples.state_with Examples.options_missing_cwd in
  let so := spawn_config Examples.linux_bridge Examples.host
              Examples.options_missing_cwd in
  let r := createPTY Examples.linux_bridge Examples.host 1%positive st in
  spawn_cwd so = "/home/u"
  ∧ (∃ evs,
      trace (snd r) = trace st ++ evs
      ∧ spawn_configs evs = [so]
      ∧ existence_checks evs = ["/gone"])
  ∧ 7%positive ∈ activePTYs (snd r)
  ∧ (∀ p, fst r = Ok p ↔
       p = 7%positive
       ∧ on (pty_object Examples.host 7%positive) "error" = Ok tt
       ∧ on (pty_object Examples.host 7%positive) "exit" = Ok tt).
Proof.
  exact (createPTY_missing_cwd_substitutes_home
           Examples.linux_bridge Examples.host
           1%positive Examples.options_missing_cwd Examples.nodePty_spawns
           (Examples.state_with Examples.options_missing_cwd)
           eq_refl eq_refl eq_refl eq_refl).
Defined.

Lemma createPTY_rewrites_callers_options_witness :
  let b := Examples.bridge (Some Examples.nodePty_fails) "linux" Examples.env_plain in
  let st := Examples.state_with Examples.options_missing_cwd in
  heap (snd (createPTY b Examples.host 1%positive st)) !! 1%positive =
    Some (with_cwd Examples.options_missing_cwd "/home/u")
  ∧ fst (createPTY b Examples.host 1%positive st) =
      Throw (TerminalPluginError PTY_CREATION_FAILED
               "Failed to create PTY process: posix_spawnp failed."
               (Some (JsError "Error" "posix_spawnp failed.")) (Some 1%positive)).
Proof.
  intros b st.
  pose proof (createPTY_rewrites_callers_options b Examples.host
                1%positive Examples.options_missing_cwd Examples.nodePty_fails st
                eq_refl eq_refl eq_refl eq_refl) as (Hat & _ & Hthrow).
  split.
  - exact Hat.
  - exact (proj1 (Hthrow (JsError "Error" "posix_spawnp failed.") eq_refl eq_refl)).
Defined.

Lemma destroyPTY_idempotent_witness :
  destroyPTY Examples.host 5%positive Examples.state_two_handles =
    (Ok tt, Examples.state_two_handles)
  ∧ (∃ warned,
       destroyPTY Examples.host 2%positive Examples.state_two_handles =
         (Ok tt,
          log_events ([EvSetDelete 2%positive; EvKill 2%positive] ++ warned ++
                      [EvRemoveAllListeners 2%positive])
            (set_activePTYs (λ s, JsSet.delete s 2%positive)
               Examples.state_two_handles))
       ∧ warned = [EvWarn "Failed to kill PTY process:"]
       ∧ 2%positive ∉
           activePTYs (snd (destroyPTY Examples.host 2%positive
                              Examples.state_two_handles))).
Proof.
  split.
  - apply (proj1 (destroyPTY_idempotent Examples.host 5%positive
                    Examples.state_two_handles)).
    apply (bool_decide_unpack _). vm_compute. exact I.
  - apply (proj1 (proj2 (destroyPTY_idempotent Examples.host 2%positive
                           Examples.state_two_handles))).
    apply (bool_decide_unpack _). vm_compute. exact I.
Defined.

(** C3 at the failing input: handles 1 and 2 are tracked and handle 1
    throws when its observers are released.  [destroyPTY] rethrows that
    as PTY_CREATION_FAILED, [cleanup] has nothing around the call to
    catch it, so the loop ends at the first entry and the final
    [clear()] is never reached: [cleanup] throws, handle 2 is never
    asked to terminate and stays tracked, and the count is 1 instead of
    0, although handle 2 on its own is destroyed without error. *)
Theorem cleanup_aborts_when_release_fails :
  let r := cleanup Examples.host_release_fails Examples.state_two_handles in
  NoDup (activePTYs Examples.state_two_handles)
  ∧ fst r = Throw (TerminalPluginError PTY_CREATION_FAILED
                     "Failed to destroy PTY process"
                     (Some (JsError "Error" "socket closed")) None)
  ∧ activePTYs (snd r) = [2%positive]
  ∧ killed (trace (snd r)) = [1%positive]
  ∧ trace (snd r) =
      [EvSetDelete 1%positive; EvKill 1%positive; EvRemoveAllListeners 1%positive]
  ∧ fst (getActivePTYCount (snd r)) = Ok 1
  ∧ fst (getActivePTYCount (snd r)) ≠ Ok 0
  ∧ fst (destroyPTY Examples.host_release_fails 2%positive (snd r)) = Ok tt.
Proof.
  split; [apply (bool_decide_unpack _); vm_compute; exact I|].
  repeat split; try reflexivity.
  vm_compute. discriminate.
Qed.

Lemma cleanup_empties_active_set_witness :
  cleanup Examples.host Examples.state_two_handles =
    (Ok tt,
     log_events [EvSetDelete 1%positive; EvKill 1%positive;
                 EvRemoveAllListeners 1%positive;
                 EvSetDelete 2%positive; EvKill 2%positive;
                 EvWarn "Failed to kill PTY process:";
                 EvRemoveAllListeners 2%positive;
                 EvSetClear]
       (set_activePTYs (λ _, []) Examples.state_two_handles))
  ∧ killed (flat_map (destroy_events Examples.host)
              (activePTYs Examples.state_two_handles) ++ [EvSetClear]) =
      [1%positive; 2%positive]
  ∧ fst (getActivePTYCount (snd (cleanup Examples.host Examples.state_two_handles))) =
      Ok 0.
Proof.
  apply (cleanup_empties_active_set Examples.host Examples.state_two_handles).
  - apply (bool_decide_unpack _). vm_compute. exact I.
  - intros p _. reflexivity.
Defined.

(** C7 at the failing input: the user configured /opt/fish and the
    bridge's synchronous check throws on it.  [getDefaultShell] lets the
    throw out, although [validateShellPath] answers [false] on the very
    same shell, and although the system default is there to fall back
    to. *)
Theorem getDefaultShell_check_throw_escapes :
  getDefaultShell Examples.linux_bridge Examples.state_configured =
    (Throw (JsError "Error" "EACCES"),
     log_events [EvSettingsProvider; EvValidateShellSync "/opt/fish"]
       Examples.state_configured)
  ∧ fst (validateShellPath Examples.linux_bridge "/opt/fish"
           Examples.state_configured) = Ok false
  ∧ fst (getSystemDefaultShell Examples.linux_bridge Examples.state_configured) =
      Ok "/bin/bash".
Proof. repeat split; reflexivity. Qed.

Lemma findAvailableShell_first_valid_witness :
  findAvailableShell Examples.linux_bridge Examples.state_two_handles =
    (Ok "/bin/sh",
     log_events [EvGetProcess; EvValidateShell "/bin/bash"; EvValidateShell "/bin/sh"]
       Examples.state_two_handles)
  ∧ probed [EvGetProcess; EvValidateShell "/bin/bash"; EvValidateShell "/bin/sh"] =
      ["/bin/bash"; "/bin/sh"].
Proof.
  apply (proj1 (proj2 (findAvailableShell_first_valid Examples.linux_bridge
                         Examples.state_two_handles))
           ["/bin/bash"] "/bin/sh"
           ["/bin/zsh"; "/usr/bin/bash"; "/usr/bin/sh"; "/usr/bin/zsh"]).
  - reflexivity.
  - constructor; [reflexivity | constructor].
  - reflexivity.
Defined.

(** C9, as stated, fails: the base environment defines LANG (as the
    empty string) and the environment of the returned options holds the
    default instead of the value that was there. *)
Lemma getDefaultOptions_overrides_empty_LANG :
  let b := Examples.bridge None "linux" Examples.env_empty_lang in
  let r := getDefaultOptions b Examples.dims Examples.state_two_handles in
  ElectronBridge.getEnvironmentVariables b !! "LANG" = Some EmptyString
  ∧ ∃ o opts e,
      fst r = Ok o
      ∧ heap (snd r) !! o = Some opts
      ∧ env opts = Some e
      ∧ e !! "LANG" = Some "zh_CN.UTF-8"
      ∧ e !! "LANG" ≠ ElectronBridge.getEnvironmentVariables b !! "LANG".
Proof.
  split; [reflexivity|].
  eexists _, _, _. split; [vm_compute; reflexivity|].
  split; [vm_compute; reflexivity|].
  split; [reflexivity|].
  split; [reflexivity|].
  vm_compute. discriminate.
Qed.

Lemma getDefaultOptions_env_witness :
  let b := Examples.bridge None "win32" Examples.env_plain in
  let r := getDefaultOptions b Examples.dims Examples.state_two_handles in
  ∃ opts e,
    heap (snd r) !! 1%positive = Some opts
    ∧ env opts = Some e
    ∧ e !! "LANG" = Some "en_US.UTF-8"
    ∧ e !! "LC_ALL" = Some "zh_CN.UTF-8"
    ∧ e !! "CHCP" = Some "65001"
    ∧ e !! "PYTHONIOENCODING" = Some "utf-8"
    ∧ e !! "PATH" = Some "/usr/bin".
Proof.
  intros b r.
  destruct (getDefaultOptions_env b Examples.dims Examples.state_two_handles
              1%positive (snd r) eq_refl)
    as (opts & e & Hat & Henv & Hloc & Hwin & _ & Hother).
  exists opts, e. split; [exact Hat|]. split; [exact Henv|].
  split; [|split; [|split; [|split]]].
  - apply (proj1 (Hloc "LANG" ltac:(apply (bool_decide_unpack _); vm_compute; exact I))
             "en_US.UTF-8" eq_refl).
    discriminate.
  - apply (proj2 (Hloc "LC_ALL" ltac:(apply (bool_decide_unpack _); vm_compute; exact I))).
    left. reflexivity.
  - exact (proj1 (Hwin eq_refl)).
  - exact (proj2 (Hwin eq_refl)).
  - rewrite (Hother "PATH"); [reflexivity|].
    apply (bool_decide_unpack _). vm_compute. exact I.
Defined.

Lemma createPTY_useConpty_only_on_win32_witness :
  let win := MoreExamples.win32_bridge MoreExamples.nodePty_tells_conpty in
  let st_win := Examples.state_with MoreExamples.options_win32_missing_cwd in
  let r_win := createPTY win MoreExamples.host_win32 1%positive st_win in
  let lin := Examples.bridge (Some MoreExamples.nodePty_tells_conpty) "linux"
               Examples.env_plain in
  let st := Examples.state_with Examples.options_missing_cwd in
  let r := createPTY lin Examples.host 1%positive st in
  (9%positive ∈ activePTYs (snd r_win)
   ∧ (∀ p, fst r_win = Ok p ↔
        p = 9%positive
        ∧ on (pty_object MoreExamples.host_win32 9%positive) "error" = Ok tt
        ∧ on (pty_object MoreExamples.host_win32 9%positive) "exit" = Ok tt))
  ∧ (7%positive ∈ activePTYs (snd r)
     ∧ (∀ p, fst r = Ok p ↔
          p = 7%positive
          ∧ on (pty_object Examples.host 7%positive) "error" = Ok tt
          ∧ on (pty_object Examples.host 7%positive) "exit" = Ok tt))
  ∧ useConpty <$> spawn_configs (trace (snd r_win)) = [Some true]
  ∧ useConpty <$> spawn_configs (trace (snd r)) = [None]
  ∧ fst r_win = Ok 9%positive
  ∧ fst r = Ok 7%positive.
Proof.
  intros win st_win r_win lin st r.
  split; [|split].
  - exact (proj2 (proj2 (proj2
      (proj2 (createPTY_useConpty_only_on_win32 win MoreExamples.host_win32
                1%positive st_win)
         MoreExamples.options_win32_missing_cwd MoreExamples.nodePty_tells_conpty
         eq_refl eq_refl eq_refl)))).
  - exact (proj2 (proj2 (proj2
      (proj2 (createPTY_useConpty_only_on_win32 lin Examples.host
                1%positive st)
         Examples.options_missing_cwd MoreExamples.nodePty_tells_conpty
         eq_refl eq_refl eq_refl)))).
  - repeat split; reflexivity.
Defined.

(** ** Spawn requests and the node-pty they go to *)

(** The same runs on a bridge whose node-pty has been replaced. *)
Lemma createPTY_spawn_run_with bridge host o opts np st :
  heap st !! o = Some opts →
  shell_passes bridge (shell opts) = true →
  createPTY (with_nodePty bridge np) host o st =
    match spawn np (shell opts) (args_or_empty (args opts))
            (spawn_config bridge host opts) with
    | Ok pty =>
        (registration_result host o pty,
         log_events (events_until_spawn bridge host opts ++
                     registration_events host pty)
           (set_activePTYs (λ s, JsSet.add s pty) (rewrite_cwd host o opts st)))
    | Throw e =>
        (Throw (rethrown o e),
         log_events (events_until_spawn bridge host opts)
           (rewrite_cwd host o opts st))
    end.
Proof.
  intros Ho Hsh.
  exact (createPTY_spawn_run (with_nodePty bridge np) host o opts np st
           Ho eq_refl Hsh).
Qed.

Lemma createPTY_shell_fails_with bridge host o opts np st :
  heap st !! o = Some opts →
  shell_passes bridge (shell opts) = false →
  createPTY (with_nodePty bridge np) host o st =
    (Throw (TerminalPluginError SHELL_NOT_FOUND
              ("Shell not found: " +:+ shell opts) None None),
     log_events ([EvGetNodePTY; EvGetPtyLoadMode] ++
                 shell_check_events bridge (shell opts)) st).
Proof.
  intros Ho Hsh.
  exact (createPTY_shell_fails (with_nodePty bridge np) host o opts st Ho
           (mk_is_Some _ _ eq_refl) Hsh).
Qed.

(** X4.  [createPTY] asks node-pty to spawn at most once, and it does so
    exactly when the options object is there, node-pty is available and
    the shell passes the check.  The call records one spawn request in
    that case and none otherwise.  Whatever node-pty the bridge
    provides, its spawn bears on the call only through its answer on the
    shell, the arguments and the configuration of the request: when a
    validation fails two node-pty's are indistinguishable, so spawn was
    not asked, and when both pass, two that agree on that one request
    give the same result and state, while the handle or the throw that
    spawn answers there is the one the call tracks or fails with. *)
Theorem createPTY_spawn_requests
    (bridge : ElectronBridge.t) (host : Host) (o : loc) (st : State) :
  (∃ evs,
    trace (snd (createPTY bridge host o st)) = trace st ++ evs
    ∧ length (spawn_configs evs) =
        if reaches_spawn bridge o st then 1%nat else 0%nat)
  ∧ ∀ np np' : NodePty,
      let run np := createPTY (with_nodePty bridge np) host o st in
      match heap st !! o with
      | None => run np = run np'
      | Some opts =>
          if shell_passes bridge (shell opts) then
            (spawn np (shell opts) (args_or_empty (args opts))
               (spawn_config bridge host opts) =
             spawn np' (shell opts) (args_or_empty (args opts))
               (spawn_config bridge host opts) →
             run np = run np')
            ∧ match spawn np (shell opts) (args_or_empty (args opts))
                      (spawn_config bridge host opts) with
              | Ok pty => pty ∈ activePTYs (snd (run np))
              | Throw _ =>
                  (∃ e, fst (run np) = Throw e)
                  ∧ activePTYs (snd (run np)) = activePTYs st
              end
          else run np = run np'
      end.
Proof.
  split.
  - unfold reaches_spawn.
    destruct (heap st !! o) as [opts|] eqn:Ho.
    + destruct (ElectronBridge.getNodePTY bridge) as [np|] eqn:Hnp.
      * destruct (shell_passes bridge (shell opts)) eqn:Hsh.
        -- pose proof (createPTY_after_validation bridge host _ _ _ st Ho Hnp Hsh) as Hrun.
           destruct (spawn np _ _ _) as [pty|e']; destruct Hrun as (_ & _ & Htr);
             [ exists (events_until_spawn bridge host opts ++
                         registration_events host pty)
             | exists (events_until_spawn bridge host opts) ];
             (split; [done|]);
             by rewrite ?spawn_configs_app, spawn_configs_until_spawn,
               ?spawn_configs_registration.
        -- rewrite (createPTY_shell_fails _ _ _ _ _ Ho (mk_is_Some _ _ Hnp) Hsh). simpl.
           exists ([EvGetNodePTY; EvGetPtyLoadMode] ++
                   shell_check_events bridge (shell opts)).
           split; [reflexivity|].
           by rewrite spawn_configs_app, spawn_configs_shell_check.
      * rewrite (createPTY_no_bridge _ _ _ _ _ Ho Hnp). simpl. by eexists.
    + rewrite (createPTY_undefined_options _ _ _ _ Ho). simpl.
      exists []. by rewrite app_nil_r.
  - intros np np' run.
    destruct (heap st !! o) as [opts|] eqn:Ho.
    + destruct (shell_passes bridge (shell opts)) eqn:Hsh.
      * split.
        -- intros Hagree. subst run. cbv beta.
           rewrite (createPTY_spawn_run_with _ _ _ _ _ _ Ho Hsh),
             (createPTY_spawn_run_with _ _ _ _ _ _ Ho Hsh).
           by rewrite Hagree.
        -- subst run. cbv beta.
           rewrite (createPTY_spawn_run_with _ _ _ _ _ _ Ho Hsh).
           destruct (spawn np _ _ _) as [pty|e]; simpl.
           ++ rewrite rewrite_cwd_active. apply add_elem_of_self.
           ++ rewrite rewrite_cwd_active. split; [by eexists|done].
      * subst run. cbv beta.
        by rewrite !(createPTY_shell_fails_with _ _ _ _ _ _ Ho Hsh).
    + subst run. cbv beta.
      by rewrite !(createPTY_undefined_options _ _ _ _ Ho).
Qed.

(** ** User-facing messages *)

(** X19.  The message shown to the user depends on the kind of the error
    alone, never on its technical message, and tells the kinds apart:
    two typed errors have the same user message exactly when they have
    the same kind. *)
Theorem getUserMessage_distinguishes_kinds
    (ty1 ty2 : TerminalErrorType) (m1 m2 : string) :
  getUserMessage ty1 m1 = getUserMessage ty2 m2 ↔ ty1 = ty2.
Proof.
  split.
  - destruct ty1, ty2; simpl; intros H; try reflexivity; discriminate H.
  - intros ->. by destruct ty2.
Qed.

(** ** Native module configuration *)

(** X21.  The ABI predicates agree with each other and with the two
    tables: [isABISupported] holds exactly when [getSupportedABI] answers,
    the answer is the number that was asked about, the supported numbers
    are exactly those of [MODULE_INFO.supportedABIs], each has its
    Electron and Obsidian versions on record, and [NaN] is never
    supported. *)
Theorem abi_support_consistent (abi : EmbeddedModules.number) :
  (EmbeddedModules.isABISupported abi = true ↔
     is_Some (EmbeddedModules.getSupportedABI abi))
  ∧ (∀ n, EmbeddedModules.getSupportedABI abi = Some n ↔
          abi = EmbeddedModules.Int n ∧ n ∈ EmbeddedModules.supportedABIs)
  ∧ (∀ n, EmbeddedModules.getSupportedABI abi = Some n →
          ∃ info, (n, info) ∈ EmbeddedModules.SUPPORTED_ABIS)
  ∧ EmbeddedModules.isABISupported EmbeddedModules.NaN = false.
Proof.
  assert (Hkeys : ∀ n, n ∈ EmbeddedModules.SUPPORTED_ABIS.*1 ↔
                       n ∈ EmbeddedModules.supportedABIs).
  { intros n. unfold EmbeddedModules.SUPPORTED_ABIS, EmbeddedModules.supportedABIs.
    simpl. rewrite !elem_of_cons, !elem_of_nil. tauto. }
  split; [|split; [|split]]; [| | |done].
  - destruct abi as [n|]; simpl.
    + case_bool_decide.
      * split; [eauto|done].
      * split; [done|]. by intros [? ?].
    + split; [done|]. by intros [? ?].
  - intros n. destruct abi as [m|]; simpl.
    + case_bool_decide as Hm.
      * split.
        -- intros [= <-]. split; [done|]. by apply Hkeys.
        -- by intros [[= <-] _].
      * split; [done|]. intros [[= <-] Hn]. by apply Hkeys in Hn.
    + split; [done|]. by intros [? _].
  - intros n. destruct abi as [m|]; simpl; [|done].
    case_bool_decide as Hm; [|done]. intros [= <-].
    rewrite !elem_of_cons, elem_of_nil in Hm.
    destruct Hm as [->|[->|[]]]; eexists; unfold EmbeddedModules.SUPPORTED_ABIS;
      [by left|by right; left].
Qed.

Lemma pretty_N_go_ne_letter_N x s s' :
  s ≠ "N" +:+ s' → pretty_N_go x s ≠ "N" +:+ s'.
Proof.
  revert s. induction (N.lt_wf_0 x) as [x _ IH]; intros s ?.
  assert (x = 0 ∨ 0 < x)%N as [->|?] by lia.
  - by rewrite pretty_N_go_0.
  - rewrite pretty_N_go_step by done. apply IH.
    { by apply N.div_lt. }
    unfold pretty_N_char. by repeat case_match.
Qed.

(** The digits of an integer never read "NaN". *)
Lemma pretty_Z_not_NaN (n : Z) : pretty n ≠ "NaN".
Proof.
  unfold pretty, pretty_Z. destruct n as [|x|x]; [done| |done].
  unfold pretty, pretty_positive, pretty, pretty_N.
  case_decide; [done|]. by apply (pretty_N_go_ne_letter_N _ _ "aN").
Qed.

(** X22.  For one platform and architecture, two ABI numbers that are
    safe integers or [NaN] give the same archive suffix only when they
    are the same number; the suffix of a safe integer ends in its
    decimal digits. *)
Theorem getNativeModulesSuffix_injective_in_abi
    (platform arch : string) (abi1 abi2 : EmbeddedModules.number) (suffix : string) :
  EmbeddedModules.getNativeModulesSuffix platform arch abi1 = Some suffix →
  EmbeddedModules.getNativeModulesSuffix platform arch abi2 = Some suffix →
  abi1 = abi2
  ∧ ∀ n, abi1 = EmbeddedModules.Int n →
         (- EmbeddedModules.MAX_SAFE_INTEGER ≤ n ≤ EmbeddedModules.MAX_SAFE_INTEGER)%Z
         ∧ suffix = platform +:+ "_" +:+ arch +:+ "-abi" +:+ pretty n.
Proof.
  unfold EmbeddedModules.getNativeModulesSuffix.
  intros H1 H2.
  apply fmap_Some in H1 as (d1 & Hd1 & ->).
  apply fmap_Some in H2 as (d2 & Hd2 & Heq).
  repeat apply (inj (String.app _)) in Heq. subst d2.
  split.
  - destruct abi1 as [n1|], abi2 as [n2|]; simpl in Hd1, Hd2.
    + repeat case_bool_decide; try done.
      injection Hd1 as <-. injection Hd2 as Hp.
      apply (inj pretty) in Hp. by subst.
    + case_bool_decide; [|done]. injection Hd1 as <-. injection Hd2 as Hp.
      symmetry in Hp. by apply pretty_Z_not_NaN in Hp.
    + case_bool_decide; [|done]. injection Hd2 as <-. injection Hd1 as Hp.
      symmetry in Hp. by apply pretty_Z_not_NaN in Hp.
    + done.
  - intros n ->. simpl in Hd1. case_bool_decide; [|done].
    injection Hd1 as <-. done.
Qed.

Lemma own_property_supported (k : string) :
  match own_property EmbeddedModules.PLATFORM_BINARIES k with
  | Some files =>
      k ∈ EmbeddedModules.supportedPlatforms
      ∧ files ≠ [] ∧ "pty.node" ∈ files ∧ NoDup files
  | None => k ∉ EmbeddedModules.supportedPlatforms
  end.
Proof.
  unfold EmbeddedModules.PLATFORM_BINARIES, EmbeddedModules.supportedPlatforms.
  cbn -[String.eqb].
  destruct (String.eqb_spec "win32_x64" k) as [<-|H1].
  { split; [by left|]. split; [done|]. split; [by left|].
    apply (bool_decide_unpack _). by vm_compute. }
  destruct (String.eqb_spec "darwin_x64" k) as [<-|H2].
  { split; [by right; left|]. split; [done|]. split; [by left|].
    apply (bool_decide_unpack _). by vm_compute. }
  destruct (String.eqb_spec "darwin_arm64" k) as [<-|H3].
  { split; [by right; right; left|]. split; [done|]. split; [by left|].
    apply (bool_decide_unpack _). by vm_compute. }
  destruct (String.eqb_spec "linux_x64" k) as [<-|H4].
  { split; [by right; right; right; left|]. split; [done|]. split; [by left|].
    apply (bool_decide_unpack _). by vm_compute. }
  intros Hin. repeat (apply elem_of_cons in Hin as [->|Hin]; [done|]).
  by apply elem_of_nil in Hin.
Qed.

(** X23.  [isPlatformSupported] and [getRequiredFilesForPlatform] agree:
    a supported platform has a non-empty list of required files, without
    repetition and always with [pty.node] in it, and an unsupported one
    has the empty list; the one exception is a platform and architecture
    whose key names a member of [Object.prototype], for which the lookup
    hands back that member instead of a list although the platform is
    not supported. *)
Theorem platform_support_consistent (platform arch : string) :
  match EmbeddedModules.getRequiredFilesForPlatform platform arch with
  | EmbeddedModules.Files files =>
      (EmbeddedModules.isPlatformSupported platform arch = true ↔ files ≠ [])
      ∧ (files = [] ∨ ("pty.node" ∈ files ∧ NoDup files))
  | EmbeddedModules.PrototypeMember member =>
      EmbeddedModules.isPlatformSupported platform arch = false
      ∧ member = platform +:+ "_" +:+ arch
      ∧ member ∈ Object_prototype_names
  end.
Proof.
  unfold EmbeddedModules.getRequiredFilesForPlatform,
    EmbeddedModules.isPlatformSupported, js_get.
  cbv zeta. generalize (platform +:+ "_" +:+ arch). intros k.
  pose proof (own_property_supported k) as Hk.
  destruct (own_property EmbeddedModules.PLATFORM_BINARIES k) as [files|].
  - destruct Hk as (Hin & Hne & Hpty & Hnd). split; [|by right].
    by rewrite bool_decide_eq_true.
  - case_bool_decide as Hproto.
    + split; [|done]. by apply bool_decide_eq_false.
    + split; [|by left]. rewrite bool_decide_eq_true. done.
Qed.

(** The exception of X23 is real: the key of an empty platform with
    architecture [_proto__] is [__proto__]. *)
Example getRequiredFilesForPlatform_proto :
  EmbeddedModules.getRequiredFilesForPlatform EmptyString "_proto__" =
    EmbeddedModules.PrototypeMember "__proto__"
  ∧ EmbeddedModules.getRequiredFilesForPlatform "freebsd" "x64" =
      EmbeddedModules.Files []
  ∧ EmbeddedModules.getRequiredFilesForPlatform "darwin" "arm64" =
      EmbeddedModules.Files ["pty.node"; "spawn-helper"].
Proof. by vm_compute. Qed.

(** ** Theme catalogue *)

Lemma filter_partition {A} (f g : A → bool) (l : list A) :
  (∀ x, g x = negb (f x)) →
  List.filter f l ++ List.filter g l ≡ₚ l.
Proof.
  intros Hfg. induction l as [|x l IH]; [done|].
  simpl. rewrite Hfg. destruct (f x); simpl.
  - by rewrite IH.
  - rewrite <- Permutation_middle. by rewrite IH.
Qed.

Lemma filter_sublist {A} (f : A → bool) (l : list A) :
  List.filter f l `sublist_of` l.
Proof.
  induction l as [|x l IH]; [done|].
  simpl. destruct (f x); by constructor.
Qed.

Lemma elem_of_List_filter {A} (f : A → bool) (l : list A) (x : A) :
  x ∈ List.filter f l ↔ x ∈ l ∧ f x = true.
Proof. rewrite !list_elem_of_In. apply filter_In. Qed.

Lemma own_property_Some {A} (obj : list (string * A)) k v :
  own_property obj k = Some v → (k, v) ∈ obj.
Proof.
  induction obj as [|[k' v'] obj IH]; [done|].
  simpl. destruct (String.eqb_spec k' k) as [->|Hne].
  - intros [= ->]. by left.
  - intros H. right. by apply IH.
Qed.

Lemma own_property_None {A} (obj : list (string * A)) k :
  own_property obj k = None ↔ k ∉ obj.*1.
Proof.
  induction obj as [|[k' v'] obj IH]; simpl.
  - split; [|done]. intros _. apply not_elem_of_nil.
  - destruct (String.eqb_spec k' k) as [->|Hne].
    + split; [done|]. intros H. destruct H. by left.
    + rewrite IH, not_elem_of_cons.
      split; [intros H; split; [congruence|done] | by intros [_ H]].
Qed.

Lemma own_property_NoDup {A} (obj : list (string * A)) k v :
  NoDup obj.*1 → (k, v) ∈ obj → own_property obj k = Some v.
Proof.
  induction obj as [|[k' v'] obj IH]; intros Hnd Hin.
  - by apply elem_of_nil in Hin.
  - simpl in *. apply NoDup_cons in Hnd as [Hk' Hnd].
    apply elem_of_cons in Hin as [[= -> ->]|Hin].
    + by rewrite String.eqb_refl.
    + destruct (String.eqb_spec k' k) as [->|Hne]; [|by apply IH].
      destruct Hk'. apply list_elem_of_fmap. by exists (k, v).
Qed.

Lemma PRESET_THEMES_ids_NoDup : NoDup Themes.PRESET_THEMES.*1.
Proof. apply (bool_decide_unpack _). by vm_compute. Qed.

(** X24.  The dark and the light themes partition the catalogue: every
    preset is listed by exactly one of [getDarkThemes] and
    [getLightThemes], under its own type, and both lists keep the order
    of the catalogue. *)
Theorem themes_partition :
  Themes.getDarkThemes ++ Themes.getLightThemes ≡ₚ Themes.PRESET_THEMES
  ∧ Themes.getDarkThemes `sublist_of` Themes.PRESET_THEMES
  ∧ Themes.getLightThemes `sublist_of` Themes.PRESET_THEMES
  ∧ (∀ entry, entry ∈ Themes.getDarkThemes ↔
       entry ∈ Themes.PRESET_THEMES ∧ Themes.type entry.2 = Themes.dark)
  ∧ (∀ entry, entry ∈ Themes.getLightThemes ↔
       entry ∈ Themes.PRESET_THEMES ∧ Themes.type entry.2 = Themes.light)
  ∧ (∀ entry, ¬ (entry ∈ Themes.getDarkThemes ∧ entry ∈ Themes.getLightThemes)).
Proof.
  assert (Hdark : ∀ entry, entry ∈ Themes.getDarkThemes ↔
            entry ∈ Themes.PRESET_THEMES ∧ Themes.type entry.2 = Themes.dark).
  { intros entry. unfold Themes.getDarkThemes. rewrite elem_of_List_filter.
    destruct (Themes.type entry.2); split; intros [? ?]; by split. }
  assert (Hlight : ∀ entry, entry ∈ Themes.getLightThemes ↔
            entry ∈ Themes.PRESET_THEMES ∧ Themes.type entry.2 = Themes.light).
  { intros entry. unfold Themes.getLightThemes. rewrite elem_of_List_filter.
    destruct (Themes.type entry.2); split; intros [? ?]; by split. }
  split; [|split; [|split; [|split; [|split]]]].
  - apply filter_partition. intros [id theme]. simpl.
    by destruct (Themes.type theme).
  - apply filter_sublist.
  - apply filter_sublist.
  - exact Hdark.
  - exact Hlight.
  - intros entry [[_ Hd]%Hdark [_ Hl]%Hlight]. congruence.
Qed.

(** X25.  Listing and lookup agree: [getThemeById] answers a theme for
    an id exactly when [getDarkThemes] or [getLightThemes] lists that
    theme under that id; for any other id it answers [undefined], unless
    the id names a member of [Object.prototype], in which case it hands
    back that member. *)
Theorem getThemeById_round_trip (id : string) :
  (∀ theme,
     Themes.getThemeById id = Own theme ↔
     (id, theme) ∈ Themes.getDarkThemes ++ Themes.getLightThemes)
  ∧ (id ∉ Themes.PRESET_THEMES.*1 →
     Themes.getThemeById id =
       if bool_decide (id ∈ Object_prototype_names) then Inherited id
       else Undefined).
Proof.
  assert (Hall : ∀ entry,
    entry ∈ Themes.getDarkThemes ++ Themes.getLightThemes ↔
    entry ∈ Themes.PRESET_THEMES).
  { intros entry. rewrite elem_of_app.
    unfold Themes.getDarkThemes, Themes.getLightThemes.
    rewrite !elem_of_List_filter.
    destruct (Themes.type entry.2); simpl; intuition discriminate. }
  split.
  - intros theme. rewrite Hall. unfold Themes.getThemeById, js_get. split.
    + destruct (own_property Themes.PRESET_THEMES id) as [t|] eqn:Hown.
      * intros [= ->]. by apply own_property_Some.
      * by case_bool_decide.
    + intros Hin.
      by rewrite (own_property_NoDup _ _ _ PRESET_THEMES_ids_NoDup Hin).
  - intros Hid. apply own_property_None in Hid.
    unfold Themes.getThemeById, js_get. by rewrite Hid.
Qed.

(** The ids of the catalogue and two ids outside it. *)
Example getThemeById_examples :
  match Themes.getThemeById "dracula" with
  | Own theme => Themes.name theme = "Dracula" ∧ Themes.type theme = Themes.dark
  | _ => False
  end
  ∧ Themes.getThemeById "no-such-theme" = Undefined
  ∧ Themes.getThemeById "constructor" = Inherited "constructor"
  ∧ length Themes.getDarkThemes = 8%nat
  ∧ length Themes.getLightThemes = 4%nat.
Proof. by vm_compute. Qed.

(** ** Shell arguments in the settings tab *)

Section ShellArgsProperties.

Import ShellArgs.

Lemma trimStart_decompose s :
  ∃ ws, s = ws ++ trimStart s ∧ Forall (λ c, is_whitespace c = true) ws.
Proof.
  induction s as [|c s (ws & Hs & Hws)]; [by exists []|].
  simpl. destruct (is_whitespace c) eqn:Hc.
  - exists (c :: ws). split; [simpl; by f_equal|by constructor].
  - by exists [].
Qed.

Lemma trimStart_head s :
  match trimStart s with
  | [] => True
  | c :: _ => is_whitespace c = false
  end.
Proof.
  induction s as [|c s IH]; [done|].
  simpl. by destruct (is_whitespace c) eqn:Hc.
Qed.

Lemma trimStart_fixed s :
  match s with
  | [] => True
  | c :: _ => is_whitespace c = false
  end →
  trimStart s = s.
Proof. destruct s as [|c s]; [done|]. simpl. by intros ->. Qed.

Lemma trimStart_idem s : trimStart (trimStart s) = trimStart s.
Proof. apply trimStart_fixed, trimStart_head. Qed.

Lemma trimStart_ws_app ws s :
  Forall (λ c, is_whitespace c = true) ws → trimStart (ws ++ s) = trimStart s.
Proof.
  induction ws as [|c ws IH]; [done|].
  intros [Hc Hws]%Forall_cons. simpl. rewrite Hc. by apply IH.
Qed.

Lemma trimStart_length s : (length (trimStart s) ≤ length s)%nat.
Proof.
  destruct (trimStart_decompose s) as (ws & Hs & _).
  rewrite Hs at 2. rewrite length_app. lia.
Qed.

Lemma trimStart_same_length s :
  length (trimStart s) = length s → trimStart s = s.
Proof.
  destruct (trimStart_decompose s) as (ws & Hs & _). intros Hlen.
  rewrite Hs in Hlen at 2. rewrite length_app in Hlen.
  destruct ws; [done|]. simpl in Hlen. lia.
Qed.

Lemma trim_fixed_iff s :
  trim s = s ↔ trimStart s = s ∧ trimStart (rev s) = rev s.
Proof.
  unfold trim, trimEnd. split.
  - intros Htrim.
    assert (Hstart : trimStart s = s).
    { apply trimStart_same_length.
      pose proof (trimStart_length s).
      pose proof (trimStart_length (rev (trimStart s))) as Hlen.
      rewrite length_rev in Hlen.
      apply (f_equal length) in Htrim. rewrite length_rev in Htrim. lia. }
    split; [done|]. rewrite Hstart in Htrim.
    apply (f_equal (@rev N)) in Htrim. by rewrite rev_involutive in Htrim.
  - intros [-> ->]. apply rev_involutive.
Qed.

Lemma trim_idem s : trim (trim s) = trim s.
Proof.
  apply trim_fixed_iff. unfold trim, trimEnd. rewrite rev_involutive.
  split; [|apply trimStart_idem].
  destruct (trimStart_decompose (rev (trimStart s))) as (ws & Hrev & _).
  apply (f_equal (@rev N)) in Hrev. rewrite rev_involutive, rev_app_distr in Hrev.
  pose proof (trimStart_head s) as Hhead. rewrite Hrev in Hhead.
  apply trimStart_fixed.
  by destruct (rev (trimStart (rev (trimStart s)))).
Qed.

Lemma elem_of_trimStart c s : c ∈ trimStart s → c ∈ s.
Proof.
  destruct (trimStart_decompose s) as (ws & Hs & _). intros Hc.
  rewrite Hs, elem_of_app. by right.
Qed.

Lemma elem_of_trim c s : c ∈ trim s → c ∈ s.
Proof.
  unfold trim, trimEnd. intros Hc.
  apply list_elem_of_In, in_rev, list_elem_of_In, elem_of_trimStart in Hc.
  apply list_elem_of_In, in_rev, list_elem_of_In in Hc.
  by apply elem_of_trimStart.
Qed.

Lemma split_not_nil sep s : split sep s ≠ [].
Proof.
  destruct s as [|c s]; [done|]. simpl.
  destruct (N.eqb c sep); [done|]. by destruct (split sep s).
Qed.

Lemma split_without sep s : sep ∉ s → split sep s = [s].
Proof.
  induction s as [|c s IH]; [done|].
  intros [Hc Hs]%not_elem_of_cons. simpl.
  destruct (N.eqb_spec c sep); [congruence|]. by rewrite IH.
Qed.

Lemma split_at_first sep s rest :
  sep ∉ s → split sep (s ++ sep :: rest) = s :: split sep rest.
Proof.
  induction s as [|c s IH].
  - intros _. simpl. by rewrite N.eqb_refl.
  - intros [Hc Hs]%not_elem_of_cons. simpl.
    destruct (N.eqb_spec c sep); [congruence|]. by rewrite IH.
Qed.

Lemma split_pieces_without sep s : Forall (λ piece, sep ∉ piece) (split sep s).
Proof.
  induction s as [|c s IH]; simpl.
  - repeat constructor. apply not_elem_of_nil.
  - destruct (N.eqb_spec c sep) as [->|Hne].
    + constructor; [apply not_elem_of_nil|done].
    + destruct (split sep s) as [|piece pieces].
      * repeat constructor. rewrite not_elem_of_cons. split; [congruence|].
        apply not_elem_of_nil.
      * apply Forall_cons in IH as [Hp Hps]. constructor; [|done].
        rewrite not_elem_of_cons. split; [congruence|done].
Qed.

Lemma whitespace_without_comma ws :
  Forall (λ c, is_whitespace c = true) ws → comma ∉ ws.
Proof.
  intros Hws Hin. rewrite Forall_forall in Hws. by apply Hws in Hin.
Qed.

Lemma trim_ws_prefix ws s :
  Forall (λ c, is_whitespace c = true) ws → trim s = s → trim (ws ++ s) = s.
Proof.
  intros Hws Hs. unfold trim in *. by rewrite trimStart_ws_app.
Qed.

Lemma map_trim_split_join ws a args :
  Forall (λ c, is_whitespace c = true) ws →
  Forall stored (a :: args) →
  map trim (split comma (ws ++ join [comma; space] (a :: args))) = a :: args.
Proof.
  revert ws a. induction args as [|b args IH]; intros ws a Hws Hst.
  - apply Forall_cons in Hst as [(_ & Hcomma & Htrim) _]. simpl.
    rewrite split_without.
    + simpl. by rewrite trim_ws_prefix.
    + rewrite not_elem_of_app. split; [by apply whitespace_without_comma|done].
  - apply Forall_cons in Hst as [(_ & Hcomma & Htrim) Hst].
    change (join [comma; space] (a :: b :: args))
      with (a ++ comma :: ([space] ++ join [comma; space] (b :: args))).
    rewrite app_assoc, split_at_first.
    + cbn [map]. rewrite trim_ws_prefix by done. f_equal.
      apply IH; [by repeat constructor|done].
    + rewrite not_elem_of_app. split; [by apply whitespace_without_comma|done].
Qed.

Lemma filter_stored args :
  Forall stored args →
  List.filter (λ s : jsstring, negb (Nat.eqb (length s) 0)) args = args.
Proof.
  induction args as [|a args IH]; [done|].
  intros [(Hne & _) Hst]%Forall_cons. simpl.
  destruct a; [done|]. simpl. f_equal. by apply IH.
Qed.

Lemma onChange_display_stored args :
  Forall stored args → onChange (display args) = args.
Proof.
  intros Hst. unfold onChange, display. destruct args as [|a args]; [done|].
  pose proof (map_trim_split_join [] a args (Forall_nil_2 _) Hst) as Hmap.
  cbn [app] in Hmap. rewrite Hmap. by apply filter_stored.
Qed.

Lemma onChange_stored value : Forall stored (onChange value).
Proof.
  unfold onChange. apply Forall_forall. intros s Hs.
  apply list_elem_of_In, filter_In in Hs as [Hs Hlen].
  apply in_map_iff in Hs as (piece & <- & Hpiece).
  split; [|split].
  - intros Heq. by rewrite Heq in Hlen.
  - intros Hc. apply elem_of_trim in Hc.
    pose proof (split_pieces_without comma value) as Hall.
    rewrite Forall_forall in Hall. apply (Hall piece); [|done].
    by apply list_elem_of_In.
  - apply trim_idem.
Qed.

(** X26.  What the settings tab shows for the stored shell arguments
    parses back to them: for arguments that are not empty, hold no comma
    and have no white space at either end, [onChange] of the displayed
    text is the list that was displayed, the empty list included. *)
Theorem onChange_display_round_trip (shellArgs : list jsstring) :
  Forall (λ s, s ≠ [] ∧ (comma ∉ s) ∧ trim s = s) shellArgs →
  onChange (display shellArgs) = shellArgs.
Proof. apply onChange_display_stored. Qed.

(** X27.  Whatever text is typed, [onChange] stores arguments in normal
    form: none is empty, none holds a comma (an argument with a comma
    cannot be entered), none has white space at either end; and showing
    the stored arguments and parsing the text again stores the same
    arguments. *)
Theorem onChange_normal_form (value : jsstring) :
  Forall (λ s, s ≠ [] ∧ (comma ∉ s) ∧ trim s = s) (onChange value)
  ∧ onChange (display (onChange value)) = onChange value.
Proof.
  split; [apply onChange_stored|].
  apply onChange_display_stored, onChange_stored.
Qed.

End ShellArgsProperties.

(** "--login, -i" is stored as two arguments; " a,,b , " as two. *)
Example onChange_examples :
  ShellArgs.onChange [45; 45; 108; 111; 103; 105; 110; 44; 32; 45; 105]%N =
    [[45; 45; 108; 111; 103; 105; 110]; [45; 105]]%N
  ∧ ShellArgs.onChange [32; 97; 44; 44; 98; 32; 44; 32]%N = [[97]; [98]]%N
  ∧ ShellArgs.onChange [] = []
  ∧ ShellArgs.display [[97]; [98]]%N = [97; 44; 32; 98]%N.
Proof. by vm_compute. Qed.

(** ** The further statements at concrete inputs *)

Lemma createPTY_success_tracks_handle_witness :
  let st := Examples.state_with MoreExamples.options_ok in
  let r := createPTY Examples.linux_bridge Examples.host 1%positive st in
  fst r = Ok 7%positive
  ∧ activePTYs (snd r) = [7%positive]
  ∧ fst (getActivePTYCount (snd r)) = Ok 1
  ∧ spawn_cwd (spawn_config Examples.linux_bridge Examples.host
                 MoreExamples.options_ok) = "/vault"
  ∧ heap (snd r) = heap st
  ∧ trace (snd r) =
      trace st ++
      events_until_spawn Examples.linux_bridge Examples.host MoreExamples.options_ok ++
      [EvSetAdd 7%positive; EvOn 7%positive "error"; EvOn 7%positive "exit"].
Proof.
  apply (createPTY_success_tracks_handle Examples.linux_bridge Examples.host
           1%positive MoreExamples.options_ok Examples.nodePty_spawns 7%positive
           (Examples.state_with MoreExamples.options_ok));
    try reflexivity.
  apply (bool_decide_unpack _). vm_compute. exact I.
Defined.

Lemma createPTY_options_frame_witness :
  let b := Examples.bridge (Some Examples.nodePty_fails) "linux" Examples.env_plain in
  let st := Examples.state_with Examples.options_missing_cwd in
  heap (snd (createPTY b Examples.host 1%positive st)) !! 2%positive = None
  ∧ heap (snd (createPTY b Examples.host 1%positive st)) !! 1%positive =
      Some (with_cwd Examples.options_missing_cwd "/home/u").
Proof.
  intros b st.
  pose proof (createPTY_options_frame b Examples.host 1%positive st) as [Hother Hat].
  split.
  - exact (Hother 2%positive ltac:(discriminate)).
  - exact Hat.
Defined.

Lemma destroyPTY_removes_exactly_one_witness :
  let st' := snd (destroyPTY Examples.host 2%positive Examples.state_two_handles) in
  fst (getActivePTYCount st') = Ok 1
  ∧ (∀ q, q ∈ activePTYs st' ↔ q ≠ 2%positive ∧ q ∈ [1%positive; 2%positive])
  ∧ activePTYs st' `sublist_of` [1%positive; 2%positive]
  ∧ heap st' = ∅.
Proof.
  apply (destroyPTY_removes_exactly_one Examples.host 2%positive
           Examples.state_two_handles).
  - apply (bool_decide_unpack _). vm_compute. exact I.
  - apply (bool_decide_unpack _). vm_compute. exact I.
Defined.

Lemma createPTY_then_destroyPTY_restores_active_set_witness :
  let st := Examples.state_with MoreExamples.options_ok in
  let st1 := snd (createPTY Examples.linux_bridge Examples.host 1%positive st) in
  activePTYs (snd (destroyPTY Examples.host 7%positive st1)) = []
  ∧ activePTYs (snd (on_exit 7%positive st1)) = []
  ∧ activePTYs (snd (on_error 7%positive st1)) = []
  ∧ fst (getActivePTYCount (snd (destroyPTY Examples.host 7%positive st1))) = Ok 0.
Proof.
  apply (createPTY_then_destroyPTY_restores_active_set
           Examples.linux_bridge Examples.host 1%positive 7%positive
           (Examples.state_with MoreExamples.options_ok)).
  - reflexivity.
  - apply (bool_decide_unpack _). vm_compute. exact I.
Defined.

Lemma cleanup_stops_at_first_release_failure_witness :
  cleanup Examples.host_release_fails Examples.state_two_handles =
    (Throw (TerminalPluginError PTY_CREATION_FAILED
              "Failed to destroy PTY process"
              (Some (JsError "Error" "socket closed")) None),
     log_events (flat_map (destroy_events Examples.host_release_fails)
                   ([] ++ [1%positive]))
       (set_activePTYs (λ _, [2%positive]) Examples.state_two_handles))
  ∧ killed (flat_map (destroy_events Examples.host_release_fails)
              ([] ++ [1%positive])) = [] ++ [1%positive]
  ∧ EvSetClear ∉ flat_map (destroy_events Examples.host_release_fails)
                   ([] ++ [1%positive]).
Proof.
  apply (cleanup_stops_at_first_release_failure Examples.host_release_fails
           Examples.state_two_handles [] 1%positive [2%positive]
           (JsError "Error" "socket closed")).
  - apply (bool_decide_unpack _). vm_compute. exact I.
  - reflexivity.
  - intros q Hq. by apply elem_of_nil in Hq.
  - reflexivity.
Defined.

Lemma cleanup_twice_witness :
  let st' := snd (cleanup Examples.host Examples.state_two_handles) in
  activePTYs st' = []
  ∧ fst (getActivePTYCount st') = Ok 0
  ∧ cleanup Examples.host st' = (Ok tt, log_events [EvSetClear] st').
Proof.
  apply (cleanup_twice Examples.host Examples.state_two_handles
           (snd (cleanup Examples.host Examples.state_two_handles))).
  reflexivity.
Defined.

Lemma active_set_stays_duplicate_free_witness :
  NoDup (activePTYs (snd (createPTY Examples.linux_bridge Examples.host 1%positive
                            Examples.state_two_handles)))
  ∧ NoDup (activePTYs (snd (cleanup Examples.host_release_fails
                              Examples.state_two_handles))).
Proof.
  pose proof (active_set_stays_duplicate_free Examples.linux_bridge Examples.host
                Examples.state_two_handles
                ltac:(apply (bool_decide_unpack _); vm_compute; exact I))
    as (Hcreate & _).
  pose proof (active_set_stays_duplicate_free Examples.linux_bridge
                Examples.host_release_fails Examples.state_two_handles
                ltac:(apply (bool_decide_unpack _); vm_compute; exact I))
    as (_ & _ & _ & _ & _ & Hcleanup).
  split; [apply Hcreate | exact Hcleanup].
Defined.

Lemma abi_support_consistent_witness :
  EmbeddedModules.isABISupported (EmbeddedModules.Int 140) = true
  ∧ EmbeddedModules.Int 136 = EmbeddedModules.Int 136 ∧ 136 ∈ EmbeddedModules.supportedABIs
  ∧ ∃ info, (136, info) ∈ EmbeddedModules.SUPPORTED_ABIS.
Proof.
  pose proof (abi_support_consistent (EmbeddedModules.Int 140)) as (Hiff & _).
  pose proof (abi_support_consistent (EmbeddedModules.Int 136)) as (_ & Hsome & Hinfo & _).
  split; [apply Hiff; by eexists|].
  split; [exact (proj1 (proj1 (Hsome 136) eq_refl))|].
  split; [exact (proj2 (proj1 (Hsome 136) eq_refl))|].
  exact (Hinfo 136 eq_refl).
Defined.

Lemma getNativeModulesSuffix_injective_in_abi_witness :
  EmbeddedModules.getNativeModulesSuffix "darwin" "arm64" (EmbeddedModules.Int 136) =
    Some "darwin_arm64-abi136"
  ∧ EmbeddedModules.getNativeModulesSuffix "darwin" "arm64"
      (EmbeddedModules.Int (2 ^ 53)) = None
  ∧ EmbeddedModules.Int 136 = EmbeddedModules.Int 136.
Proof.
  split; [by vm_compute|]. split; [by vm_compute|].
  apply (getNativeModulesSuffix_injective_in_abi "darwin" "arm64"
           (EmbeddedModules.Int 136) (EmbeddedModules.Int 136)
           "darwin_arm64-abi136"); by vm_compute.
Defined.

Lemma getThemeById_round_trip_witness :
  (∀ theme,
     Themes.getThemeById "nord" = Own theme ↔
     ("nord", theme) ∈ Themes.getDarkThemes ++ Themes.getLightThemes)
  ∧ Themes.getThemeById "toString" = Inherited "toString"
  ∧ Themes.getThemeById "nordic" = Undefined.
Proof.
  split; [exact (proj1 (getThemeById_round_trip "nord"))|].
  split.
  - apply (proj2 (getThemeById_round_trip "toString")).
    apply (bool_decide_unpack _). by vm_compute.
  - apply (proj2 (getThemeById_round_trip "nordic")).
    apply (bool_decide_unpack _). by vm_compute.
Defined.

Lemma onChange_display_round_trip_witness :
  ShellArgs.onChange
    (ShellArgs.display [MoreExamples.arg_login; MoreExamples.arg_l]) =
    [MoreExamples.arg_login; MoreExamples.arg_l].
Proof.
  apply (onChange_display_round_trip [MoreExamples.arg_login; MoreExamples.arg_l]).
  repeat constructor; try discriminate; try reflexivity;
    apply (bool_decide_unpack _); by vm_compute.
Defined.

Lemma createPTY_tracks_what_spawn_returns_witness :
  let st := Examples.state_with MoreExamples.options_ok in
  let r := createPTY Examples.linux_bridge
             MoreExamples.host_exit_registration_fails 1%positive st in
  activePTYs (snd r) = [7%positive]
  ∧ (∃ e, fst r = Throw e)
  ∧ trace (snd r) =
      events_until_spawn Examples.linux_bridge
        MoreExamples.host_exit_registration_fails MoreExamples.options_ok ++
      [EvSetAdd 7%positive; EvOn 7%positive "error"; EvOn 7%positive "exit"].
Proof.
  intros st r.
  assert (H :
    activePTYs (snd r) = JsSet.add (activePTYs st) 7%positive
    ∧ 7%positive ∈ activePTYs (snd r)
    ∧ Forall (λ q, q ∈ activePTYs (snd r)) (activePTYs st)
    ∧ (∀ p, fst r = Ok p ↔
         p = 7%positive
         ∧ on (pty_object MoreExamples.host_exit_registration_fails 7%positive)
             "error" = Ok tt
         ∧ on (pty_object MoreExamples.host_exit_registration_fails 7%positive)
             "exit" = Ok tt)
    ∧ (fst r ≠ Ok 7%positive → ∃ e, fst r = Throw e)).
  { exact (proj1 (proj2
      (createPTY_tracks_what_spawn_returns Examples.linux_bridge
         MoreExamples.host_exit_registration_fails 1%positive st))
      MoreExamples.options_ok Examples.nodePty_spawns eq_refl eq_refl eq_refl). }
  destruct H as (Hact & _ & _ & _ & Hthrow).
  split; [exact Hact|]. split; [|reflexivity].
  apply Hthrow. vm_compute. discriminate.
Defined.

Lemma createPTY_spawn_requests_witness :
  let st := Examples.state_with MoreExamples.options_ok in
  let run np := createPTY (with_nodePty Examples.linux_bridge np)
                  Examples.host 1%positive st in
  run Examples.nodePty_spawns = run MoreExamples.nodePty_tells_conpty
  ∧ 7%positive ∈ activePTYs (snd (run Examples.nodePty_spawns))
  ∧ (∃ e, fst (run Examples.nodePty_fails) = Throw e)
  ∧ activePTYs (snd (run Examples.nodePty_fails)) = [].
Proof.
  intros st run.
  assert (H :
    (spawn Examples.nodePty_spawns (shell MoreExamples.options_ok)
       (args_or_empty (args MoreExamples.options_ok))
       (spawn_config Examples.linux_bridge Examples.host MoreExamples.options_ok) =
     spawn MoreExamples.nodePty_tells_conpty (shell MoreExamples.options_ok)
       (args_or_empty (args MoreExamples.options_ok))
       (spawn_config Examples.linux_bridge Examples.host MoreExamples.options_ok) →
     run Examples.nodePty_spawns = run MoreExamples.nodePty_tells_conpty)
    ∧ 7%positive ∈ activePTYs (snd (run Examples.nodePty_spawns))).
  { exact (proj2 (createPTY_spawn_requests Examples.linux_bridge Examples.host
                    1%positive st)
             Examples.nodePty_spawns MoreExamples.nodePty_tells_conpty). }
  assert (H' :
    (spawn Examples.nodePty_fails (shell MoreExamples.options_ok)
       (args_or_empty (args MoreExamples.options_ok))
       (spawn_config Examples.linux_bridge Examples.host MoreExamples.options_ok) =
     spawn Examples.nodePty_spawns (shell MoreExamples.options_ok)
       (args_or_empty (args MoreExamples.options_ok))
       (spawn_config Examples.linux_bridge Examples.host MoreExamples.options_ok) →
     run Examples.nodePty_fails = run Examples.nodePty_spawns)
    ∧ (∃ e, fst (run Examples.nodePty_fails) = Throw e)
    ∧ activePTYs (snd (run Examples.nodePty_fails)) = activePTYs st).
  { exact (proj2 (createPTY_spawn_requests Examples.linux_bridge Examples.host
                    1%positive st)
             Examples.nodePty_fails Examples.nodePty_spawns). }
  destruct H as (Hsame & Hin). destruct H' as (_ & Hthrow & Hact).
  split; [exact (Hsame eq_refl)|]. split; [exact Hin|].
  split; [exact Hthrow|exact Hact].
Defined.
